(** * ranger.core.runner: flag squashing and the process-launch interpreter

    A shallow embedding of [src/ranger/core/runner.py]: the [Context]
    data holder with its [squash_flags] method, and [Runner.__call__]
    with the collaborators it calls (log function, UI, manager,
    executable discovery, the two spawn primitives) as an explicit
    host and state. *)

From stdpp Require Import gmap strings list fin_maps.
From Stdlib Require Import NArith Lia Ascii.

Local Open Scope string_scope.
Local Open Scope N_scope.

(** ** Python strings of flags *)

(** A Python [str] is a sequence of Unicode code points, and [ord] of a
    one-character string is its code point: a flag string is the list
    of its code points.  [ord] and [str_of] give the code points of the
    literals written in this file. *)
Definition ord (c : Ascii.ascii) : N := Ascii.N_of_ascii c.
Definition str_of (s : string) : list N := ord <$> String.list_ascii_of_string s.

(** [flag.lower()] as [squash_flags] uses it: it is applied to characters
    with [ord(flag) <= 90] only, and below 91 the only characters with a
    lowercase form are 'A'..'Z' (65..90), which move up by 32. *)
Definition lower (c : N) : N :=
  if (65 <=? c) && (c <=? 90) then c + 32 else c.

(** ** Values handed to the spawn primitives *)

(** The stream objects that occur as values of [stdin], [stdout] and
    [stderr] in the spawn options. *)
Inductive stream :=
  | SysStdout                       (* sys.stdout *)
  | SysStderr                       (* sys.stderr *)
  | PIPE                            (* subprocess.PIPE *)
  | STDOUT                          (* subprocess.STDOUT *)
  | DevNull (h : N) (mode : string) (* io.open(os.devnull, mode) *)
  | ChildStdout (pid : N).          (* process.stdout of a child *)

(** The objects stored in the [popen_kws] dict. *)
Inductive value :=
  | VNone
  | VBool (b : bool)
  | VInt (z : Z)
  | VStr (s : string)
  | VList (l : list string)
  | VStream (f : stream).

(** Python truthiness, as [if popen_kws['shell']:] applies it. *)
Definition truthy (v : value) : bool :=
  match v with
  | VNone => false
  | VBool b => b
  | VInt z => negb (z =? 0)%Z
  | VStr s => negb (String.eqb s EmptyString)
  | VList l => match l with [] => false | _ => true end
  | VStream _ => true
  end.

(** An action is a command string or a list of argument tokens. *)
Inductive Action :=
  | Command (s : string)
  | Argv (l : list string).

(** [isinstance(action, str)] *)
Definition is_str (a : Action) : bool :=
  match a with Command _ => true | Argv _ => false end.

(** The exceptions that occur in the module. *)
Inductive exn :=
  | KeyError (key : string)
  | AttributeError (attr : string)
  | TypeError
  | OSError (errno : N)
  | OtherError (name : string).

Definition is_OSError (e : exn) : bool :=
  match e with OSError _ => true | _ => false end.

(** What the log function receives: a literal text, or the f-string
    of the spawn failure, [f"Failed to run: {action}\n{ex}"]. *)
Inductive message :=
  | Text (s : string)
  | FailedToRun (a : Action) (e : exn).

(** A [subprocess.Popen] object: [stdout] is a stream when the child was
    spawned with [stdout=PIPE] and [None] otherwise. *)
Record Process := { pid : N; stdout : value }.

(** [ranger.core.fm.FM] and the log callable are collaborators; what they
    are called with is recorded in the state. *)
Variant FM := the_fm.
Variant LogFunc := the_logfunc.

(** [ranger.gui.ui.UI]: each of its two methods returns or raises. *)
Record UI := { initialize_raises : bool; suspend_raises : bool }.

Module Context.

(** The attributes of a [Context] object. *)
Record t := {
  action : option Action;
  app : string;
  mode : Z;
  flags : list N;
  files : option (list string);
  file : option string;
  fm : option FM;
  wait : option bool;
  popen_kws : gmap string value;
}.

Definition set_flags (x : list N) (c : t) : t :=
  {| action := action c; app := app c; mode := mode c; flags := x;
     files := files c; file := file c; fm := fm c; wait := wait c;
     popen_kws := popen_kws c |}.

Definition set_wait (x : option bool) (c : t) : t :=
  {| action := action c; app := app c; mode := mode c; flags := flags c;
     files := files c; file := file c; fm := fm c; wait := x;
     popen_kws := popen_kws c |}.

Definition set_popen_kws (x : gmap string value) (c : t) : t :=
  {| action := action c; app := app c; mode := mode c; flags := flags c;
     files := files c; file := file c; fm := fm c; wait := wait c;
     popen_kws := x |}.

(** [popen_kws[key] = v] through the alias of [context.popen_kws]. *)
Definition set_kw (key : string) (v : value) (c : t) : t :=
  set_popen_kws (<[key := v]> (popen_kws c)) c.

(** [''.join(c for c in self.flags if c not in bad)] with
    [bad = flag + flag.lower()]. *)
Definition strip (flag : N) (cur : list N) : list N :=
  filter (λ c, c ∉ [flag; lower flag]) cur.

(** One iteration of the loop body of [squash_flags]; the accumulator is
    the current value of [self.flags]. *)
Definition squash_step (cur : list N) (flag : N) : list N :=
  if flag <=? 90 then strip flag cur else cur.

(** The loop of [squash_flags]: it runs over the string [self.flags] was
    bound to when the loop started, while each iteration rebinds
    [self.flags] to a filtered copy. *)
Definition squash (x : list N) : list N := fold_left squash_step x x.

(** [Context.squash_flags] *)
Definition squash_flags (c : t) : t := set_flags (squash (flags c)) c.

(** The property [filepaths]: [[f.path for f in self.files]], with
    [except AttributeError: return []].  [path f] is the attribute
    [f.path], [None] for an object without it.  Iterating [None] is a
    TypeError, which the handler does not catch. *)
Definition filepaths (path : string → option string) (c : t)
  : exn + list string :=
  match files c with
  | None => inl TypeError
  | Some fs =>
      match mapM path fs with
      | Some ps => inr ps
      | None => inr []
      end
  end.

(** [__iter__]: [yield from self.filepaths]; what the generator yields
    before it ends, or the exception its first step raises. *)
Definition __iter__ (path : string → option string) (c : t)
  : exn + list string := filepaths path c.

End Context.

(** ** The host and the state of a run *)

(** Modelled from the spec: [get_executables], [get_term] and
    [Popen_forked] are functions of [ranger.ext], which is missing from
    the sources at hand.  The spec lists them as executable discovery
    ([is_executable_available], [find_terminal_emulator -> string]) and
    forked-process spawning ([spawn_detached(..) -> bool]); the comment at
    the call site adds that the latter returns False when forking is not
    supported.  They are fields of the host a call runs in, beside the
    environment, the platform and [subprocess.Popen], which on the given
    keyword arguments creates a child ([None]) or raises. *)
Record Host := {
  environ : gmap string string;          (* os.environ *)
  platform : string;                     (* sys.platform *)
  get_executables : gset string;
  get_term : string;
  Popen : gmap string value → option exn;
  Popen_forked : gmap string value → bool;
}.

(** Calls made on the collaborators and on the operating system, in the
    order they happen. *)
Inductive event :=
  | UiInitialize                          (* self.ui.initialize() *)
  | UiSuspend                             (* self.ui.suspend() *)
  | LogException                          (* LOG.exception(ex) *)
  | EmitBefore (context : Context.t)      (* 'runner.execute.before' *)
  | EmitAfter (context : Context.t) (error : option exn)
                                          (* 'runner.execute.after' *)
  | IoOpen (f : stream)                   (* io.open(os.devnull, ..) *)
  | CallPopen (kws : gmap string value) (raised : option exn)
  | CallPopenForked (kws : gmap string value) (ok : bool)
  | ProcessWait (p : N)                   (* process.wait() *)
  | StdoutWrite (text : string)           (* sys.stdout.write(..) *)
  | Input.                                (* input() *)

(** The mutable part: the Runner's zombie set (processes by pid), what
    the log function received, the trace of calls, the file objects that
    were opened and not closed, and a supply of fresh identifiers for
    file objects and processes. *)
Record State := {
  zombies : gset N;
  log : list message;
  trace : list event;
  open_files : list stream;
  next_id : N;
}.

Definition record (e : event) (s : State) : State :=
  {| zombies := zombies s; log := log s; trace := trace s ++ [e];
     open_files := open_files s; next_id := next_id s |}.

Definition tick (s : State) : State :=
  {| zombies := zombies s; log := log s; trace := trace s;
     open_files := open_files s; next_id := next_id s + 1 |}.

(** The value a call returns: [False], [None] or a process object. *)
Inductive retval :=
  | RFalse
  | RNone
  | RProcess (p : Process).

(** [return process] *)
Definition of_process (process : option Process) : retval :=
  match process with Some p => RProcess p | None => RNone end.

(** How a call ends.  [Unfinished] stands for a recursion cut off by the
    depth bound of [Runner.call]. *)
Inductive outcome :=
  | Returns (v : retval)
  | Raises (e : exn)
  | Unfinished.

(** How a statement of the body of [__call__] passes control on: to the
    next statement, out of the function with a value, or out of it with
    an exception. *)
Inductive flow :=
  | Continue
  | Stop (v : retval)
  | Abort (e : exn).

(** ['c' in context.flags] *)
Definition has (c : Ascii.ascii) (x : list N) : bool :=
  bool_decide (ord c ∈ x).
Arguments has c%_char x.

(** [key in popen_kws] *)
Definition contains (key : string) (kws : gmap string value) : bool :=
  bool_decide (is_Some (kws !! key)).

(** [if context.wait:] *)
Definition wait_truthy (w : option bool) : bool :=
  match w with Some true => true | _ => false end.

(** ** The Runner *)

Module Runner.

(** The attributes set by [__init__]; [zombies] lives in the [State]. *)
Record t := {
  ui : option UI;
  fm : option FM;
  logfunc : option LogFunc;
}.

(** The parameters of [__call__]; [popen_kws] collects the keyword
    arguments that are not named. *)
Record args := {
  action : option Action;
  try_app_first : bool;
  app : string;
  files : option (list string);
  mode : Z;
  flags : list N;
  wait : option bool;
  popen_kws : gmap string value;
}.

(** The local variables of [__call__] that the flag clauses read and
    rebind.  [popen_kws] is an alias of [context.popen_kws]. *)
Record locals := {
  cmd : Action;                   (* the local [action] *)
  context : Context.t;
  toggle_ui : bool;
  pipe_output : bool;
  wait_for_enter : bool;
}.

Definition set_cmd (x : Action) (l : locals) : locals :=
  {| cmd := x; context := context l; toggle_ui := toggle_ui l;
     pipe_output := pipe_output l; wait_for_enter := wait_for_enter l |}.

Definition set_context (x : Context.t) (l : locals) : locals :=
  {| cmd := cmd l; context := x; toggle_ui := toggle_ui l;
     pipe_output := pipe_output l; wait_for_enter := wait_for_enter l |}.

Definition set_toggle_ui (x : bool) (l : locals) : locals :=
  {| cmd := cmd l; context := context l; toggle_ui := x;
     pipe_output := pipe_output l; wait_for_enter := wait_for_enter l |}.

Definition set_pipe_output (x : bool) (l : locals) : locals :=
  {| cmd := cmd l; context := context l; toggle_ui := toggle_ui l;
     pipe_output := x; wait_for_enter := wait_for_enter l |}.

Definition set_wait_for_enter (x : bool) (l : locals) : locals :=
  {| cmd := cmd l; context := context l; toggle_ui := toggle_ui l;
     pipe_output := pipe_output l; wait_for_enter := x |}.

(** [popen_kws[key] = v] and [context.wait = w] *)
Definition kw (key : string) (v : value) (l : locals) : locals :=
  set_context (Context.set_kw key v (context l)) l.

Definition set_wait (w : bool) (l : locals) : locals :=
  set_context (Context.set_wait (Some w) (context l)) l.

(** [_log]: the call of [self.logfunc] raises TypeError when there is no
    log function, which is caught; the method returns False. *)
Definition _log (r : t) (text : message) (s : State) : retval * State :=
  match logfunc r with
  | Some _ =>
      (RFalse, {| zombies := zombies s; log := log s ++ [text];
                  trace := trace s; open_files := open_files s;
                  next_id := next_id s |})
  | None => (RFalse, s)
  end.

(** [_activate_ui]: an exception of the UI is logged, not raised. *)
Definition _activate_ui (r : t) (value : bool) (s : State) : State :=
  match ui r with
  | None => s
  | Some u =>
      if value then
        let s1 := record UiInitialize s in
        if initialize_raises u
        then record LogException (_log r (Text "Failed to initialize UI") s1).2
        else s1
      else
        let s1 := record UiSuspend s in
        if suspend_raises u
        then record LogException (_log r (Text "Failed to suspend UI") s1).2
        else s1
  end.

(** [self.fm.signal_emit(..)]: an attribute access on None when the
    Runner has no manager. *)
Definition signal_emit (r : t) (e : event) (s : State) : option exn * State :=
  match fm r with
  | None => (Some (AttributeError "signal_emit"), s)
  | Some _ => (None, record e s)
  end.

(** A statement of the body: it may rebind locals, change the state and
    leave the function. *)
Definition clause := locals → State → flow * locals * State.

Definition seq (c1 c2 : clause) : clause := λ l s,
  match c1 l s with
  | (Continue, l1, s1) => c2 l1 s1
  | r => r
  end.

Infix ">>>" := seq (at level 62, right associativity).

Definition pure (f : locals → locals) : clause := λ l s, (Continue, f l, s).

(** [if 'c' in context.flags: ..] *)
Definition when_flag (c : Ascii.ascii) (body : clause) : clause := λ l s,
  if has c (Context.flags (context l)) then body l s else (Continue, l, s).
Arguments when_flag c%_char body.

(** [context.squash_flags()] *)
Definition squash : clause :=
  pure (λ l, set_context (Context.squash_flags (context l)) l).

(** The defaults of the spawn options: [shell], and with it
    [executable] from [os.environ['SHELL']], then [stdout] and
    [stderr]. *)
Definition default_shell (h : Host) : clause := λ l s,
  let l1 := if contains "shell" (Context.popen_kws (context l)) then l
            else kw "shell" (VBool (is_str (cmd l))) l in
  match Context.popen_kws (context l1) !! "shell" with
  | None => (Abort (KeyError "shell"), l1, s)
  | Some v =>
      if truthy v then
        match environ h !! "SHELL" with
        | None => (Abort (KeyError "SHELL"), l1, s)
        | Some sh => (Continue, kw "executable" (VStr sh) l1, s)
        end
      else (Continue, l1, s)
  end.

Definition default_streams : clause :=
  pure (λ l,
    let l1 := if contains "stdout" (Context.popen_kws (context l)) then l
              else kw "stdout" (VStream SysStdout) l in
    if contains "stderr" (Context.popen_kws (context l1)) then l1
    else kw "stderr" (VStream SysStderr) l1).

(** The flag clauses, in the order of the source. *)
Definition flag_p : clause :=
  when_flag "p" (pure (λ l,
    set_wait false (set_pipe_output true (set_toggle_ui false
      (kw "stderr" (VStream STDOUT) (kw "stdout" (VStream PIPE) l)))))).

(** [io.open(os.devnull, mode, encoding="utf-8")]: a new file object,
    which is open from now on. *)
Definition io_open (mode : string) (s : State) : stream * State :=
  let f := DevNull (next_id s) mode in
  (f, {| zombies := zombies s; log := log s;
         trace := trace s ++ [IoOpen f];
         open_files := open_files s ++ [f];
         next_id := next_id s + 1 |}).

Definition flag_s : clause :=
  when_flag "s" (λ l s,
    let '(devnull_writable, s1) := io_open "w" s in
    let '(devnull_readable, s2) := io_open "r" s1 in
    (Continue,
     set_toggle_ui false
       (kw "stdin" (VStream devnull_readable)
          (kw "stderr" (VStream devnull_writable)
             (kw "stdout" (VStream devnull_writable) l))),
     s2)).

Definition flag_f : clause :=
  when_flag "f" (pure (λ l, set_wait false (set_toggle_ui false l))).

Definition flag_w : clause :=
  when_flag "w" (pure (λ l,
    if negb (pipe_output l) && wait_truthy (Context.wait (context l))
    then set_wait_for_enter true l else l)).

(** ['sudo' not in ranger.ext.get_executables.get_executables()] *)
Definition no_sudo (h : Host) : bool :=
  bool_decide ("sudo" ∉ get_executables h).

(** ['WAYLAND_DISPLAY' in os.environ or sys.platform == 'darwin'
     or 'DISPLAY' in os.environ] *)
Definition has_display (h : Host) : bool :=
  bool_decide (is_Some (environ h !! "WAYLAND_DISPLAY"))
  || String.eqb (platform h) "darwin"
  || bool_decide (is_Some (environ h !! "DISPLAY")).

Definition flag_r (h : Host) (r : t) : clause :=
  when_flag "r" (λ l s,
    if no_sudo h then
      let '(v, s1) :=
        _log r (Text "Can not run with 'r' flag, sudo is not installed!") s in
      (Stop v, l, s1)
    else
      let f_flag := has "f" (Context.flags (context l)) in
      let action1 :=
        match cmd l with
        | Command a =>
            Command ("sudo " +:+ (if f_flag then "-b " else EmptyString) +:+ a)
        | Argv a =>
            Argv (["sudo"] ++ (if f_flag then ["-b"] else []) ++ a)
        end in
      (Continue, set_wait true (set_toggle_ui true (set_cmd action1 l)), s)).

Definition flag_t (h : Host) (r : t) : clause :=
  when_flag "t" (λ l s,
    if negb (has_display h) then
      let '(v, s1) :=
        _log r (Text "Can not run with 't' flag, no display found!") s in
      (Stop v, l, s1)
    else
      let term := get_term h in
      let action1 :=
        match cmd l with
        | Command a => Command (term +:+ " -e " +:+ a)
        | Argv a => Argv ([term; "-e"] ++ a)
        end in
      (Continue, set_wait false (set_toggle_ui false (set_cmd action1 l)), s)).

(** [popen_kws['args'] = action] *)
Definition set_args : clause :=
  pure (λ l,
    kw "args" (match cmd l with Command a => VStr a | Argv a => VList a end) l).

(** From [context.squash_flags()] to [popen_kws['args'] = action]. *)
Definition preconditions (h : Host) (r : t) : clause :=
  squash >>> default_shell h >>> default_streams >>>
  flag_p >>> flag_s >>> flag_f >>> flag_w >>> flag_r h r >>> flag_t h r >>>
  set_args.

(** [subprocess.Popen] on the spawn options when it does not raise: a new
    process object, whose [stdout] is a stream iff the child was spawned
    with [stdout=PIPE]. *)
Definition new_process (kws : gmap string value) (s : State) : Process :=
  {| pid := next_id s;
     stdout := match kws !! "stdout" with
               | Some (VStream PIPE) => VStream (ChildStdout (next_id s))
               | _ => VNone
               end |}.

(** [self.zombies.add(process)] *)
Definition add_zombie (p : Process) (s : State) : State :=
  {| zombies := {[pid p]} ∪ zombies s; log := log s; trace := trace s;
     open_files := open_files s; next_id := next_id s |}.

(** The [else:] branch of the inner [try]: wait for the child or keep it
    as a zombie, then the prompt.  The first component is the exception
    left pending, if any. *)
Definition else_block (l : locals) (process : option Process) (s : State)
  : option exn * State :=
  let '(pending, s1) :=
    if wait_truthy (Context.wait (context l)) then
      match process with
      | Some p => (None, record (ProcessWait (pid p)) s)
      | None => (Some (AttributeError "wait"), s)
      end
    else
      match process with
      | Some p => (None, add_zombie p s)
      | None => (None, s)
      end in
  match pending with
  | Some e => (Some e, s1)
  | None =>
      if wait_for_enter l
      then (None,
            record Input (record (StdoutWrite "Press ENTER to continue") s1))
      else (None, s1)
  end.

(** The outer [try:] block.  It yields the exception left pending when
    the block is left, and the values of [process] and [error] at that
    point. *)
Definition try_block (h : Host) (r : t) (l : locals) (s : State)
  : option exn * option Process * option exn * State :=
  let ctx := context l in
  let kws := Context.popen_kws ctx in
  match signal_emit r (EmitBefore ctx) s with
  | (Some e, s1) => (Some e, None, None, s1)
  | (None, s1) =>
      if has "f" (Context.flags ctx) && negb (has "r" (Context.flags ctx))
      then
        let s2 := record (CallPopenForked kws (Popen_forked h kws)) s1 in
        let '(pending, s3) := else_block l None s2 in
        (pending, None, None, s3)
      else
        match Popen h kws with
        | Some ex =>
            let s2 := record (CallPopen kws (Some ex)) s1 in
            if is_OSError ex
            then (None, None, Some ex, (_log r (FailedToRun (cmd l) ex) s2).2)
            else (Some ex, None, None, s2)
        | None =>
            let process := new_process kws s1 in
            let s2 := tick (record (CallPopen kws None) s1) in
            let '(pending, s3) := else_block l (Some process) s2 in
            (pending, Some process, None, s3)
        end
  end.

(** The arguments of the chained call,
    [self(action='less', app='pager', try_app_first=True,
          stdin=process.stdout)]; the others take their defaults. *)
Definition pager_args (process : Process) : args :=
  {| action := Some (Command "less"); try_app_first := true;
     app := "pager"; files := None; mode := 0%Z; flags := [];
     wait := Some true;
     popen_kws := {[ "stdin" := stdout process ]} |}.

(** The [finally:] block.  Both of its exits are [return] statements, so
    an exception pending from the [try] block is dropped; one raised in
    the block itself propagates. *)
Definition finally_block (self : args → State → outcome * State)
    (r : t) (l : locals) (process : option Process) (error : option exn)
    (s : State) : outcome * State :=
  match signal_emit r (EmitAfter (context l) error) s with
  | (Some e, s1) => (Raises e, s1)
  | (None, s1) =>
      let s2 := if toggle_ui l then _activate_ui r true s1 else s1 in
      match pipe_output l, process with
      | true, Some p => self (pager_args p) s2
      | _, _ => (Returns (of_process process), s2)
      end
  end.

(** The [Context] built on entry; [action] is not passed to it. *)
Definition new_context (r : t) (a : args) : Context.t :=
  {| Context.action := None; Context.app := app a; Context.mode := mode a;
     Context.flags := flags a; Context.files := files a;
     Context.file := match files a with
                     | Some (f :: _) => Some f
                     | _ => None
                     end;
     Context.fm := fm r; Context.wait := wait a;
     Context.popen_kws := popen_kws a |}.

(** The local variables when the preconditions start. *)
Definition entry (r : t) (a : args) (act : Action) : locals :=
  {| cmd := act; context := new_context r a; toggle_ui := true;
     pipe_output := false; wait_for_enter := false |}.

(** From [if toggle_ui: self._activate_ui(False)] to the end of the
    [try] block. *)
Definition run (h : Host) (r : t) (l : locals) (s : State)
  : option exn * option Process * option exn * State :=
  try_block h r l (if toggle_ui l then _activate_ui r false s else s).

(** The body of [__call__], with the recursive call as a parameter. *)
Definition body (self : args → State → outcome * State)
    (h : Host) (r : t) (a : args) (s : State) : outcome * State :=
  match action a with
  | None =>
      let '(v, s1) := _log r (Text "No way of determining the action!") s in
      (Returns v, s1)
  | Some act =>
      match preconditions h r (entry r a act) s with
      | (Abort e, _, s1) => (Raises e, s1)
      | (Stop v, _, s1) => (Returns v, s1)
      | (Continue, l, s1) =>
          let '(_, process, error, s2) := run h r l s1 in
          finally_block self r l process error s2
      end
  end.

(** [__call__] with its recursion bounded by [depth]. *)
Fixpoint call (depth : nat) (h : Host) (r : t) (a : args) (s : State)
  : outcome * State :=
  match depth with
  | O => (Unfinished, s)
  | S n => body (call n h r) h r a s
  end.

(** [Runner.__call__]: the chained call does not pipe, so two levels
    are all a call ever uses (see [call_depth]). *)
Definition __call__ (h : Host) (r : t) (a : args) (s : State)
  : outcome * State :=
  call 2 h r a s.

(** The shell option a call ends up with: the caller's [shell]
    override when there is one, else whether the action is a string. *)
Definition shell_mode (a : args) (act : Action) : bool :=
  truthy (default (VBool (is_str act)) (popen_kws a !! "shell")).

(** The same, read off the locals in front of [default_shell]. *)
Definition shell_of (l : locals) : bool :=
  truthy (default (VBool (is_str (cmd l)))
                  (Context.popen_kws (context l) !! "shell")).

(** The state after the two file objects of the [s] flag were opened. *)
Definition opened (s : State) : State := (io_open "r" (io_open "w" s).2).2.

(** The texts handed to [_log] on a failed precondition. *)
Definition msg_no_action : message :=
  Text "No way of determining the action!".
Definition msg_no_sudo : message :=
  Text "Can not run with 'r' flag, sudo is not installed!".
Definition msg_no_display : message :=
  Text "Can not run with 't' flag, no display found!".

End Runner.

Abbreviation fl_of l := (Context.flags (Runner.context l)).
Abbreviation wait_of l := (Context.wait (Runner.context l)).

(** ** Notions used in the statements *)


(** [s'] comes from [s] by events that all satisfy [P]. *)
Definition grows (P : event → Prop) (s s' : State) : Prop :=
  ∃ evs, trace s' = (trace s ++ evs)%list ∧ Forall P evs.

(** Every file object open in [s] is open in [s']. *)
Definition still_open (s s' : State) : Prop :=
  ∀ f, f ∈ open_files s → f ∈ open_files s'.

(** An event that opens a file object. *)
Definition open_event (e : event) : Prop :=
  match e with IoOpen _ => True | _ => False end.

(** ** Sample hosts, runners and calls *)

Module Sample.

Import Runner.

(** A Linux desktop with [sudo] and the pager, on which every spawn
    works. *)
Definition linux : Host :=
  {| environ := {[ "SHELL" := "/bin/sh"; "DISPLAY" := ":0" ]};
     platform := "linux";
     get_executables := {[ "sudo"; "less"; "ls" ]};
     get_term := "xterm";
     Popen := λ _, None;
     Popen_forked := λ _, true |}.

(** The same without SHELL in the environment. *)
Definition no_shell : Host :=
  {| environ := {[ "DISPLAY" := ":0" ]};
     platform := "linux";
     get_executables := {[ "sudo"; "less"; "ls" ]};
     get_term := "xterm";
     Popen := λ _, None;
     Popen_forked := λ _, true |}.

(** A host without [sudo] and without a display. *)
Definition bare : Host :=
  {| environ := {[ "SHELL" := "/bin/sh" ]};
     platform := "linux";
     get_executables := {[ "less"; "ls" ]};
     get_term := "xterm";
     Popen := λ _, None;
     Popen_forked := λ _, true |}.

(** A host on which every spawn fails: [Popen] raises OSError (ENOENT)
    and forking is not supported. *)
Definition failing : Host :=
  {| environ := {[ "SHELL" := "/bin/sh"; "DISPLAY" := ":0" ]};
     platform := "linux";
     get_executables := {[ "sudo"; "less"; "ls" ]};
     get_term := "xterm";
     Popen := λ _, Some (OSError 2);
     Popen_forked := λ _, false |}.

(** [Runner(ui, logfunc, fm)] with all three collaborators. *)
Definition runner : Runner.t :=
  {| ui := Some {| initialize_raises := false; suspend_raises := false |};
     fm := Some the_fm;
     logfunc := Some the_logfunc |}.

(** [Runner(logfunc=print)], the Runner of the module docstring. *)
Definition docstring_runner : Runner.t :=
  {| ui := None; fm := None; logfunc := Some the_logfunc |}.

(** [self(action, flags=flags)], the other parameters at their
    defaults. *)
Definition run_with (act : option Action) (fl : string) : args :=
  {| action := act; try_app_first := false; app := "default";
     files := None; mode := 0%Z; flags := str_of fl; wait := Some true;
     popen_kws := ∅ |}.

(** A Runner that has not run anything yet. *)
Definition fresh : State :=
  {| zombies := ∅; log := []; trace := []; open_files := []; next_id := 0 |}.

End Sample.

(** ** Further notions *)

(** ** The action and the spawn options a call ends up with *)

(** The action with the escalation tool in front, as the [r] clause
    builds it; [f_flag] adds the tool's own background option. *)
Definition with_sudo (f_flag : bool) (a : Action) : Action :=
  match a with
  | Command c =>
      Command ("sudo " +:+ (if f_flag then "-b " else EmptyString) +:+ c)
  | Argv l => Argv (["sudo"] ++ (if f_flag then ["-b"] else []) ++ l)
  end.

(** The action wrapped into a terminal command, as the [t] clause builds
    it. *)
Definition in_terminal (term : string) (a : Action) : Action :=
  match a with
  | Command c => Command (term +:+ " -e " +:+ c)
  | Argv l => Argv ([term; "-e"] ++ l)
  end.

(** The local [action] after the [r] and [t] clauses, for squashed flags
    [x]. *)
Definition final_action (h : Host) (x : list N) (act : Action) : Action :=
  let a1 := if has "r" x then with_sudo (has "f" x) act else act in
  if has "t" x then in_terminal (get_term h) a1 else a1.

(** The value stored under [args]. *)
Definition args_value (a : Action) : value :=
  match a with Command c => VStr c | Argv l => VList l end.

(** The spawn options after the defaults: the caller's options, with
    [shell], [executable], [stdout] and [stderr] filled in. *)
Definition default_options (h : Host) (a : Runner.args) (act : Action)
  : gmap string value :=
  let k0 := Runner.popen_kws a in
  let k1 := if contains "shell" k0 then k0
            else <["shell" := VBool (is_str act)]> k0 in
  let k2 := if Runner.shell_mode a act
            then match environ h !! "SHELL" with
                 | Some sh => <["executable" := VStr sh]> k1
                 | None => k1
                 end
            else k1 in
  let k3 := if contains "stdout" k2 then k2
            else <["stdout" := VStream SysStdout]> k2 in
  if contains "stderr" k3 then k3 else <["stderr" := VStream SysStderr]> k3.

(** The spawn options handed to the spawn primitive, for squashed flags
    [x] and [id] the next free identifier on entry. *)
Definition final_options (h : Host) (a : Runner.args) (act : Action)
    (x : list N) (id : N) : gmap string value :=
  let k4 := default_options h a act in
  let k5 := if has "p" x
            then <["stderr" := VStream STDOUT]>
                   (<["stdout" := VStream PIPE]> k4)
            else k4 in
  let k6 := if has "s" x
            then <["stdin" := VStream (DevNull (id + 1) "r")]>
                   (<["stderr" := VStream (DevNull id "w")]>
                      (<["stdout" := VStream (DevNull id "w")]> k5))
            else k5 in
  <["args" := args_value (final_action h x act)]> k6.

Abbreviation kws_of l := (Context.popen_kws (Runner.context l)).

(** ** The UI around the spawn *)

(** [if toggle_ui: self._activate_ui(False)] and
    [if toggle_ui: self._activate_ui(True)]. *)
Definition suspended (r : Runner.t) (l : Runner.locals) (s : State) : State :=
  if Runner.toggle_ui l then Runner._activate_ui r false s else s.

Definition resumed (r : Runner.t) (l : Runner.locals) (s : State) : State :=
  if Runner.toggle_ui l then Runner._activate_ui r true s else s.

(** Whether a call takes the detached spawn. *)
Definition forks (x : list N) : bool := has "f" x && negb (has "r" x).

(** The error the 'after' notification carries: the OSError of the
    spawn, if it raised one. *)
Definition captured (h : Host) (x : list N) (kws : gmap string value)
  : option exn :=
  if forks x then None
  else match Popen h kws with
       | Some ex => if is_OSError ex then Some ex else None
       | None => None
       end.

(** The UI calls of a trace, counted: a suspend adds one, an
    initialize takes one away. *)
Definition ui_weight (e : event) : Z :=
  match e with UiSuspend => 1 | UiInitialize => -1 | _ => 0 end%Z.

Definition ui_balance (evs : list event) : Z :=
  foldr (λ e n, (ui_weight e + n)%Z) 0%Z evs.

(** The arguments [a] with other flags. *)
Definition with_flags (x : list N) (a : Runner.args) : Runner.args :=
  {| Runner.action := Runner.action a;
     Runner.try_app_first := Runner.try_app_first a;
     Runner.app := Runner.app a; Runner.files := Runner.files a;
     Runner.mode := Runner.mode a; Runner.flags := x;
     Runner.wait := Runner.wait a; Runner.popen_kws := Runner.popen_kws a |}.

(** No [process.wait()]. *)
Definition no_wait_event (e : event) : Prop :=
  match e with ProcessWait _ => False | _ => True end.


(** No call of the UI. *)
Definition no_ui_event (e : event) : Prop :=
  match e with UiInitialize | UiSuspend => False | _ => True end.

(** What happens between the spawn and the 'after' notification: the
    wait for the child and the prompt. *)
Definition wait_or_prompt (e : event) : Prop :=
  match e with ProcessWait _ | StdoutWrite _ | Input => True | _ => False end.

(** The call of the spawn primitive the flags choose. *)
Definition spawn_call (h : Host) (x : list N) (kws : gmap string value)
  : event :=
  if forks x then CallPopenForked kws (Popen_forked h kws)
  else CallPopen kws (Popen h kws).

(** The events of the [else:] branch for the child [process]: the wait
    or nothing, then the prompt.  Without a child a truthy [wait] ends
    the branch with an exception in front of the prompt. *)
Definition after_spawn (l : Runner.locals) (process : option Process)
  : list event :=
  let prompt := if Runner.wait_for_enter l
                then [StdoutWrite "Press ENTER to continue"; Input]
                else [] in
  match process with
  | Some p =>
      ((if wait_truthy (wait_of l) then [ProcessWait (pid p)] else [])
       ++ prompt)%list
  | None => if wait_truthy (wait_of l) then [] else prompt
  end.

(** Whether the spawn raises: the detached spawn never does. *)
Definition raised (h : Host) (x : list N) (kws : gmap string value) : bool :=
  if forks x then false
  else match Popen h kws with Some _ => true | None => false end.

(** The value of [process] after the spawn, in the state [sb] the
    'before' notification leaves. *)
Definition spawned (h : Host) (x : list N) (kws : gmap string value)
    (sb : State) : option Process :=
  if forks x then None
  else match Popen h kws with
       | Some _ => None
       | None => Some (Runner.new_process kws sb)
       end.

(** The events of [_activate_ui(value)]: the UI call, and the logging of
    its exception when it raises. *)
Definition ui_events (r : Runner.t) (value : bool) : list event :=
  match Runner.ui r with
  | None => []
  | Some u =>
      if value
      then UiInitialize :: (if initialize_raises u then [LogException] else [])
      else UiSuspend :: (if suspend_raises u then [LogException] else [])
  end.

(** The same under [if toggle_ui:]. *)
Definition toggle_events (r : Runner.t) (l : Runner.locals) (value : bool)
  : list event :=
  if Runner.toggle_ui l then ui_events r value else [].

(** The events of one invocation that passed its preconditions and has
    a manager, from the suspension of the UI to its re-initialisation:
    [sb] is the state after the 'before' notification. *)
Definition invocation_events (h : Host) (r : Runner.t) (l : Runner.locals)
    (sb : State) : list event :=
  let x := fl_of l in
  let kws := kws_of l in
  (toggle_events r l false
   ++ [EmitBefore (Runner.context l); spawn_call h x kws]
   ++ (if raised h x kws then [] else after_spawn l (spawned h x kws sb))
   ++ [EmitAfter (Runner.context l) (captured h x kws)]
   ++ toggle_events r l true)%list.

(** ** Which flags the squashing keeps *)

(** Whether no character of [x] with code point at most 90 is [c] or has
    [c] as its lowercase form. *)
Definition survives (x : list N) (c : N) : bool :=
  forallb (λ f, negb (f <=? 90) || (negb (c =? f) && negb (c =? lower f))) x.

(** ** What a clause leaves of the context *)

(** The clause rebinds none of [action], [app], [mode], [files], [file]
    and [fm] of the context. *)
Definition keeps_context (k : Runner.clause) : Prop :=
  ∀ l s fl l' s', k l s = (fl, l', s') →
    Context.action (Runner.context l') = Context.action (Runner.context l) ∧
    Context.app (Runner.context l') = Context.app (Runner.context l) ∧
    Context.mode (Runner.context l') = Context.mode (Runner.context l) ∧
    Context.files (Runner.context l') = Context.files (Runner.context l) ∧
    Context.file (Runner.context l') = Context.file (Runner.context l) ∧
    Context.fm (Runner.context l') = Context.fm (Runner.context l).

(** ** What of a call the notified handlers alone can see *)

(** A context without the attributes that nothing but a notified
    handler reads: [app], [mode], [files] and [file]. *)
Definition anonymous (c : Context.t) : Context.t :=
  {| Context.action := Context.action c; Context.app := EmptyString;
     Context.mode := 0%Z; Context.flags := Context.flags c;
     Context.files := None; Context.file := None;
     Context.fm := Context.fm c; Context.wait := Context.wait c;
     Context.popen_kws := Context.popen_kws c |}.

(** An event, with these attributes taken out of the context it
    carries. *)
Definition plain (e : event) : event :=
  match e with
  | EmitBefore c => EmitBefore (anonymous c)
  | EmitAfter c err => EmitAfter (anonymous c) err
  | e => e
  end.

Definition plain_state (s : State) : State :=
  {| zombies := zombies s; log := log s; trace := plain <$> trace s;
     open_files := open_files s; next_id := next_id s |}.

Definition anonymous_locals (l : Runner.locals) : Runner.locals :=
  Runner.set_context (anonymous (Runner.context l)) l.

(** The arguments [a] with other values for [try_app_first], [app],
    [files] and [mode]. *)
Definition with_context_args (t : bool) (ap : string)
    (fs : option (list string)) (m : Z) (a : Runner.args) : Runner.args :=
  {| Runner.action := Runner.action a; Runner.try_app_first := t;
     Runner.app := ap; Runner.files := fs; Runner.mode := m;
     Runner.flags := Runner.flags a; Runner.wait := Runner.wait a;
     Runner.popen_kws := Runner.popen_kws a |}.

Definition anonymous_args (a : Runner.args) : Runner.args :=
  with_context_args false EmptyString None 0%Z a.

(** The result of a call, seen without these attributes. *)
Definition observed (x : outcome * State) : outcome * State :=
  (x.1, plain_state x.2).

(** The clause does the same on anonymous locals. *)
Definition blind (k : Runner.clause) : Prop :=
  ∀ l s, k (anonymous_locals l) (plain_state s)
         = let '(fl, l1, s1) := k l s in
           (fl, anonymous_locals l1, plain_state s1).

(** ** Further sample data *)

(** A host on which [subprocess.Popen] rejects its arguments with a
    ValueError. *)
Definition rejecting : Host :=
  {| environ := {[ "SHELL" := "/bin/sh"; "DISPLAY" := ":0" ]};
     platform := "linux";
     get_executables := {[ "sudo"; "less"; "ls" ]};
     get_term := "xterm";
     Popen := λ _, Some (OtherError "ValueError");
     Popen_forked := λ _, true |}.

(** File objects whose [path] is their name under [/tmp], except
    [broken], which has none. *)
Definition tmp_path (f : string) : option string :=
  if String.eqb f "broken" then None else Some ("/tmp/" +:+ f).

(** A context with two files. *)
Definition two_files : Context.t :=
  {| Context.action := None; Context.app := "default"; Context.mode := 0%Z;
     Context.flags := []; Context.files := Some ["a.txt"; "b.txt"];
     Context.file := Some "a.txt"; Context.fm := None;
     Context.wait := Some true; Context.popen_kws := ∅ |}.

(** [self(action, flags=flags, **kws)]. *)
Definition kw_args (act : option Action) (fl : string)
    (kws : gmap string value) : Runner.args :=
  {| Runner.action := act; Runner.try_app_first := false;
     Runner.app := "default"; Runner.files := None; Runner.mode := 0%Z;
     Runner.flags := str_of fl; Runner.wait := Some true;
     Runner.popen_kws := kws |}.

(** ** Case pairs beyond ASCII *)

(** [str.lower()] on the code points below 256: beside 'A'..'Z', the
    uppercase letters of Latin-1, 'À'..'Þ' (192..222) without the
    multiplication sign (215), move up by 32.  Code points from 256 on
    are left alone here, so [str_lower u ≠ u] speaks of [u] below 256
    only. *)
Definition str_lower (c : N) : N :=
  if ((65 <=? c) && (c <=? 90))
     || ((192 <=? c) && (c <=? 222) && negb (c =? 215))
  then c + 32 else c.

(** A host with an empty environment (no SHELL, no display) and without
    [sudo]. *)
Definition unconfigured : Host :=
  {| environ := ∅;
     platform := "linux";
     get_executables := {[ "less"; "ls" ]};
     get_term := "xterm";
     Popen := λ _, None;
     Popen_forked := λ _, true |}.

(** * Flag squashing *)

(** Closes a decidable goal on concrete data by evaluation. *)
Ltac decided := apply (bool_decide_unpack _); vm_compute; exact I.

Section Squash.

Import Context.

Implicit Types (c f : N) (x cur fs : list N).

Lemma elem_of_strip f cur c :
  c ∈ strip f cur ↔ c ∈ cur ∧ c ≠ f ∧ c ≠ lower f.
Proof.
  unfold strip. rewrite list_elem_of_filter.
  rewrite !not_elem_of_cons. split.
  - intros [(Hf & Hl & _) Hc]. done.
  - intros (Hc & Hf & Hl). repeat split; try done. apply not_elem_of_nil.
Qed.

Lemma elem_of_squash_step cur f c :
  c ∈ squash_step cur f ↔ c ∈ cur ∧ (f ≤ 90 → c ≠ f ∧ c ≠ lower f).
Proof.
  unfold squash_step. destruct (N.leb_spec f 90) as [Hle|Hgt].
  - rewrite elem_of_strip. tauto.
  - split; [intros Hc; split; [done | lia] | tauto].
Qed.

(** The loop, started on any accumulator: a character survives iff no
    character of the scanned string with code point at most 90 is that
    character or has it as its lowercase form. *)
Lemma elem_of_squash_loop fs cur c :
  c ∈ fold_left squash_step fs cur ↔
  c ∈ cur ∧ ∀ f, f ∈ fs → f ≤ 90 → c ≠ f ∧ c ≠ lower f.
Proof.
  revert cur. induction fs as [|f fs IH]; intros cur; simpl.
  - split; [intros Hc; split; [done | intros f Hf; inversion Hf] | tauto].
  - rewrite IH, elem_of_squash_step. split.
    + intros [[Hc Hf] Hfs]. split; [done|].
      intros g Hg. apply elem_of_cons in Hg as [->|Hg]; auto.
    + intros [Hc Hall]. split; [split; [done|] |].
      * intros Hle. apply Hall; [left | done].
      * intros g Hg. apply Hall. by right.
Qed.

Lemma elem_of_squash x c :
  c ∈ squash x ↔ c ∈ x ∧ ∀ f, f ∈ x → f ≤ 90 → c ≠ f ∧ c ≠ lower f.
Proof. apply elem_of_squash_loop. Qed.

Lemma squash_above_90 x c : c ∈ squash x → 90 < c.
Proof.
  rewrite elem_of_squash. intros [Hc Hall].
  destruct (N.le_gt_cases c 90) as [Hle|Hgt]; [|done].
  destruct (Hall c Hc Hle) as [Hne _]. by destruct Hne.
Qed.

(** A string without characters up to 90 leaves the accumulator as it
    is. *)
Lemma squash_loop_id fs cur :
  (∀ f, f ∈ fs → 90 < f) → fold_left squash_step fs cur = cur.
Proof.
  revert cur. induction fs as [|f fs IH]; intros cur Hfs; simpl; [done|].
  assert (90 < f) as Hf by (apply Hfs; left).
  unfold squash_step at 2. apply N.leb_gt in Hf. rewrite Hf.
  apply IH. intros g Hg. apply Hfs. by right.
Qed.

Lemma squash_subset x c : c ∈ squash x → c ∈ x.
Proof. rewrite elem_of_squash. tauto. Qed.

(** ** C6 *)

(** C6: flag squashing is idempotent: squashing a squashed flag
    sequence gives it back, for every flag sequence. *)
Theorem squash_idempotent x : squash (squash x) = squash x.
Proof.
  unfold squash at 1. apply squash_loop_id.
  intros f. apply squash_above_90.
Qed.

(** ** C9 *)


End Squash.

Example squash_fF : Context.squash (str_of "frFt") = str_of "rt".
Proof. reflexivity. Qed.

Example squash_duplicates_stay :
  Context.squash (str_of "ffrr") = str_of "ffrr".
Proof. reflexivity. Qed.

Example squash_digit_and_dash :
  Context.squash (str_of "f1r-") = str_of "fr".
Proof. reflexivity. Qed.

Example squash_all_occurrences :
  Context.squash (str_of "fFfrFf") = str_of "r".
Proof. reflexivity. Qed.

(** * The preconditions of a call *)

(** Reduces the projections of rebuilt locals and contexts. *)
Ltac fields :=
  cbn [Runner.cmd Runner.context Runner.toggle_ui Runner.pipe_output
       Runner.wait_for_enter Runner.kw Runner.set_wait Runner.set_cmd
       Runner.set_toggle_ui Runner.set_pipe_output
       Runner.set_wait_for_enter Runner.set_context Runner.entry
       Runner.new_context Context.flags Context.wait Context.popen_kws
       Context.set_kw Context.set_wait Context.set_popen_kws
       Context.set_flags Context.squash_flags] in *.

Section Preconditions.

Import Runner.

Variables (h : Host) (r : Runner.t).
Implicit Types (l : locals) (s : State) (fl : flow).

Lemma seq_inv (c1 c2 : clause) l s fl l' s' :
  (c1 >>> c2) l s = (fl, l', s') →
  (fl ≠ Continue ∧ c1 l s = (fl, l', s')) ∨
  (∃ l1 s1, c1 l s = (Continue, l1, s1) ∧ c2 l1 s1 = (fl, l', s')).
Proof.
  unfold seq. destruct (c1 l s) as [[fl1 l1] s1] eqn:H1.
  destruct fl1; intros H; [right; eauto | left..]; by simplify_eq.
Qed.

Ltac clause_inv H :=
  unfold when_flag, pure in H;
  repeat match type of H with
         | context [if ?b then _ else _] => destruct b eqn:?
         end;
  simplify_eq; fields; repeat split; try done.

Lemma _log_false m s : (_log r m s).1 = RFalse.
Proof. unfold _log. by destruct (logfunc r). Qed.

Lemma squash_inv l s fl l' s' :
  squash l s = (fl, l', s') →
  fl = Continue ∧ s' = s ∧ cmd l' = cmd l ∧
  fl_of l' = Context.squash (fl_of l) ∧
  toggle_ui l' = toggle_ui l ∧ pipe_output l' = pipe_output l ∧
  wait_for_enter l' = wait_for_enter l ∧ wait_of l' = wait_of l ∧
  Context.popen_kws (context l') = Context.popen_kws (context l).
Proof. intros H. unfold squash in H. clause_inv H. Qed.

Lemma default_shell_inv l s fl l' s' :
  default_shell h l s = (fl, l', s') →
  s' = s ∧ cmd l' = cmd l ∧ fl_of l' = fl_of l ∧
  toggle_ui l' = toggle_ui l ∧ pipe_output l' = pipe_output l ∧
  wait_for_enter l' = wait_for_enter l ∧ wait_of l' = wait_of l ∧
  match fl with
  | Continue => shell_of l = true → is_Some (environ h !! "SHELL")
  | Stop _ => False
  | Abort e =>
      e = KeyError "SHELL" ∧ shell_of l = true ∧ environ h !! "SHELL" = None
  end.
Proof.
  intros H. unfold default_shell, contains in H. unfold shell_of.
  destruct (Context.popen_kws (context l) !! "shell") as [v|] eqn:Hsh;
    simpl.
  - rewrite bool_decide_eq_true_2 in H by eauto. rewrite Hsh in H.
    destruct (truthy v); [destruct (environ h !! "SHELL")|];
      simplify_eq; fields; repeat split; try done; eauto.
  - rewrite bool_decide_eq_false_2 in H by (by intros [? ?]).
    fields. rewrite lookup_insert_eq in H. cbn [truthy] in H.
    destruct (is_str (cmd l)); [destruct (environ h !! "SHELL")|];
      simplify_eq; fields; repeat split; try done; eauto.
Qed.

Lemma default_streams_inv l s fl l' s' :
  default_streams l s = (fl, l', s') →
  fl = Continue ∧ s' = s ∧ cmd l' = cmd l ∧ fl_of l' = fl_of l ∧
  toggle_ui l' = toggle_ui l ∧ pipe_output l' = pipe_output l ∧
  wait_for_enter l' = wait_for_enter l ∧ wait_of l' = wait_of l.
Proof. intros H. unfold default_streams in H. clause_inv H. Qed.

Lemma flag_p_inv l s fl l' s' :
  flag_p l s = (fl, l', s') →
  fl = Continue ∧ s' = s ∧ cmd l' = cmd l ∧ fl_of l' = fl_of l ∧
  toggle_ui l' = (if has "p" (fl_of l) then false else toggle_ui l) ∧
  pipe_output l' = (if has "p" (fl_of l) then true else pipe_output l) ∧
  wait_for_enter l' = wait_for_enter l ∧
  wait_of l' = (if has "p" (fl_of l) then Some false else wait_of l).
Proof. intros H. unfold flag_p in H. clause_inv H. Qed.

Lemma flag_s_inv l s fl l' s' :
  flag_s l s = (fl, l', s') →
  fl = Continue ∧ s' = (if has "s" (fl_of l) then opened s else s) ∧
  cmd l' = cmd l ∧ fl_of l' = fl_of l ∧
  toggle_ui l' = (if has "s" (fl_of l) then false else toggle_ui l) ∧
  pipe_output l' = pipe_output l ∧
  wait_for_enter l' = wait_for_enter l ∧ wait_of l' = wait_of l.
Proof.
  intros H. unfold flag_s, when_flag in H.
  destruct (has "s" _); [cbn in H|]; simplify_eq; fields; done.
Qed.

Lemma flag_f_inv l s fl l' s' :
  flag_f l s = (fl, l', s') →
  fl = Continue ∧ s' = s ∧ cmd l' = cmd l ∧ fl_of l' = fl_of l ∧
  toggle_ui l' = (if has "f" (fl_of l) then false else toggle_ui l) ∧
  pipe_output l' = pipe_output l ∧
  wait_for_enter l' = wait_for_enter l ∧
  wait_of l' = (if has "f" (fl_of l) then Some false else wait_of l).
Proof. intros H. unfold flag_f in H. clause_inv H. Qed.

Lemma flag_w_inv l s fl l' s' :
  flag_w l s = (fl, l', s') →
  fl = Continue ∧ s' = s ∧ cmd l' = cmd l ∧ fl_of l' = fl_of l ∧
  toggle_ui l' = toggle_ui l ∧ pipe_output l' = pipe_output l ∧
  wait_for_enter l' =
    (if has "w" (fl_of l)
     then if negb (pipe_output l) && wait_truthy (wait_of l)
          then true else wait_for_enter l
     else wait_for_enter l) ∧
  wait_of l' = wait_of l.
Proof.
  intros H. unfold flag_w, when_flag, pure in H.
  destruct (has "w" _); [destruct (negb _ && _)|];
    simplify_eq; fields; done.
Qed.

Lemma flag_r_inv l s fl l' s' :
  flag_r h r l s = (fl, l', s') →
  fl_of l' = fl_of l ∧ pipe_output l' = pipe_output l ∧
  wait_for_enter l' = wait_for_enter l ∧
  match fl with
  | Continue =>
      s' = s ∧
      (has "r" (fl_of l) = true → no_sudo h = false) ∧
      toggle_ui l' = (if has "r" (fl_of l) then true else toggle_ui l) ∧
      wait_of l' = (if has "r" (fl_of l) then Some true else wait_of l)
  | Stop v =>
      v = RFalse ∧ has "r" (fl_of l) = true ∧ no_sudo h = true ∧
      l' = l ∧ s' = (_log r msg_no_sudo s).2
  | Abort _ => False
  end.
Proof.
  intros H. unfold flag_r, when_flag in H.
  destruct (has "r" _); [destruct (no_sudo h)|].
  - rewrite (surjective_pairing (_log _ _ s)), _log_false in H.
    by simplify_eq.
  - by simplify_eq.
  - by simplify_eq.
Qed.

Lemma flag_t_inv l s fl l' s' :
  flag_t h r l s = (fl, l', s') →
  fl_of l' = fl_of l ∧ pipe_output l' = pipe_output l ∧
  wait_for_enter l' = wait_for_enter l ∧
  match fl with
  | Continue =>
      s' = s ∧
      (has "t" (fl_of l) = true → has_display h = true) ∧
      toggle_ui l' = (if has "t" (fl_of l) then false else toggle_ui l) ∧
      wait_of l' = (if has "t" (fl_of l) then Some false else wait_of l)
  | Stop v =>
      v = RFalse ∧ has "t" (fl_of l) = true ∧ has_display h = false ∧
      l' = l ∧ s' = (_log r msg_no_display s).2
  | Abort _ => False
  end.
Proof.
  intros H. unfold flag_t, when_flag in H.
  destruct (has "t" _); [destruct (has_display h); cbn [negb] in H|].
  - by simplify_eq.
  - rewrite (surjective_pairing (_log _ _ s)), _log_false in H.
    by simplify_eq.
  - by simplify_eq.
Qed.

Lemma set_args_inv l s fl l' s' :
  set_args l s = (fl, l', s') →
  fl = Continue ∧ s' = s ∧ cmd l' = cmd l ∧ fl_of l' = fl_of l ∧
  toggle_ui l' = toggle_ui l ∧ pipe_output l' = pipe_output l ∧
  wait_for_enter l' = wait_for_enter l ∧ wait_of l' = wait_of l.
Proof. intros H. unfold set_args in H. clause_inv H. Qed.

(** Every clause but [default_shell], [flag_r] and [flag_t] passes
    control on. *)
Ltac next H inv :=
  let Hne := fresh "Hne" in
  let Hc := fresh "Hc" in
  apply seq_inv in H as [[Hne H]|(?l & ?s & Hc & H)];
  [ apply inv in H; exfalso; apply Hne; tauto
  | apply inv in Hc ].

Lemma preconditions_spec a act s fl l s' :
  preconditions h r (entry r a act) s = (fl, l, s') →
  let x := Context.squash (flags a) in
  let mid := if has "s" x then opened s else s in
  match fl with
  | Abort e =>
      e = KeyError "SHELL" ∧ shell_mode a act = true ∧
      environ h !! "SHELL" = None ∧ s' = s
  | Stop v =>
      v = RFalse ∧ fl_of l = x ∧
      (shell_mode a act = true → is_Some (environ h !! "SHELL")) ∧
      ((has "r" x = true ∧ no_sudo h = true ∧ cmd l = act ∧
        s' = (_log r msg_no_sudo mid).2) ∨
       (has "t" x = true ∧ has_display h = false ∧
        (has "r" x = true → no_sudo h = false) ∧
        s' = (_log r msg_no_display mid).2))
  | Continue =>
      fl_of l = x ∧ s' = mid ∧
      (shell_mode a act = true → is_Some (environ h !! "SHELL")) ∧
      (has "r" x = true → no_sudo h = false) ∧
      (has "t" x = true → has_display h = true) ∧
      pipe_output l = has "p" x ∧
      toggle_ui l =
        (if has "t" x then false else if has "r" x then true
         else if has "f" x then false else if has "s" x then false
         else if has "p" x then false else true) ∧
      wait_of l =
        (if has "t" x then Some false else if has "r" x then Some true
         else if has "f" x then Some false
         else if has "p" x then Some false else wait a) ∧
      wait_for_enter l =
        (if has "w" x
         then negb (has "p" x)
              && wait_truthy (if has "f" x then Some false
                              else if has "p" x then Some false else wait a)
         else false)
  end.
Proof.
  intros H x mid. subst x mid. unfold preconditions in H.
  next H squash_inv.
  destruct Hc as (_ & -> & Hcmd0 & Hfl0 & Ht0 & Hp0 & He0 & Hw0 & Hk0).
  fields.
  apply seq_inv in H as [[Hne H]|(l1 & s1 & Hc & H)];
    apply default_shell_inv in H || apply default_shell_inv in Hc.
  { destruct H as (-> & _ & _ & _ & _ & _ & _ & H).
    unfold shell_of in H. rewrite Hk0, Hcmd0 in H.
    destruct fl; [done | done |]. by destruct H as (-> & ? & ?). }
  destruct Hc as (-> & Hcmd1 & Hfl1 & Ht1 & Hp1 & He1 & Hw1 & Hsh).
  unfold shell_of in Hsh. rewrite Hk0, Hcmd0 in Hsh. fold (shell_mode a act) in Hsh.
  next H default_streams_inv.
  destruct Hc as (_ & -> & Hcmd2 & Hfl2 & Ht2 & Hp2 & He2 & Hw2).
  next H flag_p_inv.
  destruct Hc as (_ & -> & Hcmd3 & Hfl3 & Ht3 & Hp3 & He3 & Hw3).
  next H flag_s_inv.
  destruct Hc as (_ & -> & Hcmd4 & Hfl4 & Ht4 & Hp4 & He4 & Hw4).
  next H flag_f_inv.
  destruct Hc as (_ & -> & Hcmd5 & Hfl5 & Ht5 & Hp5 & He5 & Hw5).
  next H flag_w_inv.
  destruct Hc as (_ & -> & Hcmd6 & Hfl6 & Ht6 & Hp6 & He6 & Hw6).
  rewrite Hfl0 in Hfl1. rewrite Hfl1 in Hfl2.
  rewrite Hfl2 in Hfl3, Ht3, Hp3, Hw3. rewrite Hfl3 in Hfl4, Ht4, H.
  rewrite Hfl4 in Hfl5, Ht5, Hw5. rewrite Hfl5 in Hfl6, He6.
  set (x := Context.squash (flags a)) in *.
  assert (Hpipe : pipe_output l6 = has "p" x).
  { rewrite Hp6, Hp5, Hp4, Hp3, Hp2, Hp1, Hp0. by destruct (has "p" x). }
  assert (Htog : toggle_ui l6 =
                 if has "f" x then false else if has "s" x then false
                 else if has "p" x then false else true).
  { by rewrite Ht6, Ht5, Ht4, Ht3, Ht2, Ht1, Ht0. }
  assert (Hwait : wait_of l6 =
                  if has "f" x then Some false
                  else if has "p" x then Some false else wait a).
  { by rewrite Hw6, Hw5, Hw4, Hw3, Hw2, Hw1, Hw0. }
  assert (Henter : wait_for_enter l6 =
                   if has "w" x
                   then negb (has "p" x)
                        && wait_truthy (if has "f" x then Some false
                                        else if has "p" x then Some false
                                        else wait a)
                   else false).
  { rewrite He6, Hp5, Hp4, Hp3, Hp2, Hp1, Hp0, Hw5, Hw4, Hw3, Hw2, Hw1, Hw0.
    rewrite He5, He4, He3, He2, He1, He0.
    destruct (has "w" x), (has "p" x); cbn [negb andb]; try done.
    by destruct (has "f" x), (wait a) as [[]|]. }
  assert (Hcmd : cmd l6 = act) by congruence.
  clear Hcmd0 Hcmd1 Hcmd2 Hcmd3 Hcmd4 Hcmd5 Hcmd6 Ht0 Ht1 Ht2 Ht3 Ht4 Ht5 Ht6
    Hp0 Hp1 Hp2 Hp3 Hp4 Hp5 Hp6 He0 He1 He2 He3 He4 He5 He6
    Hw0 Hw1 Hw2 Hw3 Hw4 Hw5 Hw6 Hfl0 Hfl1 Hfl2 Hfl3 Hfl4 Hfl5 Hk0.
  apply seq_inv in H as [[Hne H]|(l7 & s7 & Hc & H)];
    apply flag_r_inv in H || apply flag_r_inv in Hc.
  { destruct H as (Hfl7 & _ & _ & H). rewrite Hfl6 in Hfl7, H.
    destruct fl as [|v|e]; [done | | done].
    destruct H as (-> & Hr & Hs & -> & ->). by auto 10. }
  destruct Hc as (Hfl7 & Hp7 & He7 & -> & Hsudo & Ht7 & Hw7).
  rewrite Hfl6 in Hfl7, Hsudo, Ht7, Hw7.
  apply seq_inv in H as [[Hne H]|(l8 & s8 & Hc & H)];
    apply flag_t_inv in H || apply flag_t_inv in Hc.
  { destruct H as (Hfl8 & _ & _ & H). rewrite Hfl7 in Hfl8, H.
    destruct fl as [|v|e]; [done | | done].
    destruct H as (-> & Hr & Hs & -> & ->). by auto 10. }
  destruct Hc as (Hfl8 & Hp8 & He8 & -> & Hdisp & Ht8 & Hw8).
  rewrite Hfl7 in Hfl8, Hdisp, Ht8, Hw8.
  apply set_args_inv in H
    as (-> & -> & Hcmd9 & Hfl9 & Ht9 & Hp9 & He9 & Hw9).
  rewrite Hfl9, Hp9, Ht9, He9, Hw9, Hfl8, Hp8, Ht8, He8, Hw8.
  rewrite Hp7, Ht7, He7, Hw7, Hpipe, Htog, Henter, Hwait.
  done.
Qed.
End Preconditions.

(** * The call *)

Section Call.

Import Runner.

Variables (h : Host) (r : Runner.t).
Implicit Types (l : locals) (s : State) (fl : flow) (a : args).

Lemma squash_nil_has c : has c (Context.squash []) = false.
Proof. reflexivity. Qed.

Lemma finally_block_nopipe self1 self2 l process error s :
  pipe_output l = false →
  finally_block self1 r l process error s
  = finally_block self2 r l process error s.
Proof.
  intros Hp. unfold finally_block. rewrite Hp.
  by destruct (signal_emit _ _ _) as [[e|] s1].
Qed.

Lemma body_ext self1 self2 a s :
  (∀ p s0, self1 (pager_args p) s0 = self2 (pager_args p) s0) →
  body self1 h r a s = body self2 h r a s.
Proof.
  intros Hself. unfold body, finally_block.
  repeat case_match; simplify_eq; auto.
Qed.

Lemma body_pager self1 self2 p s :
  body self1 h r (pager_args p) s = body self2 h r (pager_args p) s.
Proof.
  unfold body. cbn [action pager_args].
  destruct (preconditions _ _ _ _) as [[[|v|e] l] s1] eqn:Hpre; try done.
  apply preconditions_spec in Hpre as (_ & _ & _ & _ & _ & Hp & _).
  destruct (run h r l s1) as [[[pend process] error] s2].
  by apply finally_block_nopipe.
Qed.

Lemma call_depth n a s : call (S (S n)) h r a s = __call__ h r a s.
Proof.
  unfold __call__. cbn [call]. apply body_ext. intros p s0.
  apply body_pager.
Qed.

Lemma body_finished self a s :
  (∀ p s0, (self (pager_args p) s0).1 ≠ Unfinished) →
  (body self h r a s).1 ≠ Unfinished.
Proof.
  intros Hself. unfold body, finally_block.
  repeat case_match; simplify_eq; cbn [fst]; done.
Qed.

(** The depth bound is never met: a call ends by returning or by
    raising. *)
Lemma call_finished a s : (__call__ h r a s).1 ≠ Unfinished.
Proof.
  unfold __call__. change (call 2 h r a s) with (body (call 1 h r) h r a s).
  apply body_finished. intros p s0.
  change (call 1 h r (pager_args p) s0)
    with (body (call 0 h r) h r (pager_args p) s0).
  rewrite (body_pager _ (λ _ s1, (Returns RNone, s1))).
  by apply body_finished.
Qed.

Lemma run_process_fm l s pend p error s2 :
  run h r l s = (pend, Some p, error, s2) → is_Some (fm r).
Proof.
  unfold run, try_block, signal_emit. destruct (fm r); [eauto|].
  intros; simplify_eq.
Qed.

(** ** The log *)

Lemma _log_log m s :
  log (_log r m s).2
  = (log s ++ match logfunc r with Some _ => [m] | None => [] end)%list.
Proof. unfold _log. destruct (logfunc r); simpl; by rewrite ?app_nil_r. Qed.

Lemma _log_zombies m s : zombies (_log r m s).2 = zombies s.
Proof. unfold _log. by destruct (logfunc r). Qed.

Lemma _log_trace m s : trace (_log r m s).2 = trace s.
Proof. unfold _log. by destruct (logfunc r). Qed.

Lemma _log_open_files m s : open_files (_log r m s).2 = open_files s.
Proof. unfold _log. by destruct (logfunc r). Qed.

Lemma opened_rest s :
  zombies (opened s) = zombies s ∧ log (opened s) = log s ∧
  trace (opened s)
  = (trace s ++ [IoOpen (DevNull (next_id s) "w");
                 IoOpen (DevNull (next_id s + 1) "r")])%list ∧
  open_files (opened s)
  = (open_files s
     ++ [DevNull (next_id s) "w"; DevNull (next_id s + 1) "r"])%list.
Proof. unfold opened, io_open. cbn. by rewrite <- !app_assoc. Qed.

(** ** Passing the preconditions *)

Lemma preconditions_continue a act s :
  let x := Context.squash (flags a) in
  (shell_mode a act = true → is_Some (environ h !! "SHELL")) →
  (has "r" x = true → no_sudo h = false) →
  (has "t" x = true → has_display h = true) →
  ∃ l, preconditions h r (entry r a act) s
       = (Continue, l, if has "s" x then opened s else s).
Proof.
  intros x Hsh Hr Ht.
  destruct (preconditions h r (entry r a act) s) as [[fl l] s1] eqn:Hpre.
  pose proof (preconditions_spec h r _ _ _ _ _ _ Hpre) as H. cbv zeta in H.
  fold x in H. destruct fl as [|v|e].
  - destruct H as (_ & -> & _). eauto.
  - destruct H as (_ & _ & _ & [(Hr' & Hs & _)|(Ht' & Hd & _)]).
    + rewrite Hr in Hs; done.
    + rewrite Ht in Hd; done.
  - destruct H as (_ & Hm & Hnone & _). destruct (Hsh Hm) as [? ?]. congruence.
Qed.

(** ** The spawn *)

Lemma try_block_forked l s m :
  fm r = Some m →
  has "f" (fl_of l) = true → has "r" (fl_of l) = false →
  wait_of l = Some false → wait_for_enter l = false →
  let kws := Context.popen_kws (context l) in
  try_block h r l s
  = (None, None, None,
     record (CallPopenForked kws (Popen_forked h kws))
       (record (EmitBefore (context l)) s)).
Proof.
  intros Hfm Hf Hr Hw He kws. unfold try_block, signal_emit, else_block.
  by rewrite Hfm, Hf, Hr, Hw, He.
Qed.

Lemma try_block_oserror l s m n :
  fm r = Some m →
  has "f" (fl_of l) && negb (has "r" (fl_of l)) = false →
  let kws := Context.popen_kws (context l) in
  Popen h kws = Some (OSError n) →
  try_block h r l s
  = (None, None, Some (OSError n),
     (_log r (FailedToRun (cmd l) (OSError n))
        (record (CallPopen kws (Some (OSError n)))
           (record (EmitBefore (context l)) s))).2).
Proof.
  intros Hfm Hf kws Hpopen. unfold try_block, signal_emit.
  fold kws. by rewrite Hfm, Hf, Hpopen.
Qed.

Lemma finally_block_none self l error s m :
  fm r = Some m →
  finally_block self r l None error s
  = (Returns RNone,
     let s1 := record (EmitAfter (context l) error) s in
     if toggle_ui l then _activate_ui r true s1 else s1).
Proof.
  intros Hfm. unfold finally_block, signal_emit. rewrite Hfm.
  by destruct (pipe_output l).
Qed.

Lemma body_stop self a act s v l s1 :
  action a = Some act →
  preconditions h r (entry r a act) s = (Stop v, l, s1) →
  body self h r a s = (Returns v, s1).
Proof. intros Ha Hpre. unfold body. by rewrite Ha, Hpre. Qed.

Lemma body_continue self a act s l s1 :
  action a = Some act →
  preconditions h r (entry r a act) s = (Continue, l, s1) →
  body self h r a s
  = finally_block self r l (run h r l s1).1.1.2 (run h r l s1).1.2
      (run h r l s1).2.
Proof.
  intros Ha Hpre. unfold body. rewrite Ha, Hpre.
  by destruct (run h r l s1) as [[[pend process] error] s2].
Qed.

Lemma call_none a s :
  action a = None →
  __call__ h r a s = (Returns RFalse, (_log r msg_no_action s).2).
Proof.
  intros Ha. unfold __call__. cbn [call]. unfold body. rewrite Ha.
  unfold msg_no_action.
  rewrite (surjective_pairing (_log _ _ s)), _log_false. done.
Qed.

Lemma call_stop a act s v l s1 :
  action a = Some act →
  preconditions h r (entry r a act) s = (Stop v, l, s1) →
  __call__ h r a s = (Returns v, s1).
Proof. intros. unfold __call__. cbn [call]. by eapply body_stop. Qed.

(** A call whose preconditions hold and that takes the detached spawn:
    the result of [Popen_forked] is dropped and [process] stays None. *)
Lemma call_forked a act s m :
  let x := Context.squash (flags a) in
  action a = Some act → fm r = Some m →
  has "f" x = true → has "r" x = false →
  (shell_mode a act = true → is_Some (environ h !! "SHELL")) →
  (has "t" x = true → has_display h = true) →
  ∃ l, preconditions h r (entry r a act) s
       = (Continue, l, if has "s" x then opened s else s) ∧
       let kws := Context.popen_kws (context l) in
       __call__ h r a s
       = (Returns RNone,
          record (EmitAfter (context l) None)
            (record (CallPopenForked kws (Popen_forked h kws))
               (record (EmitBefore (context l))
                  (if has "s" x then opened s else s)))).
Proof.
  intros x Ha Hfm Hf Hr Hsh Ht.
  destruct (preconditions_continue a act s Hsh) as [l Hpre]; auto.
  { fold x. by rewrite Hr. }
  exists l. split; [done|].
  pose proof (preconditions_spec h r _ _ _ _ _ _ Hpre)
    as (Hfl & _ & _ & _ & _ & _ & Htog & Hw & He).
  fold x in Htog, Hw, He, Hfl. rewrite Hr, Hf in *.
  assert (toggle_ui l = false) as Htog' by (by destruct (has "t" x)).
  assert (wait_of l = Some false) as Hw' by (by destruct (has "t" x)).
  assert (wait_for_enter l = false) as He'.
  { rewrite He. destruct (has "w" x); [|done]. apply andb_false_r. }
  unfold __call__. cbn [call]. rewrite (body_continue _ _ _ _ _ _ Ha Hpre).
  unfold run. rewrite Htog'.
  rewrite (try_block_forked l _ m) by (rewrite ?Hfl; done).
  cbn [fst snd]. rewrite (finally_block_none _ _ _ _ m Hfm).
  cbv zeta. by rewrite Htog'.
Qed.

Lemma mid_rest (b : bool) s :
  zombies (if b then opened s else s) = zombies s ∧
  log (if b then opened s else s) = log s.
Proof. destruct b; [|done]. by destruct (opened_rest s) as (? & ? & _). Qed.

Lemma _activate_ui_log value s m :
  m ∈ log s → m ∈ log (_activate_ui r value s).
Proof.
  intros Hm. unfold _activate_ui.
  destruct (ui r) as [u|]; [|done].
  destruct value, (initialize_raises u), (suspend_raises u); cbn [record log];
    rewrite ?_log_log; set_solver.
Qed.

Lemma _activate_ui_zombies value s :
  zombies (_activate_ui r value s) = zombies s.
Proof.
  unfold _activate_ui. destruct (ui r) as [u|]; [|done].
  destruct value, (initialize_raises u), (suspend_raises u);
    cbn [record zombies]; by rewrite ?_log_zombies.
Qed.

Lemma call_oserror a act s m l s1 n :
  let x := Context.squash (flags a) in
  action a = Some act → fm r = Some m →
  preconditions h r (entry r a act) s = (Continue, l, s1) →
  has "f" x && negb (has "r" x) = false →
  Popen h (Context.popen_kws (context l)) = Some (OSError n) →
  ∃ s', __call__ h r a s = (Returns RNone, s') ∧
        (is_Some (logfunc r) → FailedToRun (cmd l) (OSError n) ∈ log s').
Proof.
  intros x Ha Hfm Hpre Hf Hpopen.
  pose proof (preconditions_spec h r _ _ _ _ _ _ Hpre) as (Hfl & _).
  unfold __call__. cbn [call]. rewrite (body_continue _ _ _ _ _ _ Ha Hpre).
  unfold run.
  rewrite (try_block_oserror l _ m n) by (rewrite ?Hfl; done).
  cbn [fst snd]. rewrite (finally_block_none _ _ _ _ m Hfm).
  eexists; split; [done|]. intros [lf Hlf]. cbv zeta.
  assert (∀ s0, FailedToRun (cmd l) (OSError n)
                ∈ log (record (EmitAfter (context l) (Some (OSError n)))
                         (_log r (FailedToRun (cmd l) (OSError n)) s0).2))
    as Hin.
  { intros s0. cbn [record log]. rewrite _log_log, Hlf. set_solver. }
  destruct (toggle_ui l); [apply _activate_ui_log|]; apply Hin.
Qed.

(** ** Calls that return *)

Lemma pager_returns p s m :
  is_Some (environ h !! "SHELL") → fm r = Some m →
  ∃ v s', call 1 h r (pager_args p) s = (Returns v, s') ∧ v ≠ RFalse.
Proof.
  intros Henv Hfm. cbn [call]. unfold body. cbn [action pager_args].
  destruct (preconditions _ _ _ _) as [[[|v|e] l] s1] eqn:Hpre;
    pose proof (preconditions_spec h r _ _ _ _ _ _ Hpre) as H; cbv zeta in H.
  - destruct H as (_ & _ & _ & _ & _ & Hp & _).
    destruct (run h r l s1) as [[[pend process] error] s2].
    unfold finally_block, signal_emit. rewrite Hfm, Hp.
    eexists _, _; split; [done|]. by destruct process.
  - by destruct H as (_ & _ & _ & [(? & _)|(? & _)]).
  - destruct H as (_ & _ & Hnone & _). destruct Henv as [? ?]. congruence.
Qed.

(** ** Traces *)

Section Grows.

Variable P : event → Prop.

Lemma grows_refl s : grows P s s.
Proof. exists []. by rewrite app_nil_r. Qed.




Lemma grows_log m s s' : grows P s s' → grows P s (_log r m s').2.
Proof. unfold grows. by rewrite _log_trace. Qed.

Lemma grows_opened s s' :
  (∀ f, P (IoOpen f)) → grows P s s' → grows P s (opened s').
Proof.
  intros HP (evs & Ht & Hall). unfold grows.
  destruct (opened_rest s') as (_ & _ & -> & _).
  eexists. rewrite Ht, <- app_assoc. split; [done|].
  apply Forall_app. split; [done|]. repeat constructor; apply HP.
Qed.

End Grows.



(** ** C2, as amended *)


(** ** Failed preconditions *)

Lemma call_no_sudo a act s :
  let x := Context.squash (flags a) in
  let mid := if has "s" x then opened s else s in
  action a = Some act →
  has "r" x = true → no_sudo h = true →
  (shell_mode a act = true → is_Some (environ h !! "SHELL")) →
  ∃ l, preconditions h r (entry r a act) s
       = (Stop RFalse, l, (_log r msg_no_sudo mid).2) ∧
       cmd l = act ∧
       __call__ h r a s = (Returns RFalse, (_log r msg_no_sudo mid).2).
Proof.
  intros x mid Ha Hr Hsudo Hsh.
  destruct (preconditions h r (entry r a act) s) as [[[|v|e] l] s1] eqn:Hpre;
    pose proof (preconditions_spec h r _ _ _ _ _ _ Hpre) as H; cbv zeta in H;
    fold x in H; fold mid in H.
  - destruct H as (_ & _ & _ & Hno & _). rewrite Hno in Hsudo; done.
  - destruct H as (-> & _ & _ & [(_ & _ & Hcmd & ->)|(_ & _ & Hno & _)]).
    + exists l. repeat split; try done. by eapply call_stop.
    + rewrite Hno in Hsudo; done.
  - destruct H as (_ & Hm & Hnone & _). destruct (Hsh Hm) as [? ?]. congruence.
Qed.

Lemma call_no_display a act s :
  let x := Context.squash (flags a) in
  action a = Some act →
  has "t" x = true → has_display h = false →
  (shell_mode a act = true → is_Some (environ h !! "SHELL")) →
  ∃ s', __call__ h r a s = (Returns RFalse, s').
Proof.
  intros x Ha Ht Hdisp Hsh.
  destruct (preconditions h r (entry r a act) s) as [[[|v|e] l] s1] eqn:Hpre;
    pose proof (preconditions_spec h r _ _ _ _ _ _ Hpre) as H; cbv zeta in H;
    fold x in H.
  - destruct H as (_ & _ & _ & _ & Hyes & _). rewrite Hyes in Hdisp; done.
  - destruct H as (-> & _). eexists. by eapply call_stop.
  - destruct H as (_ & Hm & Hnone & _). destruct (Hsh Hm) as [? ?]. congruence.
Qed.

(** ** Open files *)

Lemma still_open_refl s : still_open s s.
Proof. by intros f. Qed.

Lemma still_open_trans s1 s2 s3 :
  still_open s1 s2 → still_open s2 s3 → still_open s1 s3.
Proof. intros H1 H2 f Hf. auto. Qed.

Lemma still_open_eq s s' :
  open_files s' = open_files s → still_open s s'.
Proof. intros Heq f. by rewrite Heq. Qed.

Lemma still_open_opened s : still_open s (opened s).
Proof.
  intros f Hf. destruct (opened_rest s) as (_ & _ & _ & ->). set_solver.
Qed.

Lemma _activate_ui_open_files value s :
  open_files (_activate_ui r value s) = open_files s.
Proof.
  unfold _activate_ui. destruct (ui r) as [u|]; [|done].
  destruct value, (initialize_raises u), (suspend_raises u);
    cbn [record open_files]; by rewrite ?_log_open_files.
Qed.

Lemma else_block_open_files l process s :
  open_files (else_block l process s).2 = open_files s.
Proof.
  unfold else_block.
  destruct (wait_truthy _), process as [p|], (wait_for_enter l); done.
Qed.

Lemma try_block_open_files l s :
  open_files (try_block h r l s).2 = open_files s.
Proof.
  unfold try_block, signal_emit. destruct (fm r); [|done].
  destruct (has "f" _ && negb _).
  { destruct (else_block l None _) as [pend s3] eqn:He. cbn [snd].
    change s3 with (pend, s3).2. rewrite <- He.
    by rewrite else_block_open_files. }
  destruct (Popen h _) as [ex|].
  { destruct (is_OSError ex); cbn [snd]; by rewrite ?_log_open_files. }
  destruct (else_block l (Some _) _) as [pend s3] eqn:He. cbn [snd].
  change s3 with (pend, s3).2. rewrite <- He.
  by rewrite else_block_open_files.
Qed.

Lemma run_open_files l s : open_files (run h r l s).2 = open_files s.
Proof.
  unfold run. rewrite try_block_open_files.
  destruct (toggle_ui l); by rewrite ?_activate_ui_open_files.
Qed.

Lemma finally_block_open self l process error s :
  (∀ a s0, still_open s0 (self a s0).2) →
  still_open s (finally_block self r l process error s).2.
Proof.
  intros Hself. unfold finally_block, signal_emit.
  destruct (fm r); [|apply still_open_refl].
  assert (∀ s0, still_open s (if toggle_ui l
                              then _activate_ui r true
                                     (record (EmitAfter (context l) error) s)
                              else record (EmitAfter (context l) error) s))
    as Hs by (intros _; apply still_open_eq; destruct (toggle_ui l);
              by rewrite ?_activate_ui_open_files).
  destruct (pipe_output l), process as [p|]; cbn [snd]; auto.
  eapply still_open_trans; [by apply Hs | apply Hself].
Qed.

Lemma body_open_tail self a act s fl l s1 :
  (∀ a s0, still_open s0 (self a s0).2) →
  action a = Some act →
  preconditions h r (entry r a act) s = (fl, l, s1) →
  still_open s1 (body self h r a s).2.
Proof.
  intros Hself Ha Hpre. unfold body. rewrite Ha, Hpre.
  destruct fl; try apply still_open_refl.
  destruct (run h r l s1) as [[[pend process] error] s2] eqn:Hrun.
  eapply still_open_trans; [|by apply finally_block_open].
  apply still_open_eq. by rewrite <- (run_open_files l s1), Hrun.
Qed.

Lemma preconditions_open a act s fl l s1 :
  preconditions h r (entry r a act) s = (fl, l, s1) →
  still_open s s1.
Proof.
  intros Hpre.
  pose proof (preconditions_spec h r _ _ _ _ _ _ Hpre) as H. cbv zeta in H.
  assert (still_open s (if has "s" (Context.squash (flags a))
                        then opened s else s)) as Hmid.
  { destruct (has "s" _); [apply still_open_opened | apply still_open_refl]. }
  destruct fl.
  - by destruct H as (_ & -> & _).
  - destruct H as (_ & _ & _ & [(_ & _ & _ & ->)|(_ & _ & _ & ->)]);
      (eapply still_open_trans; [apply Hmid|]);
      apply still_open_eq, _log_open_files.
  - destruct H as (_ & _ & _ & ->). apply still_open_refl.
Qed.

Lemma call_still_open n a s : still_open s (call n h r a s).2.
Proof.
  revert a s. induction n as [|n IH]; intros a s; [apply still_open_refl|].
  cbn [call]. destruct (action a) as [act|] eqn:Ha.
  - destruct (preconditions h r (entry r a act) s) as [[fl l] s1] eqn:Hpre.
    eapply still_open_trans; [by eapply preconditions_open|].
    by eapply body_open_tail.
  - unfold body. rewrite Ha. rewrite (surjective_pairing (_log _ _ s)).
    apply still_open_eq, _log_open_files.
Qed.

(** Under the [s] flag the two file objects bound to the child's
    streams are open when the call is over, however it ends. *)
Lemma devnull_left_open a act s :
  action a = Some act →
  has "s" (Context.squash (flags a)) = true →
  (shell_mode a act = true → is_Some (environ h !! "SHELL")) →
  DevNull (next_id s) "w" ∈ open_files (__call__ h r a s).2 ∧
  DevNull (next_id s + 1) "r" ∈ open_files (__call__ h r a s).2.
Proof.
  intros Ha Hs Hsh.
  destruct (preconditions h r (entry r a act) s) as [[fl l] s1] eqn:Hpre.
  assert (still_open (opened s) s1) as Hopen.
  { pose proof (preconditions_spec h r _ _ _ _ _ _ Hpre) as H.
    cbv zeta in H. rewrite Hs in H. destruct fl.
    - destruct H as (_ & -> & _). apply still_open_refl.
    - destruct H as (_ & _ & _ & [(_ & _ & _ & ->)|(_ & _ & _ & ->)]);
        apply still_open_eq, _log_open_files.
    - destruct H as (_ & Hm & Hnone & _). destruct (Hsh Hm) as [? ?].
      congruence. }
  assert (still_open (opened s) (__call__ h r a s).2) as Hcall.
  { eapply still_open_trans; [apply Hopen|]. unfold __call__.
    change (call 2 h r a s) with (body (call 1 h r) h r a s).
    eapply body_open_tail; [|done..]. intros a0 s0.
    apply (call_still_open 1). }
  destruct (opened_rest s) as (_ & _ & _ & Hfiles).
  split; apply Hcall; rewrite Hfiles; set_solver.
Qed.

End Call.

(** * The claims on sample calls *)

Section Concrete.

Import Runner Sample.

(** ** C1 *)

(** C1 does not hold as stated: with a command string as action and no
    SHELL in the environment, [os.environ['SHELL']] raises KeyError in
    front of the [try] block, and the exception leaves the call. *)
Lemma exception_escapes_without_shell :
  (__call__ no_shell runner (run_with (Some (Command "ls")) EmptyString)
     fresh).1
  = Raises (KeyError "SHELL").
Proof. vm_compute. reflexivity. Qed.

(** The Runner of the module docstring has no manager: the first
    notification raises AttributeError, and so does the one in the
    [finally] block. *)
Example exception_escapes_without_manager :
  (__call__ linux docstring_runner
     (run_with (Some (Command "sleep 2")) EmptyString) fresh).1
  = Raises (AttributeError "signal_emit").
Proof. vm_compute. reflexivity. Qed.

(** ** C2 *)


(** With [p] alone the invocation keeps off the UI, and the chained
    pager call, which has no flags, suspends it. *)
Example pager_call_suspends_ui :
  In UiSuspend
    (trace (__call__ linux runner (run_with (Some (Command "ls")) "p")
              fresh).2).
Proof. vm_compute. repeat (first [left; reflexivity | right]). Qed.


(** ** C3 *)

(** C3 does not hold as stated: with flag [f] and a detached spawn that
    succeeds, the zombie set is empty after the call. *)
Lemma detached_child_not_among_zombies :
  let res := __call__ linux runner (run_with (Some (Command "ls")) "f")
               fresh in
  res.1 = Returns RNone ∧
  zombies res.2 = ∅ ∧
  ∃ kws, CallPopenForked kws true ∈ trace res.2.
Proof.
  vm_compute. split; [reflexivity|]. split; [reflexivity|].
  eexists. apply list_elem_of_In.
  repeat (first [left; reflexivity | right]).
Qed.

(** ** C4 *)

(** C4, evaluated: after a call with flag [s] the two file objects on
    the null device are still open, whether the spawn succeeded or
    raised; no path of the call closes them. *)
Theorem devnull_handles_stay_open :
  open_files
    (__call__ linux runner (run_with (Some (Command "make")) "s") fresh).2
  = [DevNull 0 "w"; DevNull 1 "r"] ∧
  open_files
    (__call__ failing runner (run_with (Some (Command "make")) "s") fresh).2
  = [DevNull 0 "w"; DevNull 1 "r"].
Proof. split; vm_compute; reflexivity. Qed.


End Concrete.

(** * The spawn options *)

Section Options.

Import Runner.

Variables (h : Host) (r : Runner.t).
Implicit Types (l : locals) (s : State) (fl : flow) (a : args).

Lemma seq_continue (c1 c2 : clause) l s l' s' :
  (c1 >>> c2) l s = (Continue, l', s') →
  ∃ l1 s1, c1 l s = (Continue, l1, s1) ∧ c2 l1 s1 = (Continue, l', s').
Proof.
  intros H. apply seq_inv in H as [[Hne _]|H]; [done|exact H].
Qed.

Lemma default_shell_options l s l' s' :
  default_shell h l s = (Continue, l', s') →
  cmd l' = cmd l ∧
  kws_of l' =
    let k1 := if contains "shell" (kws_of l) then kws_of l
              else <["shell" := VBool (is_str (cmd l))]> (kws_of l) in
    if shell_of l
    then match environ h !! "SHELL" with
         | Some sh => <["executable" := VStr sh]> k1
         | None => k1
         end
    else k1.
Proof.
  intros H. unfold default_shell, contains in H. unfold shell_of, contains.
  destruct (kws_of l !! "shell") as [v|] eqn:Hsh; simpl.
  - rewrite bool_decide_eq_true_2 in H by eauto.
    rewrite ?bool_decide_eq_true_2 by eauto. rewrite Hsh in H.
    destruct (truthy v); [destruct (environ h !! "SHELL")|];
      by simplify_eq.
  - rewrite bool_decide_eq_false_2 in H by (by intros [? ?]).
    rewrite ?bool_decide_eq_false_2 by (by intros [? ?]).
    fields. rewrite lookup_insert_eq in H. cbn [truthy] in H.
    destruct (is_str (cmd l)); [destruct (environ h !! "SHELL")|];
      by simplify_eq.
Qed.

Lemma default_streams_options l s l' s' :
  default_streams l s = (Continue, l', s') →
  cmd l' = cmd l ∧
  kws_of l' =
    let k3 := if contains "stdout" (kws_of l) then kws_of l
              else <["stdout" := VStream SysStdout]> (kws_of l) in
    if contains "stderr" k3 then k3
    else <["stderr" := VStream SysStderr]> k3.
Proof.
  intros H. unfold default_streams, pure in H. simplify_eq.
  destruct (contains "stdout" _); fields;
    destruct (contains "stderr" _); done.
Qed.

Lemma flag_p_options l s l' s' :
  flag_p l s = (Continue, l', s') →
  cmd l' = cmd l ∧
  kws_of l' = if has "p" (fl_of l)
              then <["stderr" := VStream STDOUT]>
                     (<["stdout" := VStream PIPE]> (kws_of l))
              else kws_of l.
Proof.
  intros H. unfold flag_p, when_flag, pure in H.
  destruct (has "p" _); by simplify_eq.
Qed.

Lemma flag_s_options l s l' s' :
  flag_s l s = (Continue, l', s') →
  cmd l' = cmd l ∧
  kws_of l' = if has "s" (fl_of l)
              then <["stdin" := VStream (DevNull (next_id s + 1) "r")]>
                     (<["stderr" := VStream (DevNull (next_id s) "w")]>
                        (<["stdout" := VStream (DevNull (next_id s) "w")]>
                           (kws_of l)))
              else kws_of l.
Proof.
  intros H. unfold flag_s, when_flag in H.
  destruct (has "s" _); [cbn in H|]; by simplify_eq.
Qed.

Lemma flag_f_options l s l' s' :
  flag_f l s = (Continue, l', s') → cmd l' = cmd l ∧ kws_of l' = kws_of l.
Proof.
  intros H. unfold flag_f, when_flag, pure in H.
  destruct (has "f" _); by simplify_eq.
Qed.

Lemma flag_w_options l s l' s' :
  flag_w l s = (Continue, l', s') → cmd l' = cmd l ∧ kws_of l' = kws_of l.
Proof.
  intros H. unfold flag_w, when_flag, pure in H.
  destruct (has "w" _); [destruct (negb _ && _)|]; by simplify_eq.
Qed.

Lemma flag_r_options l s l' s' :
  flag_r h r l s = (Continue, l', s') →
  kws_of l' = kws_of l ∧
  cmd l' = if has "r" (fl_of l)
           then with_sudo (has "f" (fl_of l)) (cmd l) else cmd l.
Proof.
  intros H. unfold flag_r, when_flag in H.
  destruct (has "r" _); [destruct (no_sudo h)|];
    try rewrite (surjective_pairing (_log _ _ s)) in H;
    simplify_eq; fields; try done; by destruct (cmd l).
Qed.

Lemma flag_t_options l s l' s' :
  flag_t h r l s = (Continue, l', s') →
  kws_of l' = kws_of l ∧
  cmd l' = if has "t" (fl_of l)
           then in_terminal (get_term h) (cmd l) else cmd l.
Proof.
  intros H. unfold flag_t, when_flag in H.
  destruct (has "t" _); [destruct (has_display h); cbn [negb] in H|];
    try rewrite (surjective_pairing (_log _ _ s)) in H;
    simplify_eq; fields; try done; by destruct (cmd l).
Qed.

Lemma set_args_options l s l' s' :
  set_args l s = (Continue, l', s') →
  cmd l' = cmd l ∧ kws_of l' = <["args" := args_value (cmd l)]> (kws_of l).
Proof. intros H. unfold set_args, pure in H. by simplify_eq. Qed.

(** What a call that passes its preconditions hands to the spawn. *)
Lemma preconditions_options a act s l s1 :
  preconditions h r (entry r a act) s = (Continue, l, s1) →
  let x := Context.squash (flags a) in
  cmd l = final_action h x act ∧
  kws_of l = final_options h a act x (next_id s).
Proof.
  intros H x. unfold preconditions in H.
  apply seq_continue in H as (l0 & s0 & Hc & H).
  apply squash_inv in Hc as (_ & -> & Hcmd0 & Hfl0 & _ & _ & _ & _ & Hk0).
  fields.
  apply seq_continue in H as (l1 & s1' & Hc & H).
  pose proof (default_shell_inv h _ _ _ _ _ Hc) as (-> & _ & Hfl1 & _).
  apply default_shell_options in Hc as (Hcmd1 & Hk1).
  apply seq_continue in H as (l2 & s2 & Hc & H).
  pose proof (default_streams_inv _ _ _ _ _ Hc) as (_ & -> & _ & Hfl2 & _).
  apply default_streams_options in Hc as (Hcmd2 & Hk2).
  apply seq_continue in H as (l3 & s3 & Hc & H).
  pose proof (flag_p_inv _ _ _ _ _ Hc) as (_ & -> & _ & Hfl3 & _).
  apply flag_p_options in Hc as (Hcmd3 & Hk3).
  apply seq_continue in H as (l4 & s4 & Hc & H).
  pose proof (flag_s_inv _ _ _ _ _ Hc) as (_ & Hs4 & _ & Hfl4 & _).
  apply flag_s_options in Hc as (Hcmd4 & Hk4).
  apply seq_continue in H as (l5 & s5 & Hc & H).
  pose proof (flag_f_inv _ _ _ _ _ Hc) as (_ & _ & _ & Hfl5 & _).
  apply flag_f_options in Hc as (Hcmd5 & Hk5).
  apply seq_continue in H as (l6 & s6 & Hc & H).
  pose proof (flag_w_inv _ _ _ _ _ Hc) as (_ & _ & _ & Hfl6 & _).
  apply flag_w_options in Hc as (Hcmd6 & Hk6).
  apply seq_continue in H as (l7 & s7 & Hc & H).
  pose proof (flag_r_inv h r _ _ _ _ _ Hc) as (Hfl7 & _).
  apply flag_r_options in Hc as (Hk7 & Hcmd7).
  apply seq_continue in H as (l8 & s8 & Hc & H).
  pose proof (flag_t_inv h r _ _ _ _ _ Hc) as (Hfl8 & _).
  apply flag_t_options in Hc as (Hk8 & Hcmd8).
  apply set_args_options in H as (Hcmd9 & Hk9).
  assert (Hx6 : fl_of l6 = x) by (unfold x; congruence).
  assert (Hx7 : fl_of l7 = x) by (unfold x; congruence).
  assert (Hx3 : fl_of l3 = x) by (unfold x; congruence).
  assert (Hx2 : fl_of l2 = x) by (unfold x; congruence).
  assert (Hcmd : cmd l8 = final_action h x act).
  { unfold final_action. rewrite Hcmd8, Hx7, Hcmd7, Hx6.
    by rewrite Hcmd6, Hcmd5, Hcmd4, Hcmd3, Hcmd2, Hcmd1, Hcmd0. }
  split; [congruence|].
  rewrite Hk9, Hcmd, Hk8, Hk7, Hk6, Hk5, Hk4, Hx3, Hk3, Hx2, Hk2, Hk1.
  unfold final_options, default_options, shell_mode, shell_of.
  by rewrite Hk0, Hcmd0.
Qed.

Lemma contains_lookup key (k : gmap string value) :
  contains key k = true ↔ is_Some (k !! key).
Proof. unfold contains. apply bool_decide_eq_true. Qed.

Lemma contains_false key (k : gmap string value) :
  contains key k = false ↔ k !! key = None.
Proof.
  unfold contains. rewrite bool_decide_eq_false, eq_None_not_Some. done.
Qed.

(** Closes a goal on a lookup in the options by going through the
    conditional insertions. *)
Ltac options_lookup :=
  unfold final_options, default_options;
  repeat match goal with
         | |- context [if contains ?key ?k then _ else _] =>
             let H := fresh "Hc" in
             destruct (contains key k) eqn:H;
             [apply contains_lookup in H as [? H]
             |apply contains_false in H]
         end;
  repeat case_match; simplify_map_eq; try done.

(** ** X1 *)

(** X1: under the [s] flag the child's [stdout] and [stderr] are the
    file object opened for writing on the null device and its [stdin]
    the one opened for reading, whatever the caller passed for them and
    also when [p] asked for a pipe; both file objects are open. *)
Theorem silent_flag_binds_null_device a act s l s1 :
  preconditions h r (entry r a act) s = (Continue, l, s1) →
  has "s" (Context.squash (flags a)) = true →
  kws_of l !! "stdout" = Some (VStream (DevNull (next_id s) "w")) ∧
  kws_of l !! "stderr" = Some (VStream (DevNull (next_id s) "w")) ∧
  kws_of l !! "stdin" = Some (VStream (DevNull (next_id s + 1) "r")) ∧
  DevNull (next_id s) "w" ∈ open_files s1 ∧
  DevNull (next_id s + 1) "r" ∈ open_files s1.
Proof.
  intros Hpre Hs.
  pose proof (preconditions_options _ _ _ _ _ Hpre) as (_ & ->).
  pose proof (preconditions_spec h r _ _ _ _ _ _ Hpre) as (_ & -> & _).
  rewrite Hs. destruct (opened_rest s) as (_ & _ & _ & ->).
  unfold final_options. rewrite Hs.
  repeat split; simplify_map_eq; try done; set_solver.
Qed.

(** ** X2 *)

(** X2: under the [p] flag without [s], the child's [stdout] is a pipe
    and its [stderr] goes to [stdout], whatever the caller passed for
    the two streams. *)
Theorem pipe_flag_binds_pipe a act s l s1 :
  preconditions h r (entry r a act) s = (Continue, l, s1) →
  has "p" (Context.squash (flags a)) = true →
  has "s" (Context.squash (flags a)) = false →
  kws_of l !! "stdout" = Some (VStream PIPE) ∧
  kws_of l !! "stderr" = Some (VStream STDOUT).
Proof.
  intros Hpre Hp Hs.
  pose proof (preconditions_options _ _ _ _ _ Hpre) as (_ & ->).
  unfold final_options. rewrite Hp, Hs. by simplify_map_eq.
Qed.

(** ** X3 *)

(** X3: without [p] and [s], the child's [stdout], [stderr] and [stdin]
    are the caller's when the caller passed them; otherwise [stdout]
    and [stderr] are those of the running program and [stdin] is not
    set. *)
Theorem caller_streams_are_kept a act s l s1 :
  preconditions h r (entry r a act) s = (Continue, l, s1) →
  has "p" (Context.squash (flags a)) = false →
  has "s" (Context.squash (flags a)) = false →
  kws_of l !! "stdout"
  = Some (default (VStream SysStdout) (popen_kws a !! "stdout")) ∧
  kws_of l !! "stderr"
  = Some (default (VStream SysStderr) (popen_kws a !! "stderr")) ∧
  kws_of l !! "stdin" = popen_kws a !! "stdin".
Proof.
  intros Hpre Hp Hs.
  pose proof (preconditions_options _ _ _ _ _ Hpre) as (_ & ->).
  unfold final_options. rewrite Hp, Hs. cbv zeta.
  repeat split; options_lookup.
Qed.

(** ** X4 *)

(** X4: the [shell] option is the caller's when passed, else true
    exactly for a command string.  When it is truthy the [executable]
    is the SHELL of the environment, also over an [executable] the
    caller passed; when it is not, the caller's [executable] is left as
    it is. *)
Theorem shell_option_default a act s l s1 :
  preconditions h r (entry r a act) s = (Continue, l, s1) →
  kws_of l !! "shell"
  = Some (default (VBool (is_str act)) (popen_kws a !! "shell")) ∧
  (shell_mode a act = true →
   ∃ sh, environ h !! "SHELL" = Some sh ∧
         kws_of l !! "executable" = Some (VStr sh)) ∧
  (shell_mode a act = false →
   kws_of l !! "executable" = popen_kws a !! "executable").
Proof.
  intros Hpre.
  pose proof (preconditions_options _ _ _ _ _ Hpre) as (_ & ->).
  pose proof (preconditions_spec h r _ _ _ _ _ _ Hpre) as (_ & _ & Hsh & _).
  split; [|split].
  - options_lookup.
  - intros Hm. destruct (Hsh Hm) as [sh Henv]. exists sh. split; [done|].
    unfold final_options, default_options. rewrite Hm, Henv. options_lookup.
  - intros Hm. unfold final_options, default_options. rewrite Hm.
    options_lookup.
Qed.

Lemma final_action_kind x act : is_str (final_action h x act) = is_str act.
Proof.
  unfold final_action, with_sudo, in_terminal.
  destruct (has "r" x), (has "t" x), act; done.
Qed.

(** ** X5 *)

(** X5: the action handed to the spawn under [args] is the given one
    with the escalation tool in front when [r] is set (and the tool's
    [-b] when [f] is set too), and that wrapped into the terminal
    command when [t] is set, so that the terminal runs the escalation
    tool.  It replaces an [args] the caller passed, and a command
    string stays a string and a token list a list. *)
Theorem action_rewriting a act s l s1 :
  preconditions h r (entry r a act) s = (Continue, l, s1) →
  let x := Context.squash (flags a) in
  let a1 := if has "r" x then with_sudo (has "f" x) act else act in
  let a2 := if has "t" x then in_terminal (get_term h) a1 else a1 in
  cmd l = a2 ∧
  kws_of l !! "args" = Some (args_value a2) ∧
  is_str a2 = is_str act.
Proof.
  intros Hpre x a1 a2.
  pose proof (preconditions_options _ _ _ _ _ Hpre) as (Hcmd & Hk).
  fold x in Hcmd, Hk. split; [exact Hcmd|]. split.
  - rewrite Hk. unfold final_options. by simplify_map_eq.
  - apply final_action_kind.
Qed.

(** ** X6 *)

(** X6: every option of the caller other than [shell], [executable],
    [stdout], [stderr], [stdin] and [args] reaches the spawn as it was
    passed, and no other option is added. *)
Theorem other_options_pass_through a act s l s1 key :
  preconditions h r (entry r a act) s = (Continue, l, s1) →
  key ∉ ["shell"; "executable"; "stdout"; "stderr"; "stdin"; "args"] →
  kws_of l !! key = popen_kws a !! key.
Proof.
  intros Hpre Hkey.
  pose proof (preconditions_options _ _ _ _ _ Hpre) as (_ & ->).
  rewrite !not_elem_of_cons in Hkey.
  destruct Hkey as (? & ? & ? & ? & ? & ? & _).
  options_lookup.
Qed.
(** ** X7 *)

(** X7: which flag wins.  The UI is toggled under [r] unless [t] is
    set too, and without [r] only when none of [t], [f], [s] and [p] is
    set.  The wait intent is false under [t], else true under [r], else
    false under [f] or [p], else the caller's.  The output is piped
    exactly under [p], and the prompt is armed exactly under [w]
    without [p] when [f] is not set and the caller's wait is truthy:
    [r] and [t] come too late to change it. *)
Theorem flag_precedence a act s l s1 :
  preconditions h r (entry r a act) s = (Continue, l, s1) →
  let x := Context.squash (flags a) in
  toggle_ui l
  = (if has "t" x then false else
     if has "r" x then true else
     negb (has "f" x || has "s" x || has "p" x)) ∧
  wait_of l
  = (if has "t" x then Some false else
     if has "r" x then Some true else
     if has "f" x || has "p" x then Some false else wait a) ∧
  pipe_output l = has "p" x ∧
  wait_for_enter l
  = (has "w" x && negb (has "p" x) && negb (has "f" x)
     && wait_truthy (wait a)).
Proof.
  intros Hpre x.
  pose proof (preconditions_spec h r _ _ _ _ _ _ Hpre)
    as (_ & _ & _ & _ & _ & Hp & Ht & Hw & He).
  fold x in Hp, Ht, Hw, He. rewrite Ht, Hw, Hp, He.
  by destruct (has "t" x), (has "r" x), (has "f" x), (has "s" x),
    (has "p" x), (has "w" x), (wait a) as [[]|].
Qed.

End Options.

(** * The spawn and the cleanup *)

Section Spawn.

Import Runner.

Variables (h : Host) (r : Runner.t).
Implicit Types (l : locals) (s : State) (fl : flow) (a : args).

(** The [else:] branch for a child: it never leaves an exception
    pending. *)
Lemma else_block_child l p s :
  ∃ s', else_block l (Some p) s = (None, s') ∧
        trace s' = (trace s ++ after_spawn l (Some p))%list ∧
        log s' = log s ∧ open_files s' = open_files s ∧
        next_id s' = next_id s ∧
        zombies s' = if wait_truthy (wait_of l) then zombies s
                     else {[pid p]} ∪ zombies s.
Proof.
  unfold else_block, after_spawn.
  destruct (wait_truthy _), (wait_for_enter l); eexists; (split; [done|]);
    cbn [record add_zombie trace log open_files next_id zombies];
    rewrite <- ?app_assoc, ?app_nil_r; done.
Qed.

Lemma else_block_none l s :
  ∃ pend s', else_block l None s = (pend, s') ∧
        trace s' = (trace s ++ after_spawn l None)%list ∧
        log s' = log s ∧ open_files s' = open_files s ∧
        zombies s' = zombies s ∧ next_id s' = next_id s.
Proof.
  unfold else_block, after_spawn.
  destruct (wait_truthy _), (wait_for_enter l); eexists _, _;
    (split; [done|]);
    cbn [record trace log open_files zombies next_id];
    rewrite <- ?app_assoc, ?app_nil_r; done.
Qed.

Lemma _log_next_id msg s : next_id (_log r msg s).2 = next_id s.
Proof. unfold _log. by destruct (logfunc r). Qed.

(** The [try:] block of a call that has a manager.  [sb] is the state
    after the 'before' notification, [sc] the one after the call of the
    spawn primitive. *)
Lemma try_block_cases l s m :
  fm r = Some m →
  let x := fl_of l in
  let kws := kws_of l in
  let sb := record (EmitBefore (context l)) s in
  let sc := record (spawn_call h x kws) sb in
  let process := spawned h x kws sb in
  ∃ pend s2,
    try_block h r l s
    = (pend, process, captured h x kws,
       match captured h x kws with
       | Some ex => (_log r (FailedToRun (cmd l) ex) s2).2
       | None => s2
       end) ∧
    trace s2 = (trace sc ++ if raised h x kws then []
                            else after_spawn l process)%list ∧
    open_files s2 = open_files s ∧
    log s2 = log s ∧
    zombies s2 = match process with
                 | Some p => if wait_truthy (wait_of l) then zombies s
                             else {[pid p]} ∪ zombies s
                 | None => zombies s
                 end ∧
    next_id s2 = match process with
                 | Some _ => next_id s + 1
                 | None => next_id s
                 end.
Proof.
  intros Hfm x kws sb sc process.
  unfold try_block, signal_emit. rewrite Hfm. fold x kws sb.
  subst process sc. unfold captured, spawn_call, spawned, raised, forks.
  destruct (has "f" x && negb (has "r" x)) eqn:Hf.
  - destruct (else_block_none l (record (CallPopenForked kws
                                           (Popen_forked h kws)) sb))
      as (pend & s' & -> & Ht & Hl & Ho & Hz & Hn).
    by exists pend, s'.
  - destruct (Popen h kws) as [ex|] eqn:Hpopen.
    + destruct (is_OSError ex); eexists _, (record _ sb);
        (split; [done|]); cbn [record trace log open_files zombies next_id];
        by rewrite ?app_nil_r.
    + destruct (else_block_child l (new_process kws sb)
                  (tick (record (CallPopen kws None) sb)))
        as (s' & -> & Ht & Hl & Ho & Hn & Hz).
      by exists None, s'.
Qed.

Lemma _activate_ui_trace value s :
  trace (_activate_ui r value s) = (trace s ++ ui_events r value)%list.
Proof.
  unfold _activate_ui, ui_events. destruct (ui r) as [u|];
    [|by rewrite app_nil_r].
  destruct value, (initialize_raises u), (suspend_raises u);
    cbn [record trace]; rewrite ?_log_trace; cbn [record trace];
    by rewrite <- ?app_assoc.
Qed.

Lemma _activate_ui_next_id value s :
  next_id (_activate_ui r value s) = next_id s.
Proof.
  unfold _activate_ui. destruct (ui r) as [u|]; [|done].
  assert (∀ m s0, next_id (_log r m s0).2 = next_id s0) as Hlog
    by (intros; unfold _log; by destruct (logfunc r)).
  destruct value, (initialize_raises u), (suspend_raises u);
    cbn [record next_id]; by rewrite ?Hlog.
Qed.

Lemma suspended_trace l s :
  trace (suspended r l s) = (trace s ++ toggle_events r l false)%list.
Proof.
  unfold suspended, toggle_events.
  destruct (toggle_ui l); [apply _activate_ui_trace | by rewrite app_nil_r].
Qed.

Lemma resumed_trace l s :
  trace (resumed r l s) = (trace s ++ toggle_events r l true)%list.
Proof.
  unfold resumed, toggle_events.
  destruct (toggle_ui l); [apply _activate_ui_trace | by rewrite app_nil_r].
Qed.

Lemma suspended_rest l s :
  zombies (suspended r l s) = zombies s ∧
  open_files (suspended r l s) = open_files s ∧
  next_id (suspended r l s) = next_id s.
Proof.
  unfold suspended. destruct (toggle_ui l); [|done].
  by rewrite _activate_ui_zombies, _activate_ui_open_files,
    _activate_ui_next_id.
Qed.

Lemma resumed_rest l s :
  zombies (resumed r l s) = zombies s ∧
  open_files (resumed r l s) = open_files s.
Proof.
  unfold resumed. destruct (toggle_ui l); [|done].
  by rewrite _activate_ui_zombies, _activate_ui_open_files.
Qed.

Lemma _log_log_inv m s msg :
  msg ∈ log (_log r m s).2 → msg ∈ log s ∨ msg = m.
Proof.
  rewrite _log_log. intros H. apply elem_of_app in H as [H|H]; [by left|].
  destruct (logfunc r); [|by apply elem_of_nil in H].
  apply list_elem_of_singleton in H. by right.
Qed.

Lemma _log_log_here m s lf :
  logfunc r = Some lf → m ∈ log (_log r m s).2.
Proof.
  intros Hlf. rewrite _log_log, Hlf. apply elem_of_app. right.
  by apply list_elem_of_singleton.
Qed.

Lemma _activate_ui_log_inv value s msg :
  msg ∈ log (_activate_ui r value s) →
  msg ∈ log s ∨ msg = Text "Failed to suspend UI" ∨
  msg = Text "Failed to initialize UI".
Proof.
  unfold _activate_ui. destruct (ui r) as [u|]; [|by left].
  destruct value, (initialize_raises u), (suspend_raises u);
    cbn [record log]; try (by left);
    intros H; apply _log_log_inv in H as [H|H]; tauto.
Qed.

(** A call that passes its preconditions and has a manager: what it
    returns or hands over to the chained call, and the state [s4] in
    which it does so. *)
Lemma call_passes a act s l s1 m :
  action a = Some act → fm r = Some m →
  preconditions h r (entry r a act) s = (Continue, l, s1) →
  let x := Context.squash (flags a) in
  let kws := kws_of l in
  let sb := record (EmitBefore (context l)) (suspended r l s1) in
  let process := spawned h x kws sb in
  ∃ s4,
    __call__ h r a s
    = match (if has "p" x then process else None) with
      | Some p => call 1 h r (pager_args p) s4
      | None => (Returns (of_process process), s4)
      end ∧
    call 1 h r a s
    = match (if has "p" x then process else None) with
      | Some p => (Unfinished, s4)
      | None => (Returns (of_process process), s4)
      end ∧
    trace s4 = (trace s1 ++ invocation_events h r l sb)%list ∧
    open_files s4 = open_files s1 ∧
    zombies s4 = match process with
                 | Some p => if wait_truthy (wait_of l) then zombies s1
                             else {[pid p]} ∪ zombies s1
                 | None => zombies s1
                 end ∧
    (∀ msg, msg ∈ log s4 →
       msg ∈ log s1 ∨ msg = Text "Failed to suspend UI" ∨
       msg = Text "Failed to initialize UI" ∨
       ∃ ex, captured h x kws = Some ex ∧ msg = FailedToRun (cmd l) ex) ∧
    (∀ ex, captured h x kws = Some ex → is_Some (logfunc r) →
           FailedToRun (cmd l) ex ∈ log s4) ∧
    next_id s4 = match process with
                 | Some _ => next_id s1 + 1
                 | None => next_id s1
                 end.
Proof.
  intros Ha Hfm Hpre x kws sb process.
  pose proof (preconditions_spec h r _ _ _ _ _ _ Hpre)
    as (Hfl & _ & _ & _ & _ & Hpipe & _).
  fold x in Hfl, Hpipe.
  destruct (try_block_cases l (suspended r l s1) m Hfm)
    as (pend & s2 & Htry & Ht2 & Ho2 & Hl2 & Hz2 & Hn2).
  cbv zeta in Htry, Ht2, Hz2, Hn2. rewrite Hfl in Htry, Ht2, Hz2, Hn2.
  fold kws sb process in Htry, Ht2, Hz2, Hn2.
  set (s3 := match captured h x kws with
             | Some ex => (_log r (FailedToRun (cmd l) ex) s2).2
             | None => s2
             end) in *.
  set (s4 := resumed r l (record (EmitAfter (context l) (captured h x kws))
                            s3)).
  assert (Hbody : ∀ self,
    body self h r a s
    = match (if has "p" x then process else None) with
      | Some p => self (pager_args p) s4
      | None => (Returns (of_process process), s4)
      end).
  { intros self. rewrite (body_continue h r _ _ _ _ _ _ Ha Hpre).
    unfold run. change (if toggle_ui l then _activate_ui r false s1 else s1)
      with (suspended r l s1).
    rewrite Htry. cbn [fst snd]. unfold finally_block, signal_emit.
    rewrite Hfm, Hpipe. fold s4.
    by destruct (has "p" x), process. }
  exists s4. split; [|split]; [apply (Hbody (call 1 h r)) | |].
  { change (call 1 h r a s) with (body (call 0 h r) h r a s).
    rewrite Hbody. by destruct (if has "p" x then process else None). }
  assert (Ht3 : trace s3 = trace s2)
    by (unfold s3; destruct (captured h x kws); by rewrite ?_log_trace).
  assert (Ho3 : open_files s3 = open_files s2)
    by (unfold s3; destruct (captured h x kws); by rewrite ?_log_open_files).
  assert (Hz3 : zombies s3 = zombies s2)
    by (unfold s3; destruct (captured h x kws); by rewrite ?_log_zombies).
  destruct (suspended_rest l s1) as (Hzs & Hos & Hns).
  split; [|split; [|split; [|split; [|split]]]].
  - assert (trace (record (spawn_call h x kws) sb)
            = (trace s1 ++ toggle_events r l false
               ++ [EmitBefore (context l); spawn_call h x kws])%list) as Hsc.
    { unfold sb. cbn [record trace]. rewrite suspended_trace.
      by rewrite <- !app_assoc. }
    unfold s4. rewrite resumed_trace. cbn [record trace].
    rewrite Ht3, Ht2, Hsc.
    unfold invocation_events. rewrite Hfl. fold kws process.
    by rewrite <- !app_assoc.
  - unfold s4. rewrite (proj2 (resumed_rest l _)). cbn [record open_files].
    by rewrite Ho3, Ho2, Hos.
  - unfold s4. rewrite (proj1 (resumed_rest l _)). cbn [record zombies].
    by rewrite Hz3, Hz2, Hzs.
  - intros msg Hmsg.
    assert (∀ b s0, msg ∈ log (if toggle_ui l then _activate_ui r b s0 else s0)
            → msg ∈ log s0 ∨ msg = Text "Failed to suspend UI" ∨
              msg = Text "Failed to initialize UI") as Hui.
    { intros b s0. destruct (toggle_ui l); [|by left].
      apply _activate_ui_log_inv. }
    apply Hui in Hmsg as [Hmsg|Hmsg]; [|tauto]. cbn [record log] in Hmsg.
    assert (msg ∈ log s2 ∨
            ∃ ex, captured h x kws = Some ex ∧ msg = FailedToRun (cmd l) ex)
      as [Hin|Hex].
    { unfold s3 in Hmsg. destruct (captured h x kws) as [ex|]; [|by left].
      apply _log_log_inv in Hmsg as [?|Hmsg]; [by left|].
      right. by exists ex. }
    + rewrite Hl2 in Hin. apply Hui in Hin. tauto.
    + tauto.
  - intros ex Hex [lf Hlf]. unfold s4, resumed.
    assert (FailedToRun (cmd l) ex
            ∈ log (record (EmitAfter (context l) (captured h x kws)) s3))
      as Hin.
    { cbn [record log]. unfold s3. rewrite Hex.
      by eapply _log_log_here. }
    destruct (toggle_ui l); [by apply _activate_ui_log | done].
  - assert (next_id s3 = next_id s2) as Hn3
      by (unfold s3; destruct (captured h x kws); by rewrite ?_log_next_id).
    unfold s4, resumed.
    assert (next_id (record (EmitAfter (context l) (captured h x kws)) s3)
            = match process with
              | Some _ => next_id s1 + 1
              | None => next_id s1
              end) as Hn.
    { cbn [record next_id]. by rewrite Hn3, Hn2, Hns. }
    destruct (toggle_ui l); by rewrite ?_activate_ui_next_id.
Qed.

(** A call is the invocation itself, followed by the chained call when
    there is one. *)
Lemma call_split a s :
  __call__ h r a s = call 1 h r a s ∨
  ∃ p, (call 1 h r a s).1 = Unfinished ∧
       __call__ h r a s = call 1 h r (pager_args p) (call 1 h r a s).2.
Proof.
  unfold __call__.
  change (call 2 h r a s) with (body (call 1 h r) h r a s).
  change (call 1 h r a s) with (body (call 0 h r) h r a s).
  unfold body, finally_block.
  repeat case_match; simplify_eq; try (by left).
  all: right; eexists; split; reflexivity.
Qed.

Lemma own_trace a s :
  ∃ evs, trace (call 1 h r a s).2 = (trace s ++ evs)%list.
Proof.
  change (call 1 h r a s) with (body (call 0 h r) h r a s).
  destruct (action a) as [act|] eqn:Ha.
  2:{ unfold body. rewrite Ha. rewrite (surjective_pairing (_log _ _ s)).
      exists []. cbn [snd]. by rewrite _log_trace, app_nil_r. }
  destruct (preconditions h r (entry r a act) s) as [[fl l] s1] eqn:Hpre.
  assert (∃ evs, trace s1 = (trace s ++ evs)%list) as [evs1 Hs1].
  { pose proof (preconditions_spec h r _ _ _ _ _ _ Hpre) as H.
    cbv zeta in H.
    assert (∃ evs, trace (if has "s" (Context.squash (flags a))
                          then opened s else s) = (trace s ++ evs)%list)
      as [evs Hevs].
    { destruct (has "s" _); [|exists []; by rewrite app_nil_r].
      destruct (opened_rest s) as (_ & _ & -> & _). by eexists. }
    destruct fl.
    - destruct H as (_ & -> & _). by eexists.
    - destruct H as (_ & _ & _ & [(_ & _ & _ & ->)|(_ & _ & _ & ->)]);
        rewrite _log_trace; by eexists.
    - destruct H as (_ & _ & _ & ->). exists []. by rewrite app_nil_r. }
  destruct fl.
  - destruct (fm r) as [m|] eqn:Hfm.
    + destruct (call_passes a act s l s1 m Ha Hfm Hpre)
        as (s4 & _ & Hown & Ht & _).
      change (call 1 h r a s) with (body (call 0 h r) h r a s) in Hown.
      rewrite Hown.
      exists (evs1 ++ invocation_events h r l
                (record (EmitBefore (context l)) (suspended r l s1)))%list.
      destruct (if has "p" _ then _ else None); cbn [snd];
        by rewrite Ht, Hs1, <- app_assoc.
    + rewrite (body_continue h r _ _ _ _ _ _ Ha Hpre).
      unfold run, try_block, finally_block, signal_emit. rewrite Hfm.
      cbn [fst snd].
      destruct (toggle_ui l); [rewrite _activate_ui_trace, Hs1|rewrite Hs1];
        rewrite <- ?app_assoc; by eexists.
  - rewrite (body_stop h r _ _ _ _ _ _ _ Ha Hpre). by eexists.
  - unfold body. rewrite Ha, Hpre. by eexists.
Qed.

(** The trace of a call starts with the trace before it, followed by
    the events of the invocation itself. *)
Lemma call_trace a s :
  ∃ post, trace (__call__ h r a s).2
          = (trace (call 1 h r a s).2 ++ post)%list.
Proof.
  destruct (call_split a s) as [->|(p & _ & ->)].
  - exists []. by rewrite app_nil_r.
  - apply own_trace.
Qed.

(** ** X8 *)

(** X8: an invocation that passes its preconditions and has a manager
    goes through these steps in this order: it suspends the UI when it
    toggles it, sends the 'before' notification, calls the spawn
    primitive the flags choose with the final options (the detached
    one for [f] without [r], else [subprocess.Popen]), waits or
    prompts, sends the 'after' notification with the OSError of the
    spawn if there was one, and initialises the UI again when it
    toggled it; the 'after' notification is sent also when the spawn
    raised.  What follows in the trace is the chained pager call. *)
Theorem notifications_bracket_the_spawn a act s l s1 m :
  action a = Some act → fm r = Some m →
  preconditions h r (entry r a act) s = (Continue, l, s1) →
  let x := Context.squash (flags a) in
  let kws := kws_of l in
  let sb := record (EmitBefore (context l)) (suspended r l s1) in
  ∃ post,
    trace (__call__ h r a s).2
    = (trace s1
       ++ toggle_events r l false
       ++ [EmitBefore (context l); spawn_call h x kws]
       ++ (if raised h x kws then [] else after_spawn l (spawned h x kws sb))
       ++ [EmitAfter (context l) (captured h x kws)]
       ++ toggle_events r l true
       ++ post)%list ∧
    (has "p" x = false ∨ spawned h x kws sb = None → post = []).
Proof.
  intros Ha Hfm Hpre x kws sb.
  pose proof (preconditions_spec h r _ _ _ _ _ _ Hpre) as (Hfl & _).
  destruct (call_passes a act s l s1 m Ha Hfm Hpre)
    as (s4 & Hcall & _ & Ht & _).
  fold x kws sb in Hcall, Ht. unfold invocation_events in Ht.
  rewrite Hfl in Ht. fold x kws in Ht.
  destruct (if has "p" x then spawned h x kws sb else None) as [p|] eqn:Hp.
  - destruct (own_trace (pager_args p) s4) as [post Hpost].
    exists post. rewrite Hcall, Hpost, Ht. split.
    + by rewrite <- ?app_assoc.
    + intros [Hx|Hx]; rewrite Hx in Hp; [done|]. by destruct (has "p" x).
  - exists []. rewrite Hcall. cbn [snd]. rewrite Ht. split; [|done].
    by rewrite app_nil_r.
Qed.

Lemma mid_zombies a s :
  zombies (if has "s" (Context.squash (flags a)) then opened s else s)
  = zombies s.
Proof. apply mid_rest. Qed.

Lemma no_wait_invocation l sb :
  wait_truthy (wait_of l) = false →
  Forall no_wait_event (invocation_events h r l sb).
Proof.
  intros Hw. unfold invocation_events, toggle_events, ui_events, after_spawn,
    spawn_call.
  rewrite Hw. rewrite !Forall_app.
  repeat split; repeat case_match; repeat constructor.
Qed.

(** ** X9 *)

(** X9: when the spawn of a call without [p] produces a child, the call
    returns that child's process object, and the child is either waited
    for or kept: with a truthy wait intent [process.wait()] is called
    and the zombie set stays as it was; otherwise the child joins the
    zombie set and nothing is waited for. *)
Theorem child_is_waited_for_or_kept a act s l s1 m :
  action a = Some act → fm r = Some m →
  preconditions h r (entry r a act) s = (Continue, l, s1) →
  let x := Context.squash (flags a) in
  has "p" x = false → forks x = false → Popen h (kws_of l) = None →
  ∃ p s' evs,
    __call__ h r a s = (Returns (RProcess p), s') ∧
    pid p = next_id s1 ∧
    trace s' = (trace s1 ++ evs)%list ∧
    if wait_truthy (wait_of l)
    then zombies s' = zombies s ∧ ProcessWait (pid p) ∈ evs
    else zombies s' = {[pid p]} ∪ zombies s ∧ Forall no_wait_event evs.
Proof.
  intros Ha Hfm Hpre x Hp Hf Hpopen.
  pose proof (preconditions_spec h r _ _ _ _ _ _ Hpre) as (Hfl & Hs1 & _).
  destruct (call_passes a act s l s1 m Ha Hfm Hpre)
    as (s4 & Hcall & _ & Ht & _ & Hz & _).
  fold x in Hcall, Hz. rewrite Hp in Hcall. unfold spawned in Hcall, Hz.
  rewrite Hf, Hpopen in Hcall, Hz.
  eexists _, s4, _. split; [exact Hcall|]. split.
  { cbn [new_process pid record next_id].
    apply (suspended_rest l s1). }
  split; [exact Ht|].
  assert (zombies s1 = zombies s) as Hzs by (rewrite Hs1; apply mid_zombies).
  destruct (wait_truthy (wait_of l)) eqn:Hw; rewrite Hz, Hzs.
  - split; [done|]. unfold invocation_events, spawned, raised, after_spawn.
    rewrite Hfl. fold x. rewrite Hf, Hpopen, Hw.
    rewrite !elem_of_app. right. right. left. left. by left.
  - split; [done|]. by apply no_wait_invocation.
Qed.

(** ** X10 *)


(** ** X11 *)

(** X11: an exception of [subprocess.Popen] that is not an OSError is
    dropped by the [return] of the [finally] block: the call returns
    None, the 'after' notification carries no error, the zombie set
    stays as it was, and nothing about the failure reaches the log. *)
Theorem other_spawn_exception_is_dropped a act s l s1 m ex :
  action a = Some act → fm r = Some m →
  preconditions h r (entry r a act) s = (Continue, l, s1) →
  let x := Context.squash (flags a) in
  forks x = false → Popen h (kws_of l) = Some ex → is_OSError ex = false →
  ∃ s' evs,
    __call__ h r a s = (Returns RNone, s') ∧
    trace s' = (trace s1 ++ evs)%list ∧
    CallPopen (kws_of l) (Some ex) ∈ evs ∧
    EmitAfter (context l) None ∈ evs ∧
    zombies s' = zombies s ∧
    ∀ msg, msg ∈ log s' →
           msg ∈ log s ∨ msg = Text "Failed to suspend UI" ∨
           msg = Text "Failed to initialize UI".
Proof.
  intros Ha Hfm Hpre x Hf Hpopen Hos.
  pose proof (preconditions_spec h r _ _ _ _ _ _ Hpre) as (Hfl & Hs1 & _).
  destruct (call_passes a act s l s1 m Ha Hfm Hpre)
    as (s4 & Hcall & _ & Ht & _ & Hz & Hlog & _).
  fold x in Hcall, Hz, Hlog. unfold spawned in Hcall, Hz.
  rewrite Hf, Hpopen in Hcall, Hz.
  assert (captured h x (kws_of l) = None) as Hcap
    by (unfold captured; by rewrite Hf, Hpopen, Hos).
  exists s4. eexists. split.
  { rewrite Hcall. by destruct (has "p" x). }
  split; [exact Ht|].
  unfold invocation_events, spawn_call. rewrite Hfl. fold x.
  rewrite Hcap, Hf, Hpopen.
  split; [|split; [|split]].
  - rewrite !elem_of_app. right. left. right. by left.
  - rewrite !elem_of_app. do 3 right. left. by left.
  - rewrite Hz, Hs1. apply mid_zombies.
  - intros msg Hmsg. apply Hlog in Hmsg as [Hmsg|[?|[?|(? & ? & _)]]];
      [|tauto|tauto|congruence].
    left. rewrite Hs1 in Hmsg. by rewrite (proj2 (mid_rest _ s)) in Hmsg.
Qed.

(** ** X12 *)

(** X12: when [subprocess.Popen] raises an OSError, the message handed
    to the log function names the action as the [r] and [t] clauses
    rewrote it, together with the error, and the 'after' notification
    carries that error. *)
Theorem spawn_failure_is_reported a act s l s1 m n :
  action a = Some act → fm r = Some m →
  preconditions h r (entry r a act) s = (Continue, l, s1) →
  let x := Context.squash (flags a) in
  forks x = false → Popen h (kws_of l) = Some (OSError n) →
  EmitAfter (context l) (Some (OSError n)) ∈ trace (__call__ h r a s).2 ∧
  (is_Some (logfunc r) →
   FailedToRun (final_action h x act) (OSError n)
     ∈ log (__call__ h r a s).2).
Proof.
  intros Ha Hfm Hpre x Hf Hpopen.
  pose proof (preconditions_spec h r _ _ _ _ _ _ Hpre) as (Hfl & _).
  pose proof (preconditions_options h r _ _ _ _ _ Hpre) as (Hcmd & _).
  destruct (call_passes a act s l s1 m Ha Hfm Hpre)
    as (s4 & Hcall & _ & Ht & _ & _ & _ & Hlog).
  fold x in Hcall, Hlog, Hcmd. unfold spawned in Hcall.
  rewrite Hf, Hpopen in Hcall.
  assert (captured h x (kws_of l) = Some (OSError n)) as Hcap
    by (unfold captured; by rewrite Hf, Hpopen).
  assert (__call__ h r a s = (Returns RNone, s4)) as ->
    by (rewrite Hcall; by destruct (has "p" x)).
  cbn [snd]. split.
  - rewrite Ht. unfold invocation_events. rewrite Hfl. fold x. rewrite Hcap.
    rewrite !elem_of_app. right. do 3 right. left. by left.
  - intros Hlf. rewrite <- Hcmd. by apply Hlog.
Qed.

Lemma ui_balance_app evs1 evs2 :
  ui_balance (evs1 ++ evs2) = (ui_balance evs1 + ui_balance evs2)%Z.
Proof.
  induction evs1 as [|e evs1 IH]; cbn; [done|].
  fold (ui_balance (evs1 ++ evs2)). fold (ui_balance evs1). lia.
Qed.

Lemma ui_balance_toggle l :
  (ui_balance (toggle_events r l false)
   + ui_balance (toggle_events r l true) = 0)%Z.
Proof.
  unfold toggle_events, ui_events.
  destruct (toggle_ui l), (ui r) as [u|]; try done.
  by destruct (initialize_raises u), (suspend_raises u).
Qed.

Lemma ui_balance_invocation l sb :
  ui_balance (invocation_events h r l sb) = 0%Z.
Proof.
  unfold invocation_events. rewrite !ui_balance_app.
  pose proof (ui_balance_toggle l).
  assert (ui_balance (if raised h (fl_of l) (kws_of l) then []
                      else after_spawn l
                             (spawned h (fl_of l) (kws_of l) sb)) = 0%Z)
    as ->.
  { unfold after_spawn. by repeat case_match. }
  assert (ui_balance [EmitBefore (context l);
                      spawn_call h (fl_of l) (kws_of l)] = 0%Z) as ->.
  { unfold spawn_call. by destruct (forks _). }
  cbn [ui_balance foldr ui_weight]. lia.
Qed.

(** The UI calls of one invocation of a Runner with a manager are
    paired. *)
Lemma own_ui_balance a s m :
  fm r = Some m →
  ∃ evs, trace (call 1 h r a s).2 = (trace s ++ evs)%list ∧
         ui_balance evs = 0%Z.
Proof.
  intros Hfm.
  change (call 1 h r a s) with (body (call 0 h r) h r a s).
  destruct (action a) as [act|] eqn:Ha.
  2:{ unfold body. rewrite Ha. rewrite (surjective_pairing (_log _ _ s)).
      exists []. cbn [snd]. by rewrite _log_trace, app_nil_r. }
  destruct (preconditions h r (entry r a act) s) as [[fl l] s1] eqn:Hpre.
  pose proof (preconditions_spec h r _ _ _ _ _ _ Hpre) as H. cbv zeta in H.
  assert (∃ evs, trace (if has "s" (Context.squash (flags a))
                        then opened s else s) = (trace s ++ evs)%list
                 ∧ ui_balance evs = 0%Z)
    as (evs0 & Hevs0 & Hb0).
  { destruct (has "s" _); [|exists []; by rewrite app_nil_r].
    destruct (opened_rest s) as (_ & _ & -> & _). by eexists. }
  destruct fl.
  - destruct H as (_ & -> & _).
    destruct (call_passes a act s l _ m Ha Hfm Hpre)
      as (s4 & _ & Hown & Ht & _).
    change (call 1 h r a s) with (body (call 0 h r) h r a s) in Hown.
    rewrite Hown. eexists. split.
    + destruct (if has "p" _ then _ else None); cbn [snd];
        by rewrite Ht, Hevs0, <- app_assoc.
    + rewrite ui_balance_app, Hb0, ui_balance_invocation. done.
  - rewrite (body_stop h r _ _ _ _ _ _ _ Ha Hpre). cbn [snd].
    destruct H as (_ & _ & _ & [(_ & _ & _ & ->)|(_ & _ & _ & ->)]);
      rewrite _log_trace; by eexists.
  - unfold body. rewrite Ha, Hpre. cbn [snd].
    destruct H as (_ & _ & _ & ->). exists []. by rewrite app_nil_r.
Qed.

(** ** X13 *)

(** X13: over a call of a Runner that has a manager the UI is
    initialised again as often as it is suspended, the chained pager
    call included, however the spawn goes and whether or not the UI
    calls themselves raise. *)
Theorem ui_calls_are_paired a s m :
  fm r = Some m →
  ∃ evs, trace (__call__ h r a s).2 = (trace s ++ evs)%list ∧
         ui_balance evs = 0%Z.
Proof.
  intros Hfm. destruct (own_ui_balance a s m Hfm) as (evs & Ht & Hb).
  destruct (call_split a s) as [->|(p & _ & ->)]; [by exists evs|].
  destruct (own_ui_balance (pager_args p) (call 1 h r a s).2 m Hfm)
    as (evs' & Ht' & Hb').
  exists (evs ++ evs')%list. rewrite Ht', Ht, <- app_assoc.
  split; [done|]. rewrite ui_balance_app. lia.
Qed.

(** ** X14 *)

(** X14: on a Runner without a manager, a call that passes its
    preconditions raises AttributeError from the first notification
    and again from the one in the [finally] block: nothing is spawned,
    and a UI that was suspended is not initialised again. *)
Theorem call_without_manager a act s l s1 :
  action a = Some act → fm r = None →
  preconditions h r (entry r a act) s = (Continue, l, s1) →
  __call__ h r a s
  = (Raises (AttributeError "signal_emit"), suspended r l s1) ∧
  trace (suspended r l s1) = (trace s1 ++ toggle_events r l false)%list.
Proof.
  intros Ha Hfm Hpre. split; [|apply suspended_trace].
  unfold __call__.
  change (call 2 h r a s) with (body (call 1 h r) h r a s).
  rewrite (body_continue h r _ _ _ _ _ _ Ha Hpre).
  unfold run, try_block, finally_block, signal_emit. by rewrite Hfm.
Qed.

(** ** X15 *)

(** X15: the pager of a chained call reads the output of the piped
    child: its [stdin] is the child's [stdout] stream.  Under [s] the
    child's [stdout] goes to the null device instead of the pipe, the
    process object has no [stdout], and the pager is started with
    [stdin=None]. *)
Theorem pager_reads_the_child a act s l s1 m :
  action a = Some act → fm r = Some m →
  preconditions h r (entry r a act) s = (Continue, l, s1) →
  let x := Context.squash (flags a) in
  has "p" x = true → forks x = false → Popen h (kws_of l) = None →
  ∃ p s4,
    __call__ h r a s = __call__ h r (pager_args p) s4 ∧
    pid p = next_id s1 ∧
    popen_kws (pager_args p) !! "stdin"
    = Some (if has "s" x then VNone else VStream (ChildStdout (pid p))).
Proof.
  intros Ha Hfm Hpre x Hp Hf Hpopen.
  pose proof (preconditions_options h r _ _ _ _ _ Hpre) as (_ & Hk).
  destruct (call_passes a act s l s1 m Ha Hfm Hpre)
    as (s4 & Hcall & _).
  fold x in Hcall, Hk. rewrite Hp in Hcall. unfold spawned in Hcall.
  rewrite Hf, Hpopen in Hcall.
  eexists _, s4. split; [|split].
  - rewrite Hcall. unfold __call__.
    change (call 2 h r (pager_args ?p) s4)
      with (body (call 1 h r) h r (pager_args p) s4).
    apply body_pager.
  - cbn [new_process pid record next_id]. apply (suspended_rest l s1).
  - unfold pager_args. cbn [popen_kws]. rewrite lookup_singleton_eq.
    f_equal. cbn [new_process stdout pid record next_id].
    rewrite Hk. unfold final_options. rewrite Hp.
    destruct (has "s" x); by simplify_map_eq.
Qed.

Lemma squash_twice x : Context.squash (Context.squash x) = Context.squash x.
Proof.
  unfold Context.squash at 1. apply squash_loop_id.
  intros f. apply squash_above_90.
Qed.

(** ** X16 *)

(** X16: a call sees its flags through the squashing only: two flag
    strings with the same squashed form give the same call, in result
    and in effects.  So [rfF] behaves as [r], and flags may be passed
    squashed or not. *)
Theorem flags_count_squashed a y s :
  Context.squash (flags a) = Context.squash y →
  __call__ h r a s = __call__ h r (with_flags y a) s.
Proof.
  intros Hy. unfold __call__.
  change (call 2 h r ?b s) with (body (call 1 h r) h r b s).
  unfold body. cbn [action with_flags].
  destruct (action a) as [act|]; [|done].
  assert (preconditions h r (entry r a act) s
          = preconditions h r (entry r (with_flags y a) act) s) as ->; [|done].
  assert (squash (entry r a act) s
          = squash (entry r (with_flags y a) act) s) as Hsq.
  { unfold squash, pure, entry, new_context, set_context,
      Context.squash_flags, Context.set_flags.
    cbn [cmd context toggle_ui pipe_output wait_for_enter with_flags
         action app files mode flags wait popen_kws
         Context.action Context.app Context.mode Context.flags Context.files
         Context.file Context.fm Context.wait Context.popen_kws].
    by rewrite Hy. }
  unfold preconditions. unfold seq at 1. rewrite Hsq. done.
Qed.

Lemma pager_not_false p s :
  (call 1 h r (pager_args p) s).1 ≠ Returns RFalse.
Proof.
  change (call 1 h r (pager_args p) s)
    with (body (call 0 h r) h r (pager_args p) s).
  unfold body. cbn [action pager_args].
  destruct (preconditions _ _ _ _) as [[[|v|e] l] s1] eqn:Hpre;
    pose proof (preconditions_spec h r _ _ _ _ _ _ Hpre) as H; cbv zeta in H.
  - destruct (run h r l s1) as [[[pend process] error] s2].
    unfold finally_block. destruct (signal_emit _ _ _) as [[e|] s3]; [done|].
    destruct (pipe_output l), process; done.
  - by destruct H as (_ & _ & _ & [(? & _)|(? & _)]).
  - done.
Qed.

Lemma own_false a s s' :
  call 1 h r a s = (Returns RFalse, s') →
  zombies s' = zombies s ∧ grows open_event s s' ∧
  ∃ msg, log s' = (log s ++ match logfunc r with
                            | Some _ => [msg] | None => []
                            end)%list.
Proof.
  change (call 1 h r a s) with (body (call 0 h r) h r a s).
  unfold body. destruct (action a) as [act|].
  2:{ rewrite (surjective_pairing (_log _ _ s)). intros H. simplify_eq.
      rewrite _log_zombies. split; [done|]. split.
      - apply grows_log, grows_refl.
      - eexists. apply _log_log. }
  destruct (preconditions _ _ _ _) as [[[|v|e] l] s1] eqn:Hpre;
    pose proof (preconditions_spec h r _ _ _ _ _ _ Hpre) as H; cbv zeta in H.
  - destruct (run h r l s1) as [[[pend process] error] s2].
    unfold finally_block. destruct (signal_emit _ _ _) as [[e|] s3]; [done|].
    destruct (pipe_output l), process; done.
  - intros Heq. simplify_eq.
    assert (grows open_event s (if has "s" (Context.squash (flags a))
                                then opened s else s)) as Hmid.
    { destruct (has "s" _); [apply grows_opened; [done|]|];
        apply grows_refl. }
    destruct H as (_ & _ & _ & [(_ & _ & _ & ->)|(_ & _ & _ & ->)]);
      rewrite _log_zombies, mid_zombies;
      (split; [done|]); (split; [by apply grows_log|]);
      eexists; rewrite _log_log;
      by rewrite (proj2 (mid_rest (has "s" (Context.squash (flags a))) s)).
  - done.
Qed.

(** ** X17 *)

(** X17: whenever a call returns False, nothing was run: no
    notification was sent, no spawn primitive called, the UI not
    touched and the zombie set not changed; the call only handed one
    message to the log function, after opening the null device when
    the flags contain [s]. *)
Theorem false_means_nothing_ran a s s' :
  __call__ h r a s = (Returns RFalse, s') →
  zombies s' = zombies s ∧ grows open_event s s' ∧
  ∃ msg, log s' = (log s ++ match logfunc r with
                            | Some _ => [msg] | None => []
                            end)%list.
Proof.
  intros Hcall. destruct (call_split a s) as [Heq|(p & _ & Heq)].
  - rewrite Heq in Hcall. by apply (own_false a).
  - rewrite Heq in Hcall. destruct (pager_not_false p (call 1 h r a s).2).
    by rewrite Hcall.
Qed.

(** ** X19 *)

(** X19: a call in shell mode on a host without SHELL raises the
    KeyError in front of everything else: the state is the one the call
    was entered with, so no null device was opened, nothing logged, the
    UI not suspended and no notification sent. *)
Theorem missing_shell_variable_raises_first a act s :
  action a = Some act → shell_mode a act = true →
  environ h !! "SHELL" = None →
  __call__ h r a s = (Raises (KeyError "SHELL"), s).
Proof.
  intros Ha Hsh Henv. unfold __call__.
  change (call 2 h r a s) with (body (call 1 h r) h r a s).
  unfold body. rewrite Ha.
  destruct (preconditions _ _ _ _) as [[[|v|e] l] s1] eqn:Hpre;
    pose proof (preconditions_spec h r _ _ _ _ _ _ Hpre) as H; cbv zeta in H.
  - destruct H as (_ & _ & Hs & _). destruct (Hs Hsh) as [? ?]. congruence.
  - destruct H as (_ & _ & Hs & _). destruct (Hs Hsh) as [? ?]. congruence.
  - by destruct H as (-> & _ & _ & ->).
Qed.

(** ** The zombie set *)

Lemma mid_next_id (b : bool) s :
  next_id s ≤ next_id (if b then opened s else s).
Proof. destruct b; [|done]. unfold opened, io_open. cbn. lia. Qed.

Lemma own_children a s :
  next_id s ≤ next_id (call 1 h r a s).2 ∧
  (zombies (call 1 h r a s).2 = zombies s ∨
   ∃ act l s1,
     action a = Some act ∧
     preconditions h r (entry r a act) s = (Continue, l, s1) ∧
     wait_truthy (wait_of l) = false ∧
     zombies (call 1 h r a s).2 = {[next_id s1]} ∪ zombies s ∧
     next_id s ≤ next_id s1 < next_id (call 1 h r a s).2).
Proof.
  change (call 1 h r a s) with (body (call 0 h r) h r a s).
  destruct (action a) as [act|] eqn:Ha.
  2:{ unfold body. rewrite Ha. rewrite (surjective_pairing (_log _ _ s)).
      cbn [snd]. rewrite _log_next_id, _log_zombies. split; [done | by left]. }
  destruct (preconditions h r (entry r a act) s) as [[fl l] s1] eqn:Hpre.
  pose proof (preconditions_spec h r _ _ _ _ _ _ Hpre) as H. cbv zeta in H.
  pose proof (mid_next_id (has "s" (Context.squash (flags a))) s) as Hmid.
  pose proof (mid_zombies a s) as Hzmid.
  destruct fl.
  - destruct H as (_ & Hs1 & _).
    destruct (fm r) as [m|] eqn:Hfm.
    + destruct (call_passes a act s l s1 m Ha Hfm Hpre)
        as (s4 & _ & Hown & _ & _ & Hz & _ & _ & Hn).
      change (call 1 h r a s) with (body (call 0 h r) h r a s) in Hown.
      assert ((body (call 0 h r) h r a s).2 = s4) as ->.
      { rewrite Hown. by destruct (if has "p" _ then _ else None). }
      destruct (spawned h _ _ _) as [p|] eqn:Hp.
      * assert (pid p = next_id s1) as Hpid.
        { unfold spawned in Hp. destruct (forks _); [done|].
          destruct (Popen h _); [done|]. injection Hp as <-.
          cbn [new_process pid record next_id]. apply suspended_rest. }
        rewrite Hpid in Hz. split; [subst s1; lia|].
        destruct (wait_truthy (wait_of l)) eqn:Hw.
        -- left. by rewrite Hz, Hs1.
        -- right. exists act, l, s1. split_and!; try done.
           ++ by rewrite Hz, Hs1, Hzmid.
           ++ subst s1; lia.
           ++ lia.
      * split; [subst s1; lia|]. left. by rewrite Hz, Hs1.
    + rewrite (body_continue h r _ _ _ _ _ _ Ha Hpre).
      unfold run, try_block, finally_block, signal_emit. rewrite Hfm.
      cbn [fst snd]. fold (suspended r l s1).
      destruct (suspended_rest l s1) as (-> & _ & ->).
      split; [by subst s1 | left; by subst s1].
  - rewrite (body_stop h r _ _ _ _ _ _ _ Ha Hpre). cbn [snd].
    destruct H as (_ & _ & _ & [(_ & _ & _ & ->)|(_ & _ & _ & ->)]);
      rewrite _log_next_id, _log_zombies; (split; [done | by left]).
  - unfold body. rewrite Ha, Hpre. cbn [snd].
    destruct H as (_ & _ & _ & ->). split; [done | by left].
Qed.

Lemma pager_children p s :
  next_id s ≤ next_id (call 1 h r (pager_args p) s).2 ∧
  zombies (call 1 h r (pager_args p) s).2 = zombies s.
Proof.
  destruct (own_children (pager_args p) s)
    as [Hn [Hz|(act & l & s1 & _ & Hpre & Hw & _)]]; [done|].
  pose proof (preconditions_spec h r _ _ _ _ _ _ Hpre)
    as (_ & _ & _ & _ & _ & _ & _ & Hwp & _).
  cbn in Hwp.
  change (has "t" []) with false in Hwp. change (has "r" []) with false in Hwp.
  change (has "f" []) with false in Hwp. change (has "p" []) with false in Hwp.
  by rewrite Hwp in Hw.
Qed.

(** ** X20 *)

(** X20: no call takes a child out of the zombie set, and a call adds
    at most one: the children that were in the set stay, and what is
    new is one child the call spawned itself and did not wait for. *)
Theorem zombies_are_never_reaped a s :
  let s' := (__call__ h r a s).2 in
  zombies s ⊆ zombies s' ∧
  ∃ added : list N,
    zombies s' = list_to_set added ∪ zombies s ∧
    (length added ≤ 1)%nat ∧
    ∀ p, p ∈ added → next_id s ≤ p < next_id s'.
Proof.
  cbv zeta.
  assert (∃ s', (__call__ h r a s).2 = s' ∧
                zombies s' = zombies (call 1 h r a s).2 ∧
                next_id (call 1 h r a s).2 ≤ next_id s') as (s' & -> & Hz & Hn).
  { destruct (call_split a s) as [->|(p & _ & ->)]; [by eexists|].
    eexists. split; [done|].
    destruct (pager_children p (call 1 h r a s).2) as [Hn' Hz']. done. }
  destruct (own_children a s)
    as [Hn1 [Hz1|(act & l & s1 & _ & _ & _ & Hz1 & Hs1)]].
  - split; [by rewrite Hz, Hz1|].
    exists []. split_and!.
    + rewrite Hz, Hz1. set_solver.
    + cbn; lia.
    + intros p Hp. inversion Hp.
  - split; [rewrite Hz, Hz1; set_solver|].
    exists [next_id s1]. split_and!.
    + rewrite Hz, Hz1. set_solver.
    + cbn; lia.
    + intros p Hp. apply list_elem_of_singleton in Hp as ->. lia.
Qed.
End Spawn.

(** * The context object *)

Section ContextObject.

Import Runner.

Variables (h : Host) (r : Runner.t).
Implicit Types (l : locals) (s : State) (fl : flow) (a : args).

(** ** X21 *)

(** X21: the file paths of a context with a list of files are all or
    nothing: when every file has a path the result holds the paths in
    the order of the files, and when one file lacks it the result is
    empty, however many paths were read before. *)
Theorem filepaths_all_or_nothing path (c : Context.t) fs :
  Context.files c = Some fs →
  ((∀ f, f ∈ fs → is_Some (path f)) →
   ∃ ps, Context.filepaths path c = inr ps ∧
         Forall2 (λ f p, path f = Some p) fs ps) ∧
  ((∃ f, f ∈ fs ∧ path f = None) →
   Context.filepaths path c = inr []).
Proof.
  intros Hfs. unfold Context.filepaths. rewrite Hfs. split.
  - intros Hall.
    assert (is_Some (mapM path fs)) as [ps Hps].
    { apply mapM_is_Some, Forall_forall. exact Hall. }
    rewrite Hps. exists ps. split; [done|].
    by apply mapM_Some_1.
  - intros (f & Hf & Hnone).
    rewrite (mapM_None_2 path fs); [done|].
    apply Exists_exists. eauto.
Qed.

(** ** What the preconditions leave of the context *)

Lemma keeps_context_seq (k1 k2 : clause) :
  keeps_context k1 → keeps_context k2 → keeps_context (k1 >>> k2).
Proof.
  intros H1 H2 l s fl l' s' H.
  apply seq_inv in H as [[_ H]|(l1 & s1 & Hk1 & Hk2)]; [by eapply H1|].
  apply H1 in Hk1. apply H2 in Hk2.
  destruct Hk1 as (<- & <- & <- & <- & <- & <-). exact Hk2.
Qed.

Ltac keeps k :=
  intros l s fl l' s' H; unfold k, when_flag, pure in H;
  repeat case_match; simplify_eq; cbn; done.

Lemma keeps_context_squash : keeps_context squash.
Proof. keeps squash. Qed.

Lemma keeps_context_default_shell : keeps_context (default_shell h).
Proof. keeps default_shell. Qed.

Lemma keeps_context_default_streams : keeps_context default_streams.
Proof. keeps default_streams. Qed.

Lemma keeps_context_flag_p : keeps_context flag_p.
Proof. keeps flag_p. Qed.

Lemma keeps_context_flag_s : keeps_context flag_s.
Proof. keeps flag_s. Qed.

Lemma keeps_context_flag_f : keeps_context flag_f.
Proof. keeps flag_f. Qed.

Lemma keeps_context_flag_w : keeps_context flag_w.
Proof. keeps flag_w. Qed.

Lemma keeps_context_flag_r : keeps_context (flag_r h r).
Proof. keeps flag_r. Qed.

Lemma keeps_context_flag_t : keeps_context (flag_t h r).
Proof. keeps flag_t. Qed.

Lemma keeps_context_set_args : keeps_context set_args.
Proof. keeps set_args. Qed.

Lemma keeps_context_preconditions : keeps_context (preconditions h r).
Proof.
  unfold preconditions.
  repeat (apply keeps_context_seq;
          [first [ apply keeps_context_squash
                 | apply keeps_context_default_shell
                 | apply keeps_context_default_streams
                 | apply keeps_context_flag_p | apply keeps_context_flag_s
                 | apply keeps_context_flag_f | apply keeps_context_flag_w
                 | apply keeps_context_flag_r | apply keeps_context_flag_t ]|]).
  apply keeps_context_set_args.
Qed.

(** ** X22 *)

(** X22: the context the notifications carry never holds the action:
    its [action] is None whatever the call was given, and its [app],
    [mode], [files] and [fm] are those of the call, [file] being the
    first of the files.  So for a call without files, iterating the
    notified context raises a TypeError. *)
Theorem notified_context_lacks_the_action a act s fl l s1 :
  preconditions h r (entry r a act) s = (fl, l, s1) →
  Context.action (context l) = None ∧
  Context.app (context l) = app a ∧
  Context.mode (context l) = mode a ∧
  Context.files (context l) = files a ∧
  Context.file (context l) = (files a ≫= head) ∧
  Context.fm (context l) = fm r ∧
  (files a = None →
   ∀ path, Context.__iter__ path (context l) = inl TypeError).
Proof.
  intros H. apply keeps_context_preconditions in H.
  destruct H as (Hact & Happ & Hmode & Hfiles & Hfile & Hfm).
  cbn in Hact, Happ, Hmode, Hfiles, Hfile, Hfm.
  split_and!; try done.
  intros Hnone path. unfold Context.__iter__, Context.filepaths.
  by rewrite Hfiles, Hnone.
Qed.

End ContextObject.

(** * What the flag squashing keeps *)

Section SquashKeeps.

Import Context.

Implicit Types (c f : N) (x y cur fs : list N).

Lemma survives_nil c : survives [] c = true.
Proof. reflexivity. Qed.

Lemma survives_cons f fs c :
  Is_true (survives (f :: fs) c) ↔
  (f ≤ 90 → c ≠ f ∧ c ≠ lower f) ∧ Is_true (survives fs c).
Proof.
  unfold survives. cbn [forallb]. rewrite andb_True, orb_True, andb_True.
  rewrite !negb_True, !Is_true_false.
  rewrite N.leb_nle, !N.eqb_neq. split.
  - intros [[Hgt|[H1 H2]] Hfs]; (split; [|done]); [lia | done].
  - intros [Hf Hfs]. split; [|done].
    destruct (N.le_gt_cases f 90) as [Hle|Hgt]; [right; auto | left; lia].
Qed.

Lemma survives_spec x c :
  Is_true (survives x c) ↔ ∀ f, f ∈ x → f ≤ 90 → c ≠ f ∧ c ≠ lower f.
Proof.
  induction x as [|f x IH].
  - split; [intros _ f Hf; inversion Hf | done].
  - rewrite survives_cons, IH. split.
    + intros [Hf Hx] g Hg. apply elem_of_cons in Hg as [->|Hg]; auto.
    + intros Hall. split; [apply Hall; left | intros g Hg; apply Hall; by right].
Qed.

Lemma squash_loop_filter fs cur :
  fold_left squash_step fs cur = filter (λ c, Is_true (survives fs c)) cur.
Proof.
  revert cur. induction fs as [|f fs IH]; intros cur; cbn [fold_left].
  - induction cur as [|c cur IHc]; [done|].
    rewrite filter_cons_True by done. by rewrite <- IHc.
  - rewrite IH. unfold squash_step, strip.
    destruct (N.leb_spec f 90) as [Hle|Hgt].
    + rewrite list_filter_filter. apply list_filter_iff. intros c.
      rewrite survives_cons, !not_elem_of_cons. split.
      * intros [Hfs (H1 & H2 & _)]. done.
      * intros [Hf Hfs]. destruct (Hf Hle) as [H1 H2].
        repeat split; try done. apply not_elem_of_nil.
    + apply list_filter_iff. intros c. rewrite survives_cons. split.
      * intros Hfs. split; [lia | done].
      * tauto.
Qed.

(** ** X23 *)


(** ** X24 *)

(** X24: the flags the squashing leaves as they are are exactly those
    made of characters with code point above 90 only. *)
Theorem squash_fixed_points x :
  squash x = x ↔ ∀ c, c ∈ x → 90 < c.
Proof.
  split.
  - intros Hfix c Hc. rewrite <- Hfix in Hc. by apply squash_above_90 in Hc.
  - intros Hall. by apply squash_loop_id.
Qed.

(** ** X25 *)

(** X25: the order of the flags does not matter: reordering the flags
    reorders the squashed flags and changes nothing else. *)
Theorem squash_respects_reordering x y :
  x ≡ₚ y → squash x ≡ₚ squash y.
Proof.
  intros Hxy. unfold squash. rewrite !squash_loop_filter.
  rewrite (list_filter_iff _ (λ c, Is_true (survives y c))).
  - by rewrite Hxy.
  - intros c. rewrite !survives_spec. by setoid_rewrite Hxy.
Qed.

End SquashKeeps.

(** * What the context arguments do not change *)

Section Blind.

Import Runner.

Variables (h : Host) (r : Runner.t).
Implicit Types (l : locals) (s : State) (fl : flow) (a : args).

Lemma plain_idem e : plain (plain e) = plain e.
Proof. by destruct e. Qed.

Lemma plain_state_idem s : plain_state (plain_state s) = plain_state s.
Proof.
  unfold plain_state. cbn. f_equal. rewrite <- list_fmap_compose.
  apply list_fmap_ext. intros _ e _. apply plain_idem.
Qed.

Lemma plain_record e s :
  record (plain e) (plain_state s) = plain_state (record e s).
Proof. unfold record, plain_state. cbn. by rewrite fmap_app. Qed.

Lemma plain_record_same e s :
  plain e = e → record e (plain_state s) = plain_state (record e s).
Proof. intros He. by rewrite <- plain_record, He. Qed.

Lemma plain_tick s : tick (plain_state s) = plain_state (tick s).
Proof. done. Qed.

Lemma plain_add_zombie p s :
  add_zombie p (plain_state s) = plain_state (add_zombie p s).
Proof. done. Qed.

Lemma _log_plain m s :
  _log r m (plain_state s) = ((_log r m s).1, plain_state (_log r m s).2).
Proof. unfold _log. by destruct (logfunc r). Qed.

Lemma _activate_ui_plain value s :
  _activate_ui r value (plain_state s) = plain_state (_activate_ui r value s).
Proof.
  unfold _activate_ui. destruct (ui r) as [u|]; [|done].
  destruct value.
  - rewrite (plain_record_same UiInitialize) by done.
    destruct (initialize_raises u); [|done].
    rewrite _log_plain. cbn [snd].
    by rewrite (plain_record_same LogException).
  - rewrite (plain_record_same UiSuspend) by done.
    destruct (suspend_raises u); [|done].
    rewrite _log_plain. cbn [snd].
    by rewrite (plain_record_same LogException).
Qed.

Lemma signal_emit_plain e s :
  signal_emit r (plain e) (plain_state s)
  = ((signal_emit r e s).1, plain_state (signal_emit r e s).2).
Proof.
  unfold signal_emit. destruct (fm r); [|done]. by rewrite plain_record.
Qed.

Lemma io_open_plain mode s :
  io_open mode (plain_state s)
  = ((io_open mode s).1, plain_state (io_open mode s).2).
Proof.
  unfold io_open, plain_state. cbn. by rewrite fmap_app.
Qed.

(** ** The clauses *)

Lemma blind_seq (k1 k2 : clause) : blind k1 → blind k2 → blind (k1 >>> k2).
Proof.
  intros H1 H2 l s. unfold seq. rewrite H1.
  destruct (k1 l s) as [[[|v|e] l1] s1]; [apply H2 | done..].
Qed.

Lemma blind_pure (f : locals → locals) :
  (∀ l, f (anonymous_locals l) = anonymous_locals (f l)) → blind (pure f).
Proof. intros Hf l s. unfold pure. by rewrite Hf. Qed.

Lemma blind_when_flag c (k : clause) : blind k → blind (when_flag c k).
Proof.
  intros Hk l s. unfold when_flag.
  change (Context.flags (context (anonymous_locals l)))
    with (Context.flags (context l)).
  destruct (has c _); [apply Hk | done].
Qed.

Lemma blind_squash : blind squash.
Proof. by apply blind_pure. Qed.

Lemma blind_default_shell : blind (default_shell h).
Proof.
  intros l s. unfold default_shell.
  change (Context.popen_kws (context (anonymous_locals l)))
    with (Context.popen_kws (context l)).
  change (cmd (anonymous_locals l)) with (cmd l).
  destruct (contains "shell" _).
  - change (Context.popen_kws (context (anonymous_locals l)))
      with (Context.popen_kws (context l)).
    repeat case_match; done.
  - change (Context.popen_kws
              (context (kw "shell" (VBool (is_str (cmd l)))
                          (anonymous_locals l))))
      with (Context.popen_kws
              (context (kw "shell" (VBool (is_str (cmd l))) l))).
    repeat case_match; done.
Qed.

Lemma blind_default_streams : blind default_streams.
Proof.
  apply blind_pure. intros l. cbv beta zeta.
  change (Context.popen_kws (context (anonymous_locals l)))
    with (Context.popen_kws (context l)).
  destruct (contains "stdout" _).
  - change (Context.popen_kws (context (anonymous_locals l)))
      with (Context.popen_kws (context l)).
    by destruct (contains "stderr" _).
  - change (Context.popen_kws
              (context (kw "stdout" (VStream SysStdout) (anonymous_locals l))))
      with (Context.popen_kws
              (context (kw "stdout" (VStream SysStdout) l))).
    by destruct (contains "stderr" _).
Qed.

Lemma blind_flag_p : blind flag_p.
Proof. by apply blind_when_flag, blind_pure. Qed.

Lemma blind_flag_s : blind flag_s.
Proof.
  apply blind_when_flag. intros l s.
  rewrite (io_open_plain "w" s).
  destruct (io_open "w" s) as [w s1]. cbn [fst snd].
  rewrite (io_open_plain "r" s1).
  by destruct (io_open "r" s1) as [rd s2].
Qed.

Lemma blind_flag_f : blind flag_f.
Proof. by apply blind_when_flag, blind_pure. Qed.

Lemma blind_flag_w : blind flag_w.
Proof.
  apply blind_when_flag, blind_pure. intros l.
  change (pipe_output (anonymous_locals l)) with (pipe_output l).
  change (Context.wait (context (anonymous_locals l)))
    with (Context.wait (context l)).
  by destruct (negb _ && _).
Qed.

Lemma blind_flag_r : blind (flag_r h r).
Proof.
  apply blind_when_flag. intros l s.
  destruct (no_sudo h).
  - rewrite _log_plain. by destruct (_log r _ s).
  - done.
Qed.

Lemma blind_flag_t : blind (flag_t h r).
Proof.
  apply blind_when_flag. intros l s.
  destruct (negb (has_display h)).
  - rewrite _log_plain. by destruct (_log r _ s).
  - done.
Qed.

Lemma blind_set_args : blind set_args.
Proof. by apply blind_pure. Qed.

Lemma blind_preconditions : blind (preconditions h r).
Proof.
  unfold preconditions.
  repeat (apply blind_seq;
          [first [ apply blind_squash | apply blind_default_shell
                 | apply blind_default_streams
                 | apply blind_flag_p | apply blind_flag_s
                 | apply blind_flag_f | apply blind_flag_w
                 | apply blind_flag_r | apply blind_flag_t ]|]).
  apply blind_set_args.
Qed.

(** ** The spawn and the cleanup *)

Lemma else_block_plain l process s :
  else_block (anonymous_locals l) process (plain_state s)
  = ((else_block l process s).1, plain_state (else_block l process s).2).
Proof.
  unfold else_block.
  change (Context.wait (context (anonymous_locals l)))
    with (Context.wait (context l)).
  change (wait_for_enter (anonymous_locals l)) with (wait_for_enter l).
  destruct (wait_truthy _), process as [p|], (wait_for_enter l);
    cbn [fst snd]; try done.
  - by rewrite !(plain_record_same (ProcessWait (pid p))),
      !(plain_record_same (StdoutWrite _)), !(plain_record_same Input).
  - by rewrite !(plain_record_same (ProcessWait (pid p))).
  - by rewrite <- !(plain_record_same Input),
      <- !(plain_record_same (StdoutWrite _)).
  - by rewrite <- !(plain_record_same Input),
      <- !(plain_record_same (StdoutWrite _)).
Qed.

Lemma try_block_plain l s :
  try_block h r (anonymous_locals l) (plain_state s)
  = let '(pend, process, error, s') := try_block h r l s in
    (pend, process, error, plain_state s').
Proof.
  unfold try_block. cbv zeta.
  change (Context.popen_kws (context (anonymous_locals l)))
    with (Context.popen_kws (context l)).
  change (Context.flags (context (anonymous_locals l)))
    with (Context.flags (context l)).
  change (cmd (anonymous_locals l)) with (cmd l).
  change (EmitBefore (context (anonymous_locals l)))
    with (plain (EmitBefore (context l))).
  rewrite signal_emit_plain.
  destruct (signal_emit r (EmitBefore (context l)) s) as [[e|] s1];
    cbn [fst snd]; [done|].
  destruct (has "f" _ && negb _).
  - rewrite (plain_record_same (CallPopenForked _ _)) by done.
    rewrite else_block_plain. by destruct (else_block l None _).
  - destruct (Popen h _) as [ex|].
    + rewrite (plain_record_same (CallPopen _ _)) by done.
      destruct (is_OSError ex); [|done]. by rewrite _log_plain.
    + rewrite (plain_record_same (CallPopen _ _)) by done.
      rewrite plain_tick, else_block_plain.
      change (new_process (kws_of l) (plain_state s1))
        with (new_process (kws_of l) s1).
      by destruct (else_block l _ _).
Qed.

Lemma run_plain l s :
  run h r (anonymous_locals l) (plain_state s)
  = let '(pend, process, error, s') := run h r l s in
    (pend, process, error, plain_state s').
Proof.
  unfold run. change (toggle_ui (anonymous_locals l)) with (toggle_ui l).
  destruct (toggle_ui l); rewrite ?_activate_ui_plain; apply try_block_plain.
Qed.

Lemma finally_block_plain (self : args → State → outcome * State)
    l process error s :
  (∀ p s0, observed (self (pager_args p) (plain_state s0))
           = observed (self (pager_args p) s0)) →
  observed (finally_block self r (anonymous_locals l) process error
              (plain_state s))
  = observed (finally_block self r l process error s).
Proof.
  intros Hself. unfold finally_block.
  change (EmitAfter (context (anonymous_locals l)) error)
    with (plain (EmitAfter (context l) error)).
  change (toggle_ui (anonymous_locals l)) with (toggle_ui l).
  change (pipe_output (anonymous_locals l)) with (pipe_output l).
  rewrite signal_emit_plain.
  destruct (signal_emit r (EmitAfter (context l) error) s) as [[e|] s1];
    cbn [fst snd].
  { unfold observed. cbn [fst snd]. by rewrite plain_state_idem. }
  assert ((if toggle_ui l then _activate_ui r true (plain_state s1)
           else plain_state s1)
          = plain_state (if toggle_ui l then _activate_ui r true s1 else s1))
    as -> by (destruct (toggle_ui l); by rewrite ?_activate_ui_plain).
  destruct (pipe_output l), process as [p|]; try apply Hself;
    unfold observed; cbn [fst snd]; by rewrite plain_state_idem.
Qed.

Lemma body_plain (self : args → State → outcome * State) a s :
  (∀ p s0, observed (self (pager_args p) (plain_state s0))
           = observed (self (pager_args p) s0)) →
  observed (body self h r (anonymous_args a) (plain_state s))
  = observed (body self h r a s).
Proof.
  intros Hself. unfold body.
  change (action (anonymous_args a)) with (action a).
  destruct (action a) as [act|].
  2:{ rewrite _log_plain. destruct (_log r _ s) as [v s1].
      unfold observed. cbn [fst snd]. by rewrite plain_state_idem. }
  change (entry r (anonymous_args a) act)
    with (anonymous_locals (entry r a act)).
  rewrite blind_preconditions.
  destruct (preconditions h r (entry r a act) s) as [[[|v|e] l] s1];
    try (unfold observed; cbn [fst snd]; by rewrite plain_state_idem).
  rewrite run_plain.
  destruct (run h r l s1) as [[[pend process] error] s2].
  by apply finally_block_plain.
Qed.

Lemma call_plain n a s :
  observed (call n h r (anonymous_args a) (plain_state s))
  = observed (call n h r a s).
Proof.
  revert a s. induction n as [|n IH]; intros a s.
  - unfold observed. cbn. by rewrite plain_state_idem.
  - cbn [call]. apply body_plain. intros p s0.
    rewrite <- (IH (pager_args p) s0), <- (IH (pager_args p) (plain_state s0)).
    by rewrite plain_state_idem.
Qed.

(** ** X26 *)

(** X26: the arguments [try_app_first], [app], [files] and [mode] change
    nothing of a call but the context the notifications carry: the
    result, the zombie set, the log, the open files and the trace with
    these attributes taken out of its contexts are the same whatever
    their values.  No action is looked up from [app], and
    [try_app_first] is never read. *)
Theorem context_arguments_are_inert a s t ap fs m :
  observed (__call__ h r (with_context_args t ap fs m a) s)
  = observed (__call__ h r a s).
Proof.
  unfold __call__.
  rewrite <- (call_plain 2 a s).
  by rewrite <- (call_plain 2 (with_context_args t ap fs m a) s).
Qed.

End Blind.

(** * Flag pairs *)

Section CasePairs.

Import Context.

Implicit Types (c f u : N) (x : list N).

Lemma str_lower_le_90 f : f ≤ 90 → str_lower f = lower f.
Proof.
  intros Hf. unfold str_lower, lower.
  replace ((192 <=? f) && (f <=? 222) && negb (f =? 215)) with false.
  - by rewrite orb_false_r.
  - symmetry. apply andb_false_iff. left. apply andb_false_iff. left.
    apply N.leb_gt. lia.
Qed.

Lemma str_lower_pair u :
  str_lower u ≠ u → (65 ≤ u ≤ 90) ∨ (192 ≤ u ≤ 222).
Proof.
  unfold str_lower.
  destruct (N.leb_spec 65 u), (N.leb_spec u 90), (N.leb_spec 192 u),
    (N.leb_spec u 222); cbn; try done; intros _; lia.
Qed.

(** A character above 'z' is never stripped. *)
Lemma squash_keeps_above_122 x c : 122 < c → c ∈ x → c ∈ squash x.
Proof.
  intros Hc Hx. apply elem_of_squash. split; [done|].
  intros f _ Hf. unfold lower.
  destruct ((65 <=? f) && (f <=? 90)); split; lia.
Qed.

(** ** C7, as amended *)

(** C7 (amended): for a flag sequence that contains an uppercase
    character [u] and its lowercase form, the squashing removes both
    when [u] has a code point up to 90, which is so for the letters
    'A'..'Z', and keeps both otherwise, as for 'É' with 'é'. *)
Theorem squash_removes_negation_pair x u :
  str_lower u ≠ u → u ∈ x → str_lower u ∈ x →
  if u <=? 90
  then (str_lower u ∉ squash x) ∧ (u ∉ squash x)
  else (str_lower u ∈ squash x) ∧ (u ∈ squash x).
Proof.
  intros Hpair Hu Hl.
  destruct (N.leb_spec u 90) as [Hle|Hgt].
  - rewrite (str_lower_le_90 u Hle).
    split; rewrite elem_of_squash; intros [_ Hall];
      destruct (Hall u Hu Hle) as [H1 H2]; congruence.
  - destruct (str_lower_pair u Hpair) as [?|Hu']; [lia|].
    assert (str_lower u = u + 32) as Hlow.
    { unfold str_lower in *. by destruct (_ || _). }
    split; apply squash_keeps_above_122; try done; lia.
Qed.

End CasePairs.

Section CasePairsOnSamples.

Lemma squash_negation_pair_witness :
  let x := str_of "fprF" in
  let u := ord "F" in
  (str_lower u ∉ Context.squash x) ∧ (u ∉ Context.squash x).
Proof.
  intros x u.
  apply (squash_removes_negation_pair x u); [done | decided | decided].
Defined.

(** C7 does not hold as stated: 'é' (233) is a lowercase flag and 'É'
    (201) its uppercase counterpart, and the squashing of 'éÉ' keeps
    both, since only characters up to code point 90 strip anything. *)
Lemma latin1_pair_survives :
  let x := [233; 201] in
  str_lower 201 = 233 ∧ 233 ∈ x ∧ 201 ∈ x ∧
  Context.squash x = x ∧
  233 ∈ Context.squash x ∧ 201 ∈ Context.squash x.
Proof. cbv zeta. split_and!; try reflexivity; decided. Qed.

End CasePairsOnSamples.

(** * Failed preconditions and the detached spawn *)

Section Sentinels.

Import Runner.

Variables (h : Host) (r : Runner.t).
Implicit Types (l : locals) (s : State) (fl : flow) (a : args).

(** The KeyError of [os.environ['SHELL']] leaves the body at once. *)
Lemma body_no_shell self a act s :
  action a = Some act → shell_mode a act = true →
  environ h !! "SHELL" = None →
  body self h r a s = (Raises (KeyError "SHELL"), s).
Proof.
  intros Ha Hsh Henv. unfold body. rewrite Ha.
  destruct (preconditions _ _ _ _) as [[[|v|e] l] s1] eqn:Hpre;
    pose proof (preconditions_spec h r _ _ _ _ _ _ Hpre) as H; cbv zeta in H.
  - destruct H as (_ & _ & Hs & _). destruct (Hs Hsh) as [? ?]. congruence.
  - destruct H as (_ & _ & Hs & _). destruct (Hs Hsh) as [? ?]. congruence.
  - by destruct H as (-> & _ & _ & ->).
Qed.

(** Without a manager the first notification raises, and the one of
    the [finally] block raises again. *)
Lemma body_no_manager self a act s l s1 :
  action a = Some act → fm r = None →
  preconditions h r (entry r a act) s = (Continue, l, s1) →
  body self h r a s
  = (Raises (AttributeError "signal_emit"), suspended r l s1).
Proof.
  intros Ha Hfm Hpre.
  rewrite (body_continue h r _ _ _ _ _ _ Ha Hpre).
  unfold run, try_block, finally_block, signal_emit. by rewrite Hfm.
Qed.

(** ** C5, as amended *)

(** C5 (amended): when the squashed flags contain [r], the escalation
    tool is not among the executables, and SHELL is in the environment
    in case an action is given and the shell option is truthy, the call
    returns False and hands exactly one message to the log function:
    the one about the missing tool when an action was given, the one
    about the missing action otherwise.  The action is left as it was
    given: the clause returns before it would prepend the tool.
    Nothing is notified or spawned. *)
Theorem escalation_tool_missing a s :
  let x := Context.squash (flags a) in
  has "r" x = true → no_sudo h = true →
  (∀ act, action a = Some act → shell_mode a act = true →
          is_Some (environ h !! "SHELL")) →
  ∃ s',
    __call__ h r a s = (Returns RFalse, s') ∧
    log s' = (log s ++ match logfunc r, action a with
                       | Some _, Some _ => [msg_no_sudo]
                       | Some _, None => [msg_no_action]
                       | None, _ => []
                       end)%list ∧
    zombies s' = zombies s ∧
    grows open_event s s' ∧
    ∀ act, action a = Some act →
      ∃ l, preconditions h r (entry r a act) s = (Stop RFalse, l, s') ∧
           cmd l = act.
Proof.
  intros x Hr Hsudo Hsh.
  destruct (action a) as [act|] eqn:Ha.
  - destruct (call_no_sudo h r a act s Ha Hr Hsudo (Hsh act eq_refl))
      as (l & Hpre & Hcmd & Hcall).
    fold x in Hpre, Hcall.
    eexists. split; [exact Hcall|]. split_and!.
    + rewrite _log_log. rewrite (proj2 (mid_rest (has "s" x) s)).
      by destruct (logfunc r).
    + rewrite _log_zombies. apply (mid_rest (has "s" x) s).
    + apply grows_log.
      destruct (has "s" x); [apply grows_opened; [done|]|]; apply grows_refl.
    + intros act' Hact. simplify_eq. by exists l.
  - eexists. split; [by apply call_none|]. split_and!.
    + rewrite _log_log. by destruct (logfunc r).
    + by rewrite _log_zombies.
    + apply grows_log, grows_refl.
    + done.
Qed.

(** ** C10, as amended *)

(** C10 (amended): the call has two failure results.  Without an action
    it returns False.  With an action, and SHELL in the environment in
    case the shell option is truthy, a missing escalation tool under
    [r] and a missing display under [t] return False.  When the
    preconditions hold and the Runner has a manager, a spawn that fails
    with an OSError returns None, and so does the detached spawn under
    [f] without [r], whatever the primitive answers: its answer is
    dropped and [process] keeps its None. *)
Theorem failure_sentinels a s :
  let x := Context.squash (flags a) in
  (action a = None → (__call__ h r a s).1 = Returns RFalse) ∧
  (∀ act,
     action a = Some act →
     ((shell_mode a act = true → is_Some (environ h !! "SHELL")) →
      (has "r" x = true → no_sudo h = true →
       (__call__ h r a s).1 = Returns RFalse) ∧
      (has "t" x = true → has_display h = false →
       (__call__ h r a s).1 = Returns RFalse)) ∧
     (∀ l s1,
        preconditions h r (entry r a act) s = (Continue, l, s1) →
        is_Some (fm r) →
        let kws := Context.popen_kws (context l) in
        (∀ n, has "f" x && negb (has "r" x) = false →
              Popen h kws = Some (OSError n) →
              (__call__ h r a s).1 = Returns RNone) ∧
        (has "f" x = true → has "r" x = false →
         (__call__ h r a s).1 = Returns RNone ∧
         CallPopenForked kws (Popen_forked h kws)
           ∈ trace (__call__ h r a s).2))) ∧
  Returns RFalse ≠ Returns RNone.
Proof.
  intros x. split; [|split; [|done]].
  { intros Ha. by rewrite call_none. }
  intros act Ha. split.
  - intros Hsh. split.
    + intros Hr Hsudo.
      destruct (call_no_sudo h r a act s Ha Hr Hsudo Hsh) as (l & _ & _ & ->).
      done.
    + intros Ht Hdisp.
      destruct (call_no_display h r a act s Ha Ht Hdisp Hsh) as (s' & ->).
      done.
  - intros l s1 Hpre [m Hfm] kws.
    pose proof (preconditions_spec h r _ _ _ _ _ _ Hpre)
      as (_ & _ & Hsh & _ & Ht & _).
    split.
    + intros n Hf Hpopen.
      destruct (call_oserror h r a act s m l s1 n Ha Hfm Hpre Hf Hpopen)
        as (s' & -> & _).
      done.
    + intros Hf Hr.
      destruct (call_forked h r a act s m Ha Hfm Hf Hr Hsh Ht)
        as (l' & Hpre' & ->).
      rewrite Hpre in Hpre'. simplify_eq. split; [done|].
      cbn [snd record trace]. rewrite !elem_of_app, !list_elem_of_singleton.
      left. by right.
Qed.

(** ** C3, as amended *)

(** C3 (amended): a call whose squashed flags contain [f] and not [r],
    and whose preconditions hold, never blocks and never uses the
    blocking-capable spawn, and leaves the zombie set as it was.  On a
    Runner with a manager it calls, between its two notifications, the
    detached-spawn primitive and nothing else, and returns None
    whatever that primitive answers, which hands back no child handle.
    On a Runner without a manager the first notification raises
    AttributeError and nothing is spawned at all. *)
Theorem detached_spawn_returns_none a act s :
  let x := Context.squash (flags a) in
  let mid := if has "s" x then opened s else s in
  action a = Some act →
  has "f" x = true → has "r" x = false →
  (shell_mode a act = true → is_Some (environ h !! "SHELL")) →
  (has "t" x = true → has_display h = true) →
  ∃ l s',
    preconditions h r (entry r a act) s = (Continue, l, mid) ∧
    wait_of l = Some false ∧
    zombies s' = zombies s ∧
    let kws := Context.popen_kws (context l) in
    match fm r with
    | Some _ =>
        __call__ h r a s = (Returns RNone, s') ∧
        trace s' = (trace mid
                    ++ [EmitBefore (context l);
                        CallPopenForked kws (Popen_forked h kws);
                        EmitAfter (context l) None])%list
    | None =>
        __call__ h r a s = (Raises (AttributeError "signal_emit"), s') ∧
        trace s' = trace mid
    end.
Proof.
  intros x mid Ha Hf Hr Hsh Ht.
  destruct (preconditions_continue h r a act s Hsh) as [l Hpre]; auto.
  { fold x. by rewrite Hr. }
  fold x in Hpre. fold mid in Hpre.
  pose proof (preconditions_spec h r _ _ _ _ _ _ Hpre)
    as (_ & _ & _ & _ & _ & _ & Htog & Hw & _).
  fold x in Htog, Hw. rewrite Hr, Hf in Htog, Hw.
  assert (toggle_ui l = false) as Htog' by (by destruct (has "t" x)).
  assert (wait_of l = Some false) as Hw' by (by destruct (has "t" x)).
  destruct (fm r) as [m|] eqn:Hfm.
  - destruct (call_forked h r a act s m Ha Hfm Hf Hr Hsh Ht)
      as (l' & Hpre' & Hcall).
    fold x in Hpre', Hcall. fold mid in Hpre', Hcall.
    rewrite Hpre in Hpre'. simplify_eq.
    exists l'. eexists. split; [exact Hpre|]. split; [exact Hw'|].
    split; [|split; [exact Hcall|]].
    + cbn [record zombies]. apply (mid_rest (has "s" x) s).
    + cbn [record trace]. by rewrite <- !app_assoc.
  - exists l, mid. split; [exact Hpre|]. split; [exact Hw'|].
    split; [apply (mid_rest (has "s" x) s)|]. split; [|done].
    unfold __call__.
    change (call 2 h r a s) with (body (call 1 h r) h r a s).
    rewrite (body_no_manager _ a act s l mid Ha Hfm Hpre).
    unfold suspended. by rewrite Htog'.
Qed.

End Sentinels.

(** * When an exception leaves a call *)

Section Escapes.

Import Runner.

Variables (h : Host) (r : Runner.t).
Implicit Types (l : locals) (s : State) (fl : flow) (a : args).

(** Goes through the elements of a list given in full. *)
Ltac not_listed :=
  let Hin := fresh "Hin" in
  intros Hin; simpl in Hin;
  repeat (apply elem_of_cons in Hin as [Hin|Hin]; [done|]);
  by apply not_elem_of_nil in Hin.

(** The events in front of the spawn and after it are no calls of
    [subprocess.Popen]. *)
Lemma toggle_events_no_spawn l value kws o :
  CallPopen kws o ∉ toggle_events r l value.
Proof.
  unfold toggle_events, ui_events.
  destruct (toggle_ui l); [|not_listed].
  destruct (ui r) as [u|]; [|not_listed].
  destruct value, (initialize_raises u), (suspend_raises u); not_listed.
Qed.

Lemma after_spawn_no_spawn l process kws o :
  CallPopen kws o ∉ after_spawn l process.
Proof.
  unfold after_spawn.
  destruct process as [p|], (wait_truthy (wait_of l)), (wait_for_enter l);
    not_listed.
Qed.

(** The raising spawn of an invocation is the one the flags chose, on
    the final options. *)
Lemma invocation_spawn_raised l sb kws e :
  CallPopen kws (Some e) ∈ invocation_events h r l sb →
  forks (fl_of l) = false ∧ kws = kws_of l ∧ Popen h (kws_of l) = Some e.
Proof.
  unfold invocation_events. rewrite !elem_of_app, !elem_of_cons.
  intros [H|[[H|[H|H]]|[H|[[H|H]|H]]]]; try done.
  - by apply toggle_events_no_spawn in H.
  - unfold spawn_call in H. destruct (forks (fl_of l)); [done|].
    by simplify_eq.
  - by apply not_elem_of_nil in H.
  - destruct (raised h _ _); [by apply not_elem_of_nil in H|].
    by apply after_spawn_no_spawn in H.
  - by apply not_elem_of_nil in H.
  - by apply toggle_events_no_spawn in H.
Qed.

Lemma mid_trace (b : bool) s :
  ∃ evs, trace (if b then opened s else s) = (trace s ++ evs)%list ∧
         Forall open_event evs.
Proof.
  destruct b.
  - destruct (opened_rest s) as (_ & _ & -> & _). eexists. split; [done|].
    by repeat constructor.
  - exists []. by rewrite app_nil_r.
Qed.

Lemma open_event_no_spawn evs kws o :
  Forall open_event evs → CallPopen kws o ∉ evs.
Proof.
  intros Hall Hin. rewrite Forall_forall in Hall. by apply Hall in Hin.
Qed.

(** One invocation: a spawn that raised ends it with None, and an
    OSError is in the log with the action the spawn was given. *)
Lemma own_spawn_failure a s :
  ∃ evs, trace (call 1 h r a s).2 = (trace s ++ evs)%list ∧
    ∀ kws e, CallPopen kws (Some e) ∈ evs →
      (call 1 h r a s).1 = Returns RNone ∧
      (is_OSError e = true → is_Some (logfunc r) →
       ∃ act', kws !! "args" = Some (args_value act') ∧
               FailedToRun act' e ∈ log (call 1 h r a s).2).
Proof.
  change (call 1 h r a s) with (body (call 0 h r) h r a s).
  destruct (action a) as [act|] eqn:Ha.
  2:{ unfold body. rewrite Ha. rewrite (surjective_pairing (_log _ _ s)).
      exists []. cbn [snd]. rewrite _log_trace, app_nil_r. split; [done|].
      intros kws e Hin. by apply not_elem_of_nil in Hin. }
  destruct (preconditions h r (entry r a act) s) as [[fl l] s1] eqn:Hpre.
  pose proof (preconditions_spec h r _ _ _ _ _ _ Hpre) as H. cbv zeta in H.
  destruct (mid_trace (has "s" (Context.squash (flags a))) s)
    as (evs1 & Hmid & Hopen).
  destruct fl as [|v|ex].
  - destruct H as (Hfl & Hs1 & _). rewrite <- Hs1 in Hmid.
    destruct (fm r) as [m|] eqn:Hfm.
    + destruct (call_passes h r a act s l s1 m Ha Hfm Hpre)
        as (s4 & _ & Hown & Ht & _ & _ & _ & Hlog & _).
      change (call 1 h r a s) with (body (call 0 h r) h r a s) in Hown.
      set (sb := record (EmitBefore (context l)) (suspended r l s1)) in *.
      exists (evs1 ++ invocation_events h r l sb)%list.
      assert ((body (call 0 h r) h r a s).2 = s4) as Hs4.
      { rewrite Hown. by destruct (if has "p" _ then _ else None). }
      rewrite Hs4. split; [by rewrite Ht, Hmid, <- app_assoc|].
      intros kws e Hin. apply elem_of_app in Hin as [Hin|Hin].
      { by apply (open_event_no_spawn evs1) in Hin. }
      apply invocation_spawn_raised in Hin as (Hf & -> & Hpopen).
      rewrite Hfl in Hf.
      assert (spawned h (Context.squash (flags a)) (kws_of l) sb = None)
        as Hnone by (unfold spawned; by rewrite Hf, Hpopen).
      rewrite Hnone in Hown. split.
      { rewrite Hown. by destruct (has "p" _). }
      intros He Hlf.
      destruct (preconditions_options h r a act s l s1 Hpre) as (Hcmd & Hkws).
      exists (cmd l). split.
      * rewrite Hkws, Hcmd. unfold final_options. apply lookup_insert_eq.
      * apply Hlog; [|done]. unfold captured. by rewrite Hf, Hpopen, He.
    + rewrite (body_no_manager h r _ a act s l s1 Ha Hfm Hpre). cbn [fst snd].
      exists (evs1 ++ toggle_events r l false)%list. split.
      * by rewrite suspended_trace, Hmid, <- app_assoc.
      * intros kws e Hin. apply elem_of_app in Hin as [Hin|Hin].
        -- by apply (open_event_no_spawn evs1) in Hin.
        -- by apply toggle_events_no_spawn in Hin.
  - rewrite (body_stop h r _ _ _ _ _ _ _ Ha Hpre). cbn [fst snd].
    exists evs1. split.
    + destruct H as (_ & _ & _ & [(_ & _ & _ & ->)|(_ & _ & _ & ->)]);
        by rewrite _log_trace.
    + intros kws e Hin. by apply (open_event_no_spawn evs1) in Hin.
  - unfold body. rewrite Ha, Hpre. cbn [fst snd].
    destruct H as (_ & _ & _ & ->). exists []. rewrite app_nil_r.
    split; [done|]. intros kws e Hin. by apply not_elem_of_nil in Hin.
Qed.

Lemma pager_shell_mode p : shell_mode (pager_args p) (Command "less") = true.
Proof. reflexivity. Qed.

(** The exceptions that leave the body are those of its two reads
    outside a handler: the KeyError of [os.environ['SHELL']] and the
    AttributeError of [self.fm.signal_emit]. *)
Lemma body_raises self a s e :
  (∀ p s0 e0, (self (pager_args p) s0).1 = Raises e0 →
     e0 = KeyError "SHELL" ∨ e0 = AttributeError "signal_emit") →
  (body self h r a s).1 = Raises e →
  e = KeyError "SHELL" ∨ e = AttributeError "signal_emit".
Proof.
  intros Hself. unfold body. destruct (action a) as [act|].
  2:{ by destruct (_log r _ s). }
  destruct (preconditions _ _ _ _) as [[[|v|ex] l] s1] eqn:Hpre;
    pose proof (preconditions_spec h r _ _ _ _ _ _ Hpre) as H; cbv zeta in H.
  - destruct (run h r l s1) as [[[pend process] error] s2].
    unfold finally_block, signal_emit. destruct (fm r).
    + destruct (pipe_output l), process as [p|]; try done. apply Hself.
    + intros He. right. cbn in He. by simplify_eq.
  - done.
  - destruct H as (-> & _). intros He. left. cbn in He. by simplify_eq.
Qed.

(** ** C1, as amended *)

(** C1 (amended): a call returns, with False, None or a process object
    as its result, exactly when SHELL is in the environment in each
    place where the code reads it, and the Runner has a manager in case
    the preconditions hold.  SHELL is read when an action is given and
    the shell option is truthy, and again by the chained pager call,
    that is when [p] is set and the spawn produced a child.  In every
    other case the KeyError or the AttributeError leaves the call.
    When a call returns False, exactly one message was handed to the
    log function.  When [subprocess.Popen] raised, the call returns
    None, and an OSError is handed to the log function together with
    the action of that spawn. *)
Theorem exception_escapes_exactly a s :
  let out := __call__ h r a s in
  let shell := is_Some (environ h !! "SHELL") in
  ((∃ v, out.1 = Returns v) ↔
   ∀ act, action a = Some act →
     (shell_mode a act = true → shell) ∧
     ∀ l s1, preconditions h r (entry r a act) s = (Continue, l, s1) →
       is_Some (fm r) ∧
       (has "p" (fl_of l) = true → forks (fl_of l) = false →
        Popen h (kws_of l) = None → shell)) ∧
  out.1 ≠ Unfinished ∧
  (∀ e, out.1 = Raises e →
        e = KeyError "SHELL" ∨ e = AttributeError "signal_emit") ∧
  (out.1 = Returns RFalse →
   ∃ msg, log out.2 = (log s ++ match logfunc r with
                                | Some _ => [msg] | None => []
                                end)%list) ∧
  ∃ evs, trace out.2 = (trace s ++ evs)%list ∧
    ∀ kws e, CallPopen kws (Some e) ∈ evs →
      out.1 = Returns RNone ∧
      (is_OSError e = true → is_Some (logfunc r) →
       ∃ act', kws !! "args" = Some (args_value act') ∧
               FailedToRun act' e ∈ log out.2).
Proof.
  intros out shell. subst out shell.
  split; [|split; [apply call_finished|split; [|split]]].
  2:{ intros e. unfold __call__.
      change (call 2 h r a s) with (body (call 1 h r) h r a s).
      apply body_raises. intros p s0 e0.
      change (call 1 h r (pager_args p) s0)
        with (body (call 0 h r) h r (pager_args p) s0).
      apply body_raises. intros p' s0' e0'. by cbn. }
  - split.
    + intros [v Hv] act Ha. split.
      * intros Hsh. destruct (environ h !! "SHELL") eqn:Henv; [done|].
        unfold __call__ in Hv.
        change (call 2 h r a s) with (body (call 1 h r) h r a s) in Hv.
        by rewrite (body_no_shell h r _ a act s Ha Hsh Henv) in Hv.
      * intros l s1 Hpre.
        pose proof (preconditions_spec h r _ _ _ _ _ _ Hpre) as (Hfl & _).
        destruct (fm r) as [m|] eqn:Hfm.
        2:{ unfold __call__ in Hv.
            change (call 2 h r a s) with (body (call 1 h r) h r a s) in Hv.
            by rewrite (body_no_manager h r _ a act s l s1 Ha Hfm Hpre)
              in Hv. }
        split; [done|]. intros Hp Hf Hpopen.
        destruct (environ h !! "SHELL") eqn:Henv; [done|].
        destruct (call_passes h r a act s l s1 m Ha Hfm Hpre)
          as (s4 & Hcall & _).
        rewrite Hfl in Hp, Hf. unfold spawned in Hcall.
        rewrite Hp, Hf, Hpopen in Hcall. rewrite Hcall in Hv.
        change (call 1 h r (pager_args ?p) s4)
          with (body (call 0 h r) h r (pager_args p) s4) in Hv.
        by rewrite (body_no_shell h r _ (pager_args _) (Command "less") s4
                      eq_refl (pager_shell_mode _) Henv) in Hv.
    + intros Hsafe. destruct (action a) as [act|] eqn:Ha.
      2:{ rewrite (call_none h r a s Ha). by eexists. }
      destruct (Hsafe act eq_refl) as [Hsh Hcont].
      destruct (preconditions h r (entry r a act) s) as [[fl l] s1] eqn:Hpre.
      pose proof (preconditions_spec h r _ _ _ _ _ _ Hpre) as H.
      cbv zeta in H. destruct fl.
      * destruct H as (Hfl & _).
        destruct (Hcont l s1 eq_refl) as [[m Hfm] Hpager].
        destruct (call_passes h r a act s l s1 m Ha Hfm Hpre)
          as (s4 & Hcall & _).
        rewrite Hfl in Hpager. unfold spawned in Hcall.
        destruct (has "p" (Context.squash (flags a))) eqn:Hp;
          [|rewrite Hcall; by eexists].
        destruct (forks (Context.squash (flags a))) eqn:Hf;
          [rewrite Hcall; by eexists|].
        destruct (Popen h (kws_of l)) eqn:Hpopen;
          [rewrite Hcall; by eexists|].
        rewrite Hcall.
        destruct (pager_returns h r
                    (new_process (kws_of l)
                       (record (EmitBefore (context l)) (suspended r l s1)))
                    s4 m (Hpager eq_refl eq_refl eq_refl) Hfm)
          as (v & s' & -> & _).
        by eexists.
      * rewrite (call_stop h r _ _ _ _ _ _ Ha Hpre). by eexists.
      * destruct H as (_ & Hm & Hnone & _).
        destruct (Hsh Hm) as [? ?]. congruence.
  - intros Hfalse.
    destruct (call_split h r a s) as [Heq|(p & _ & Heq)].
    + rewrite Heq in Hfalse |- *.
      apply (own_false h r a s). rewrite <- Hfalse.
      by destruct (call 1 h r a s).
    + rewrite Heq in Hfalse.
      by destruct (pager_not_false h r p (call 1 h r a s).2).
  - destruct (own_spawn_failure a s) as (evs1 & Ht1 & Hown).
    destruct (call_split h r a s) as [Heq|(p & Hun & Heq)].
    + rewrite Heq. by exists evs1.
    + rewrite Heq.
      destruct (own_spawn_failure (pager_args p) (call 1 h r a s).2)
        as (evs2 & Ht2 & Hpager).
      exists (evs1 ++ evs2)%list. split.
      * by rewrite Ht2, Ht1, <- app_assoc.
      * intros kws e Hin. apply elem_of_app in Hin as [Hin|Hin].
        -- destruct (Hown kws e Hin) as [Hnone _]. congruence.
        -- by apply Hpager.
Qed.

End Escapes.

(** * The chained pager call *)

Section Pager.

Import Runner.

Variables (h : Host) (r : Runner.t).
Implicit Types (l : locals) (s : State) (fl : flow) (a : args).

Lemma default_options_stdin a act :
  default_options h a act !! "stdin" = popen_kws a !! "stdin".
Proof.
  unfold default_options. repeat case_match; by simplify_map_eq.
Qed.

(** The chained call passes its preconditions when SHELL is set, and
    its spawn options hold the pager command and the given [stdin]. *)
Lemma pager_preconditions p s :
  is_Some (environ h !! "SHELL") →
  ∃ lp, preconditions h r (entry r (pager_args p) (Command "less")) s
        = (Continue, lp, s) ∧
        fl_of lp = [] ∧
        wait_of lp = Some true ∧
        Context.app (context lp) = "pager" ∧
        kws_of lp !! "args" = Some (VStr "less") ∧
        kws_of lp !! "stdin" = Some (stdout p).
Proof.
  intros Henv.
  assert (∃ lp, preconditions h r
                  (entry r (pager_args p) (Command "less")) s
                = (Continue, lp, s)) as [lp Hpre].
  { apply (preconditions_continue h r (pager_args p) (Command "less") s);
      [by intros _ | intros Hx; vm_compute in Hx; done..]. }
  exists lp. split; [done|].
  pose proof (preconditions_spec h r _ _ _ _ _ _ Hpre)
    as (Hfl & _ & _ & _ & _ & _ & _ & Hw & _).
  destruct (preconditions_options h r _ _ _ _ _ Hpre) as (_ & Hkws).
  destruct (keeps_context_preconditions h r _ _ _ _ _ Hpre)
    as (_ & Happ & _).
  split; [exact Hfl|]. split; [exact Hw|]. split; [exact Happ|].
  rewrite Hkws. unfold final_options.
  change (has "p" (Context.squash (flags (pager_args p)))) with false.
  change (has "s" (Context.squash (flags (pager_args p)))) with false.
  split.
  - by rewrite lookup_insert_eq.
  - rewrite lookup_insert_ne by done. rewrite default_options_stdin.
    apply lookup_singleton_eq.
Qed.

(** ** C8 *)

(** C8: when output piping is active (flag [p]) and the spawn produced
    a child, the body ends by calling the function it was entered
    through, whatever that is, in the state the cleanup leaves and with
    the pager command ['less'] as action, [try_app_first] true, the app
    ['pager'] and the child's [stdout] as [stdin], the other arguments
    at their defaults; what that call gives is what the body gives.
    So the call is the pager call from there on: with SHELL in the
    environment its trace goes on with the 'before' notification of the
    pager call and the spawn of ['less'] on the child's [stdout], and
    its result is the pager's process object, or None when that spawn
    raised. *)
Theorem pager_chaining a act s l s1 pend p error s2 :
  action a = Some act →
  has "p" (Context.squash (flags a)) = true →
  preconditions h r (entry r a act) s = (Continue, l, s1) →
  run h r l s1 = (pend, Some p, error, s2) →
  let s3 := record (EmitAfter (context l) error) s2 in
  let s4 := if toggle_ui l then _activate_ui r true s3 else s3 in
  let pager :=
    {| action := Some (Command "less"); try_app_first := true;
       app := "pager"; files := None; mode := 0%Z; flags := [];
       wait := Some true; popen_kws := {[ "stdin" := stdout p ]} |} in
  (∀ self, body self h r a s = self pager s4) ∧
  __call__ h r a s = __call__ h r pager s4 ∧
  (is_Some (environ h !! "SHELL") →
   ∃ lp post,
     preconditions h r (entry r pager (Command "less")) s4
     = (Continue, lp, s4) ∧
     Context.app (context lp) = "pager" ∧
     kws_of lp !! "args" = Some (VStr "less") ∧
     kws_of lp !! "stdin" = Some (stdout p) ∧
     trace (__call__ h r a s).2
     = (trace s4 ++ toggle_events r lp false
        ++ [EmitBefore (context lp);
            CallPopen (kws_of lp) (Popen h (kws_of lp))]
        ++ post)%list ∧
     (__call__ h r a s).1
     = Returns (match Popen h (kws_of lp) with
                | None => RProcess (new_process (kws_of lp) s4)
                | Some _ => RNone
                end)).
Proof.
  intros Hact Hp Hpre Hrun s3 s4 pager.
  pose proof (run_process_fm h r _ _ _ _ _ _ Hrun) as [m Hfm].
  pose proof (preconditions_spec h r _ _ _ _ _ _ Hpre)
    as (_ & _ & _ & _ & _ & Hpipe & _).
  assert (∀ self, body self h r a s = self pager s4) as Hbody.
  { intros self. unfold body. rewrite Hact, Hpre, Hrun.
    unfold finally_block, signal_emit. by rewrite Hfm, Hpipe, Hp. }
  assert (__call__ h r a s = __call__ h r pager s4) as Hcall.
  { unfold __call__ at 1.
    change (call 2 h r a s) with (body (call 1 h r) h r a s).
    rewrite Hbody. unfold __call__.
    change (call 2 h r pager s4) with (body (call 1 h r) h r pager s4).
    change (call 1 h r pager s4) with (body (call 0 h r) h r pager s4).
    symmetry. apply (body_pager h r _ _ p). }
  split; [exact Hbody|]. split; [exact Hcall|].
  intros Henv.
  destruct (pager_preconditions p s4 Henv)
    as (lp & Hpre' & Hflp & Hwp & Happ & Hargs & Hstdin).
  destruct (call_passes h r (pager_args p) (Command "less") s4 lp s4 m
              eq_refl Hfm Hpre')
    as (s5 & Hcall' & _ & Ht5 & _).
  change (pager_args p) with pager in Hcall', Hpre'.
  change (Context.squash (flags pager)) with (@nil N) in Hcall'.
  change (has "p" []) with false in Hcall'. cbv iota in Hcall'.
  exists lp. eexists. split; [exact Hpre'|].
  split; [exact Happ|]. split; [exact Hargs|]. split; [exact Hstdin|].
  rewrite Hcall, Hcall'. cbn [fst snd]. split.
  - rewrite Ht5. unfold invocation_events, spawn_call. rewrite Hflp.
    change (forks []) with false. cbv iota. reflexivity.
  - unfold spawned. change (forks []) with false. cbv iota.
    destruct (Popen h (kws_of lp)); [done|].
    cbn [of_process]. do 2 f_equal. unfold new_process.
    cbn [record next_id]. by rewrite (proj2 (proj2 (suspended_rest r lp s4))).
Qed.

(** ** X18 *)

(** X18: take a call with an action and the flag [p] that does not take
    the detached spawn, on a Runner with a manager and on a host where
    SHELL is set, every spawn works, and the escalation tool and the
    display are there when [r] and [t] ask for them.  It returns the
    process object of the pager, which it has waited for.  The piped
    child got the first free identifier and the pager the next; the
    child is in the zombie set unless [r] without [t] made the call
    wait for it, and the pager never is. *)
Theorem pager_result_is_returned a act s :
  let x := Context.squash (flags a) in
  let child := next_id (if has "s" x then opened s else s) in
  action a = Some act → is_Some (fm r) →
  is_Some (environ h !! "SHELL") →
  (∀ kws, Popen h kws = None) →
  has "p" x = true → forks x = false →
  (has "r" x = true → no_sudo h = false) →
  (has "t" x = true → has_display h = true) →
  ∃ q s',
    __call__ h r a s = (Returns (RProcess q), s') ∧
    pid q = child + 1 ∧
    ProcessWait (pid q) ∈ trace s' ∧
    zombies s' = if has "r" x && negb (has "t" x) then zombies s
                 else {[child]} ∪ zombies s.
Proof.
  intros x child Ha [m Hfm] Henv Hpopen Hp Hf Hr Ht.
  destruct (preconditions_continue h r a act s (λ _, Henv) Hr Ht)
    as [l Hpre].
  fold x in Hpre.
  set (s1 := if has "s" x then opened s else s) in *.
  pose proof (preconditions_spec h r _ _ _ _ _ _ Hpre)
    as (_ & _ & _ & _ & _ & _ & _ & Hw & _).
  fold x in Hw. rewrite Hp in Hw.
  assert (wait_truthy (wait_of l) = has "r" x && negb (has "t" x)) as Hwt.
  { rewrite Hw. by destruct (has "t" x), (has "r" x), (has "f" x). }
  destruct (call_passes h r a act s l s1 m Ha Hfm Hpre)
    as (s4 & Hcall & _ & _ & _ & Hz & _ & _ & Hn).
  fold x in Hcall, Hz, Hn. rewrite Hp in Hcall.
  unfold spawned in Hcall, Hz, Hn. rewrite Hf, Hpopen in Hcall, Hz, Hn.
  set (p := new_process (kws_of l)
              (record (EmitBefore (context l)) (suspended r l s1))) in *.
  assert (pid p = child) as Hpid.
  { unfold p. cbn [new_process pid record next_id].
    apply (suspended_rest r l s1). }
  destruct (pager_preconditions p s4 Henv)
    as (lp & Hpre' & Hflp & Hwp & _).
  destruct (call_passes h r (pager_args p) (Command "less") s4 lp s4 m
              eq_refl Hfm Hpre')
    as (s5 & _ & Hown & Ht5 & _ & Hz5 & _ & _ & _).
  unfold spawned in Hown, Hz5.
  change (Context.squash (flags (pager_args p))) with (@nil N) in Hown, Hz5.
  change (has "p" []) with false in *. change (forks []) with false in *.
  rewrite Hpopen in Hown, Hz5. rewrite Hwp in Hz5. cbn [wait_truthy] in Hz5.
  cbn [of_process] in Hown.
  eexists _, s5. split; [by rewrite Hcall|]. split; [|split].
  - cbn [new_process pid record next_id].
    rewrite (proj2 (proj2 (suspended_rest r lp s4))). by rewrite Hn.
  - rewrite Ht5. unfold invocation_events, raised, spawned, after_spawn.
    rewrite Hflp. change (forks []) with false.
    rewrite Hpopen, Hwp. cbn [wait_truthy].
    rewrite !elem_of_app. right. do 2 right. left. left. by left.
  - assert (zombies s1 = zombies s) as Hzs
      by apply (mid_rest (has "s" x) s).
    by rewrite Hz5, Hz, Hpid, Hwt, Hzs.
Qed.

End Pager.

(** * The amended claims on sample calls *)

Section Revisited.

Import Runner Sample.

(** ** C1 *)

Lemma exception_escapes_witness :
  let h := linux in let r := runner in
  let a := run_with (Some (Command "ls")) "pw" in let s := fresh in
  let out := __call__ h r a s in
  let shell := is_Some (environ h !! "SHELL") in
  ((∃ v, out.1 = Returns v) ↔
   ∀ act, action a = Some act →
     (shell_mode a act = true → shell) ∧
     ∀ l s1, preconditions h r (entry r a act) s = (Continue, l, s1) →
       is_Some (fm r) ∧
       (has "p" (fl_of l) = true → forks (fl_of l) = false →
        Popen h (kws_of l) = None → shell)) ∧
  out.1 ≠ Unfinished ∧
  (∀ e, out.1 = Raises e →
        e = KeyError "SHELL" ∨ e = AttributeError "signal_emit") ∧
  (out.1 = Returns RFalse →
   ∃ msg, log out.2 = (log s ++ match logfunc r with
                                | Some _ => [msg] | None => []
                                end)%list) ∧
  ∃ evs, trace out.2 = (trace s ++ evs)%list ∧
    ∀ kws e, CallPopen kws (Some e) ∈ evs →
      out.1 = Returns RNone ∧
      (is_OSError e = true → is_Some (logfunc r) →
       ∃ act', kws !! "args" = Some (args_value act') ∧
               FailedToRun act' e ∈ log out.2).
Proof.
  intros h r a s.
  exact (exception_escapes_exactly h r a s).
Defined.

(** A list action needs no shell: without SHELL the call returns the
    child, and with [p] the chained pager call raises the KeyError. *)
Example list_action_needs_no_shell :
  (∃ p, (__call__ no_shell runner
           (run_with (Some (Argv ["ls"; "-l"])) EmptyString) fresh).1
        = Returns (RProcess p)) ∧
  (__call__ no_shell runner (run_with (Some (Argv ["ls"; "-l"])) "p")
     fresh).1
  = Raises (KeyError "SHELL").
Proof. split; [eexists|]; vm_compute; reflexivity. Qed.

(** ** C3 *)

Lemma detached_spawn_witness :
  let a := run_with (Some (Argv ["mpv"; "a.mkv"])) "fw" in
  ∃ l s',
    preconditions failing runner (entry runner a (Argv ["mpv"; "a.mkv"]))
      fresh
    = (Continue, l, fresh) ∧
    wait_of l = Some false ∧
    zombies s' = zombies fresh ∧
    __call__ failing runner a fresh = (Returns RNone, s') ∧
    trace s'
    = [EmitBefore (context l);
       CallPopenForked (Context.popen_kws (context l)) false;
       EmitAfter (context l) None].
Proof.
  intros a.
  apply (detached_spawn_returns_none failing runner a
           (Argv ["mpv"; "a.mkv"]) fresh);
    try reflexivity.
  intros H. vm_compute in H. discriminate H.
Defined.

(** The same call on the Runner of the module docstring, which has no
    manager. *)
Example detached_spawn_without_manager :
  __call__ failing docstring_runner
    (run_with (Some (Argv ["mpv"; "a.mkv"])) "fw") fresh
  = (Raises (AttributeError "signal_emit"), fresh).
Proof. vm_compute. reflexivity. Qed.

(** ** C5 *)

(** C5 does not hold as stated: with flag [r], no escalation tool, a
    command string as action and no SHELL in the environment, the
    KeyError of [os.environ['SHELL']] leaves the call in front of the
    [r] clause: nothing is returned and nothing logged. *)
Lemma escalation_without_shell_raises :
  let a := run_with (Some (Command "make install")) "r" in
  has "r" (Context.squash (flags a)) = true ∧
  no_sudo unconfigured = true ∧
  __call__ unconfigured runner a fresh = (Raises (KeyError "SHELL"), fresh).
Proof. cbv zeta. split_and!; vm_compute; reflexivity. Qed.

Lemma escalation_tool_missing_witness :
  let a := run_with (Some (Command "make install")) "r" in
  ∃ s',
    __call__ bare runner a fresh = (Returns RFalse, s') ∧
    log s' = [msg_no_sudo] ∧
    zombies s' = ∅ ∧
    grows open_event fresh s' ∧
    ∀ act, action a = Some act →
      ∃ l, preconditions bare runner (entry runner a act) fresh
           = (Stop RFalse, l, s') ∧
           cmd l = act.
Proof.
  intros a.
  apply (escalation_tool_missing bare runner a fresh); try reflexivity.
  intros act _ _. decided.
Defined.

(** ** C8 *)

Lemma pager_chaining_witness :
  let h := linux in let r := runner in
  let a := run_with (Some (Command "ls")) "p" in let s := fresh in
  let p := {| pid := 0; stdout := VStream (ChildStdout 0) |} in
  let pager :=
    {| action := Some (Command "less"); try_app_first := true;
       app := "pager"; files := None; mode := 0%Z; flags := [];
       wait := Some true; popen_kws := {[ "stdin" := stdout p ]} |} in
  ∃ s4,
    (∀ self, body self h r a s = self pager s4) ∧
    __call__ h r a s = __call__ h r pager s4 ∧
    (is_Some (environ h !! "SHELL") →
     ∃ lp post,
       preconditions h r (entry r pager (Command "less")) s4
       = (Continue, lp, s4) ∧
       Context.app (context lp) = "pager" ∧
       kws_of lp !! "args" = Some (VStr "less") ∧
       kws_of lp !! "stdin" = Some (stdout p) ∧
       trace (__call__ h r a s).2
       = (trace s4 ++ toggle_events r lp false
          ++ [EmitBefore (context lp);
              CallPopen (kws_of lp) (Popen h (kws_of lp))]
          ++ post)%list ∧
       (__call__ h r a s).1
       = Returns (match Popen h (kws_of lp) with
                  | None => RProcess (new_process (kws_of lp) s4)
                  | Some _ => RNone
                  end)).
Proof.
  intros h r a s p pager. eexists.
  eapply (pager_chaining h r a (Command "ls") s).
  - reflexivity.
  - reflexivity.
  - vm_compute. reflexivity.
  - vm_compute. reflexivity.
Defined.

(** ** C10 *)

(** C10 does not hold as stated: with flag [t], no display, a command
    string as action and no SHELL in the environment, the failed
    precondition does not return False: the KeyError of
    [os.environ['SHELL']] leaves the call in front of the [t] clause. *)
Lemma no_display_without_shell_raises :
  let a := run_with (Some (Command "ls")) "t" in
  has "t" (Context.squash (flags a)) = true ∧
  has_display unconfigured = false ∧
  __call__ unconfigured runner a fresh = (Raises (KeyError "SHELL"), fresh).
Proof. cbv zeta. split_and!; vm_compute; reflexivity. Qed.

Lemma failure_sentinels_witness :
  (__call__ linux runner (run_with None "f") fresh).1 = Returns RFalse ∧
  (__call__ bare runner (run_with (Some (Command "ls")) "r") fresh).1
  = Returns RFalse ∧
  (__call__ bare runner (run_with (Some (Command "ls")) "t") fresh).1
  = Returns RFalse ∧
  (__call__ failing runner (run_with (Some (Command "ls")) "w") fresh).1
  = Returns RNone ∧
  (__call__ linux runner (run_with (Some (Command "ls")) "f") fresh).1
  = Returns RNone.
Proof.
  split; [|split; [|split; [|split]]].
  - destruct (failure_sentinels linux runner (run_with None "f") fresh)
      as (H & _).
    apply H. reflexivity.
  - destruct (failure_sentinels bare runner
                (run_with (Some (Command "ls")) "r") fresh) as (_ & H & _).
    destruct (H (Command "ls") eq_refl) as (Hpre & _).
    destruct Hpre as (Hr & _); [intros _; decided|].
    apply Hr; reflexivity.
  - destruct (failure_sentinels bare runner
                (run_with (Some (Command "ls")) "t") fresh) as (_ & H & _).
    destruct (H (Command "ls") eq_refl) as (Hpre & _).
    destruct Hpre as (_ & Ht); [intros _; decided|].
    apply Ht; reflexivity.
  - destruct (failure_sentinels failing runner
                (run_with (Some (Command "ls")) "w") fresh) as (_ & H & _).
    destruct (H (Command "ls") eq_refl) as (_ & Hs).
    edestruct Hs as (Hos & _); [vm_compute; reflexivity | decided |].
    apply (Hos 2); reflexivity.
  - destruct (failure_sentinels linux runner
                (run_with (Some (Command "ls")) "f") fresh) as (_ & H & _).
    destruct (H (Command "ls") eq_refl) as (_ & Hs).
    edestruct Hs as (_ & Hfk); [vm_compute; reflexivity | decided |].
    apply Hfk; reflexivity.
Defined.

(** ** X18 *)

Lemma pager_result_witness :
  let h := linux in let r := runner in let act := Command "ls" in
  let a := run_with (Some act) "p" in let s := fresh in
  let x := Context.squash (flags a) in
  let child := next_id (if has "s" x then opened s else s) in
  ∃ q s',
    __call__ h r a s = (Returns (RProcess q), s') ∧
    pid q = child + 1 ∧
    ProcessWait (pid q) ∈ trace s' ∧
    zombies s' = if has "r" x && negb (has "t" x) then zombies s
                 else {[child]} ∪ zombies s.
Proof.
  intros h r act a s x child.
  apply (pager_result_is_returned h r a act s);
    first [ reflexivity | decided | intros kws; reflexivity
          | intros H; vm_compute in H; discriminate H ].
Defined.

End Revisited.

(** * The properties on sample calls *)

Section Instances.

Import Runner Sample.

Lemma silent_flag_witness :
  let h := linux in let r := runner in let act := Command "make" in
  let a := run_with (Some act) "sp" in let s := fresh in
  ∃ l s1,
    preconditions h r (entry r a act) s = (Continue, l, s1) ∧
    kws_of l !! "stdout" = Some (VStream (DevNull (next_id s) "w")) ∧
    kws_of l !! "stderr" = Some (VStream (DevNull (next_id s) "w")) ∧
    kws_of l !! "stdin" = Some (VStream (DevNull (next_id s + 1) "r")) ∧
    DevNull (next_id s) "w" ∈ open_files s1 ∧
    DevNull (next_id s + 1) "r" ∈ open_files s1.
Proof.
  intros h r act a s. eexists _, _. split; [vm_compute; reflexivity|].
  eapply (silent_flag_binds_null_device h r a act s);
    vm_compute; reflexivity.
Defined.

Lemma pipe_flag_binds_pipe_witness :
  let h := linux in let r := runner in let act := Command "ls" in
  let a := run_with (Some act) "p" in let s := fresh in
  ∃ l s1,
    preconditions h r (entry r a act) s = (Continue, l, s1) ∧
    kws_of l !! "stdout" = Some (VStream PIPE) ∧
    kws_of l !! "stderr" = Some (VStream STDOUT).
Proof.
  intros h r act a s. eexists _, _. split; [vm_compute; reflexivity|].
  eapply (pipe_flag_binds_pipe h r a act s); vm_compute; reflexivity.
Defined.

Lemma caller_streams_witness :
  let h := linux in let r := runner in let act := Command "ls" in
  let a := run_with (Some act) "w" in let s := fresh in
  ∃ l s1,
    preconditions h r (entry r a act) s = (Continue, l, s1) ∧
    kws_of l !! "stdout"
    = Some (default (VStream SysStdout) (popen_kws a !! "stdout")) ∧
    kws_of l !! "stderr"
    = Some (default (VStream SysStderr) (popen_kws a !! "stderr")) ∧
    kws_of l !! "stdin" = popen_kws a !! "stdin".
Proof.
  intros h r act a s. eexists _, _. split; [vm_compute; reflexivity|].
  eapply (caller_streams_are_kept h r a act s); vm_compute; reflexivity.
Defined.

Lemma shell_option_witness :
  let h := linux in let r := runner in let act := Command "ls" in
  let a := run_with (Some act) EmptyString in let s := fresh in
  ∃ l s1,
    preconditions h r (entry r a act) s = (Continue, l, s1) ∧
    kws_of l !! "shell"
    = Some (default (VBool (is_str act)) (popen_kws a !! "shell")) ∧
    (shell_mode a act = true →
     ∃ sh, environ h !! "SHELL" = Some sh ∧
           kws_of l !! "executable" = Some (VStr sh)) ∧
    (shell_mode a act = false →
     kws_of l !! "executable" = popen_kws a !! "executable").
Proof.
  intros h r act a s. eexists _, _. split; [vm_compute; reflexivity|].
  eapply (shell_option_default h r a act s); vm_compute; reflexivity.
Defined.

Lemma action_rewriting_witness :
  let h := linux in let r := runner in let act := Argv ["make"; "install"] in
  let a := run_with (Some act) "rft" in let s := fresh in
  ∃ l s1,
    preconditions h r (entry r a act) s = (Continue, l, s1) ∧
    let x := Context.squash (flags a) in
    let a1 := if has "r" x then with_sudo (has "f" x) act else act in
    let a2 := if has "t" x then in_terminal (get_term h) a1 else a1 in
    cmd l = a2 ∧
    kws_of l !! "args" = Some (args_value a2) ∧
    is_str a2 = is_str act.
Proof.
  intros h r act a s. eexists _, _. split; [vm_compute; reflexivity|].
  eapply (action_rewriting h r a act s); vm_compute; reflexivity.
Defined.

Lemma other_options_witness :
  let h := linux in let r := runner in let act := Command "ls" in
  let a := kw_args (Some act) "s" {[ "cwd" := VStr "/tmp" ]} in
  let s := fresh in
  ∃ l s1,
    preconditions h r (entry r a act) s = (Continue, l, s1) ∧
    kws_of l !! "cwd" = popen_kws a !! "cwd".
Proof.
  intros h r act a s. eexists _, _. split; [vm_compute; reflexivity|].
  eapply (other_options_pass_through h r a act s);
    [vm_compute; reflexivity | decided].
Defined.

Lemma flag_precedence_witness :
  let h := linux in let r := runner in let act := Command "ls" in
  let a := run_with (Some act) "wrt" in let s := fresh in
  ∃ l s1,
    preconditions h r (entry r a act) s = (Continue, l, s1) ∧
    let x := Context.squash (flags a) in
    toggle_ui l
    = (if has "t" x then false else
       if has "r" x then true else
       negb (has "f" x || has "s" x || has "p" x)) ∧
    wait_of l
    = (if has "t" x then Some false else
       if has "r" x then Some true else
       if has "f" x || has "p" x then Some false else wait a) ∧
    pipe_output l = has "p" x ∧
    wait_for_enter l
    = (has "w" x && negb (has "p" x) && negb (has "f" x)
       && wait_truthy (wait a)).
Proof.
  intros h r act a s. eexists _, _. split; [vm_compute; reflexivity|].
  eapply (flag_precedence h r a act s). vm_compute. reflexivity.
Defined.

Lemma notifications_witness :
  let h := linux in let r := runner in let act := Command "ls" in
  let a := run_with (Some act) "w" in let s := fresh in
  ∃ l s1,
    preconditions h r (entry r a act) s = (Continue, l, s1) ∧
    let x := Context.squash (flags a) in
    let kws := kws_of l in
    let sb := record (EmitBefore (context l)) (suspended r l s1) in
    ∃ post,
      trace (__call__ h r a s).2
      = (trace s1
         ++ toggle_events r l false
         ++ [EmitBefore (context l); spawn_call h x kws]
         ++ (if raised h x kws then []
             else after_spawn l (spawned h x kws sb))
         ++ [EmitAfter (context l) (captured h x kws)]
         ++ toggle_events r l true
         ++ post)%list ∧
      (has "p" x = false ∨ spawned h x kws sb = None → post = []).
Proof.
  intros h r act a s. eexists _, _. split; [vm_compute; reflexivity|].
  eapply (notifications_bracket_the_spawn h r a act s);
    vm_compute; reflexivity.
Defined.

Lemma child_is_kept_witness :
  let h := linux in let r := runner in let act := Command "ls" in
  let a := run_with (Some act) "t" in let s := fresh in
  ∃ l s1,
    preconditions h r (entry r a act) s = (Continue, l, s1) ∧
    ∃ p s' evs,
      __call__ h r a s = (Returns (RProcess p), s') ∧
      pid p = next_id s1 ∧
      trace s' = (trace s1 ++ evs)%list ∧
      if wait_truthy (wait_of l)
      then zombies s' = zombies s ∧ ProcessWait (pid p) ∈ evs
      else zombies s' = {[pid p]} ∪ zombies s ∧ Forall no_wait_event evs.
Proof.
  intros h r act a s. eexists _, _. split; [vm_compute; reflexivity|].
  eapply (child_is_waited_for_or_kept h r a act s);
    vm_compute; reflexivity.
Defined.


Lemma other_spawn_exception_witness :
  let h := rejecting in let r := runner in let act := Command "ls" in
  let a := run_with (Some act) "w" in let s := fresh in
  let ex := OtherError "ValueError" in
  ∃ l s1,
    preconditions h r (entry r a act) s = (Continue, l, s1) ∧
    ∃ s' evs,
      __call__ h r a s = (Returns RNone, s') ∧
      trace s' = (trace s1 ++ evs)%list ∧
      CallPopen (kws_of l) (Some ex) ∈ evs ∧
      EmitAfter (context l) None ∈ evs ∧
      zombies s' = zombies s ∧
      ∀ msg, msg ∈ log s' →
             msg ∈ log s ∨ msg = Text "Failed to suspend UI" ∨
             msg = Text "Failed to initialize UI".
Proof.
  intros h r act a s ex. eexists _, _. split; [vm_compute; reflexivity|].
  eapply (other_spawn_exception_is_dropped h r a act s);
    vm_compute; reflexivity.
Defined.

Lemma spawn_failure_witness :
  let h := failing in let r := runner in let act := Command "ls" in
  let a := run_with (Some act) "r" in let s := fresh in
  ∃ l s1,
    preconditions h r (entry r a act) s = (Continue, l, s1) ∧
    let x := Context.squash (flags a) in
    EmitAfter (context l) (Some (OSError 2)) ∈ trace (__call__ h r a s).2 ∧
    (is_Some (logfunc r) →
     FailedToRun (final_action h x act) (OSError 2)
       ∈ log (__call__ h r a s).2).
Proof.
  intros h r act a s. eexists _, _. split; [vm_compute; reflexivity|].
  eapply (spawn_failure_is_reported h r a act s);
    vm_compute; reflexivity.
Defined.

Lemma ui_calls_witness :
  let h := linux in let r := runner in
  let a := run_with (Some (Command "ls")) "p" in let s := fresh in
  ∃ evs, trace (__call__ h r a s).2 = (trace s ++ evs)%list ∧
         ui_balance evs = 0%Z.
Proof.
  intros h r a s. eapply (ui_calls_are_paired h r a s). reflexivity.
Defined.

Lemma call_without_manager_witness :
  let h := linux in let r := docstring_runner in
  let act := Command "sleep 2" in
  let a := run_with (Some act) EmptyString in let s := fresh in
  ∃ l s1,
    preconditions h r (entry r a act) s = (Continue, l, s1) ∧
    __call__ h r a s
    = (Raises (AttributeError "signal_emit"), suspended r l s1) ∧
    trace (suspended r l s1) = (trace s1 ++ toggle_events r l false)%list.
Proof.
  intros h r act a s. eexists _, _. split; [vm_compute; reflexivity|].
  eapply (call_without_manager h r a act s); vm_compute; reflexivity.
Defined.

Lemma pager_reads_witness :
  let h := linux in let r := runner in let act := Command "ls" in
  let a := run_with (Some act) "ps" in let s := fresh in
  ∃ l s1,
    preconditions h r (entry r a act) s = (Continue, l, s1) ∧
    let x := Context.squash (flags a) in
    ∃ p s4,
      __call__ h r a s = __call__ h r (pager_args p) s4 ∧
      pid p = next_id s1 ∧
      popen_kws (pager_args p) !! "stdin"
      = Some (if has "s" x then VNone else VStream (ChildStdout (pid p))).
Proof.
  intros h r act a s. eexists _, _. split; [vm_compute; reflexivity|].
  eapply (pager_reads_the_child h r a act s); vm_compute; reflexivity.
Defined.

Lemma flags_count_squashed_witness :
  let h := linux in let r := runner in
  let a := run_with (Some (Command "ls")) "rfF" in let s := fresh in
  __call__ h r a s = __call__ h r (with_flags (str_of "r") a) s.
Proof.
  intros h r a s. apply (flags_count_squashed h r a (str_of "r") s).
  vm_compute. reflexivity.
Defined.

Lemma false_means_nothing_ran_witness :
  let h := bare in let r := runner in
  let a := run_with (Some (Command "ls")) "st" in let s := fresh in
  ∃ s',
    __call__ h r a s = (Returns RFalse, s') ∧
    zombies s' = zombies s ∧ grows open_event s s' ∧
    ∃ msg, log s' = (log s ++ match logfunc r with
                              | Some _ => [msg] | None => []
                              end)%list.
Proof.
  intros h r a s. eexists. split; [vm_compute; reflexivity|].
  apply (false_means_nothing_ran h r a s). vm_compute. reflexivity.
Defined.

Lemma filepaths_witness :
  let c := two_files in let fs := ["a.txt"; "b.txt"] in
  ((∀ f, f ∈ fs → is_Some (tmp_path f)) →
   ∃ ps, Context.filepaths tmp_path c = inr ps ∧
         Forall2 (λ f p, tmp_path f = Some p) fs ps) ∧
  ((∃ f, f ∈ fs ∧ tmp_path f = None) →
   Context.filepaths tmp_path c = inr []).
Proof.
  intros c fs. apply (filepaths_all_or_nothing tmp_path c fs). reflexivity.
Defined.

Lemma notified_context_witness :
  let h := linux in let r := runner in let act := Command "ls" in
  let a := run_with (Some act) "w" in let s := fresh in
  ∃ fl l s1,
    preconditions h r (entry r a act) s = (fl, l, s1) ∧
    Context.action (context l) = None ∧
    Context.app (context l) = app a ∧
    Context.mode (context l) = mode a ∧
    Context.files (context l) = files a ∧
    Context.file (context l) = (files a ≫= head) ∧
    Context.fm (context l) = fm r ∧
    (files a = None →
     ∀ path, Context.__iter__ path (context l) = inl TypeError).
Proof.
  intros h r act a s. eexists _, _, _. split; [vm_compute; reflexivity|].
  eapply (notified_context_lacks_the_action h r a act s).
  vm_compute. reflexivity.
Defined.

Lemma squash_reordering_witness :
  Context.squash (str_of "fFp") ≡ₚ Context.squash (str_of "pFf").
Proof.
  apply (squash_respects_reordering (str_of "fFp") (str_of "pFf")).
  decided.
Defined.

Lemma missing_shell_variable_witness :
  let h := no_shell in let r := runner in let act := Command "ls" in
  let a := run_with (Some act) "s" in let s := fresh in
  __call__ h r a s = (Raises (KeyError "SHELL"), s).
Proof.
  intros h r act a s.
  apply (missing_shell_variable_raises_first h r a act s);
    vm_compute; reflexivity.
Defined.

End Instances.
